(** * alicache reverse proxy: cache coordination, resumable download, eviction

    A shallow embedding of [alicache/revproxy/revproxy.py]: the fetch
    orchestrator [robust_get], the resumable downloader [robust_get_sync]
    and the periodic sweep [clean_cache], over an explicit model of the
    things the program talks to: a filesystem keyed by path, a clock, an
    HTTP backend and the Twisted log.

    Conventions.
    - Python floats holding times (seconds) are rationals [Q]; [int(x)] on
      them is truncation toward zero ([py_int]).
    - Python exceptions are values of [exn]; a call either returns or
      raises ([result]).
    - Every operating-system call can fail for reasons the path map does
      not show (permissions, read-only mounts, I/O errors): the world
      carries a table [fault] giving, per call and path, the errno it is
      refused with. Writing to a file that is open is never refused.
    - A coroutine runs against a schedule, a list of steps of the rest of
      the system; each suspension consumes one step, and a coroutine whose
      schedule is used up while it is suspended ends [Suspended]. A
      download handed to a thread is recorded in [spawned]; a caller that
      awaits it is suspended, and the thread has run [robust_get_sync] to
      its end when the caller is resumed.
    - Directories carry no timestamps. *)

From Stdlib Require Import ZArith QArith String Ascii List Lia.
From Stdlib.Strings Require Import Byte.
From stdpp Require Import base option list gmap strings.

Open Scope string_scope.

(** ** Paths: the parts of [os.path] and [str] the program uses *)

Module Path.

(** Splits at the last slash: [Some (head, tail)] with the slash kept at
    the end of [head], [None] when the path has no slash
    (Python: [i = p.rfind('/') + 1; head, tail = p[:i], p[i:]]). *)
Fixpoint rsplit (p : string) : option (string * string) :=
  match p with
  | EmptyString => None
  | String c p' =>
      match rsplit p' with
      | Some (h, t) => Some (String c h, t)
      | None => if Ascii.eqb c "/" then Some (String c EmptyString, p') else None
      end
  end.

(** [s.rstrip('/')] *)
Fixpoint rstrip (s : string) : string :=
  match s with
  | EmptyString => EmptyString
  | String c s' =>
      match rstrip s' with
      | EmptyString => if Ascii.eqb c "/" then EmptyString else String c EmptyString
      | r => String c r
      end
  end.

(** [head == '/' * len(head)] *)
Fixpoint all_slashes (s : string) : bool :=
  match s with
  | EmptyString => true
  | String c s' => Ascii.eqb c "/" && all_slashes s'
  end.

(** [os.path.dirname] (posixpath) *)
Definition dirname (p : string) : string :=
  match rsplit p with
  | None => EmptyString
  | Some (head, _) => if all_slashes head then head else rstrip head
  end.

(** [os.path.basename] (posixpath) *)
Definition basename (p : string) : string :=
  match rsplit p with
  | None => p
  | Some (_, tail) => tail
  end.

(** [s.endswith(suffix)]: some tail of [s] is [suffix]. *)
Fixpoint endswith (s suffix : string) : bool :=
  String.eqb s suffix ||
  match s with
  | EmptyString => false
  | String _ s' => endswith s' suffix
  end.

(** The chain of proper ancestors of a path, nearest first. *)
Fixpoint parents (fuel : nat) (p : string) : list string :=
  match fuel with
  | O => []
  | S k =>
      let d := dirname p in
      if String.eqb d EmptyString || String.eqb d p then [] else d :: parents k d
  end.

End Path.

(** ** The operating system *)

Inductive errno := EEXIST | ENOENT | ENOTDIR | EISDIR | EACCES | EROFS | EIO.

Definition errno_eqb (a b : errno) : bool :=
  match a, b with
  | EEXIST, EEXIST | ENOENT, ENOENT | ENOTDIR, ENOTDIR | EISDIR, EISDIR
  | EACCES, EACCES | EROFS, EROFS | EIO, EIO => true
  | _, _ => false
  end.

(** Python exceptions the program meets. [RequestException] carries the
    status code of [exc.response] when there is a response; [ValueError]
    is what [int] raises on a string that is no integer literal (and what
    its subclass [UnicodeDecodeError] is). *)
Inductive exn :=
| OSError (e : errno)
| RequestException (response_status : option Z)
| ValueError.

(** A call returns a value or raises: operating-system calls raise an
    [errno] (an [OSError]), the program's own functions any [exn]. *)
Inductive result (E A : Type) :=
| Ok (a : A)
| Raise (e : E).
Arguments Ok {E A} a.
Arguments Raise {E A} e.

Inductive syscall := SysStat | SysMkdir | SysOpen | SysRename | SysUnlink.

Record file := mkFile {
  f_data : list byte;
  f_atime : Q;
  f_mtime : Q }.

Inductive node :=
| File (f : file)
| Dir.

(** What [os.stat] returns, as far as the program reads it. *)
Record stat_result := mkStat {
  st_isdir : bool;
  st_size : Z;
  st_atime : Q;
  st_mtime : Q }.

(** ** The network *)

(** [requests.get(url, stream=True, timeout=..., headers=range_header)];
    [rq_range = Some (a, b)] is the header [Range: bytes=a-b]. *)
Record request := mkRequest {
  rq_url : string;
  rq_timeout : Z;
  rq_range : option (Z * Z) }.

(** A response: status, the [Content-Length] header when present, the
    chunks [iter_content] yields, and whether the stream breaks after the
    last of them (a [RequestException] without response). *)
Record response := mkResponse {
  status_code : Z;
  content_length : option Z;
  chunks : list (list byte);
  stream_breaks : bool }.

(** What [requests.get] gives. In [Responded r] the [Content-Length]
    header is absent or one that [int] accepts; [BadLength] is a response
    whose [Content-Length] header [int] rejects, of which the program sees
    nothing else. *)
Inductive reply :=
| NoResponse            (* connection error or timeout: exc.response is None *)
| Responded (r : response)
| BadLength.            (* int(resp.headers.get("Content-Length", "-1")) raises *)

(** ** The log ([log.msg]) *)

Inductive log_event :=
| LogNotFoundCached (url dest : string)
| LogCacheHit (url dest : string)
| LogWaiting (url dest : string)
| LogRetrying (url dest : string) (pause_sec : Q)
| LogAttempt (url dest : string) (attempt : Z) (retries : Z) (size_ondisk : Z)
| LogHad (url dest : string) (status : Z) (size_partial size_ondisk size_final : Z)
| LogOK (url dest : string)
| LogGivingUp (url dest : string) (status : Z)
| LogModifiedErased (file_name : string) (m_ago : Z) (size : Z)
| LogAccessedErased (file_name : string) (a_ago : Z) (size : Z)
| LogCacheReport (size_used size_saved : Z).

(** ** The world *)

Record World := mkWorld {
  files : gmap string node;               (* the filesystem, by full path *)
  fault : syscall -> string -> option errno;
  clock : Q;                              (* time.time() *)
  backend : nat -> request -> reply;      (* answer to the k-th request made *)
  requests : list request;                (* network accesses so far *)
  sleeps : list Q;                        (* time.sleep calls *)
  yields : list Q;                        (* deferLater suspensions *)
  spawned : list (string * string * string);  (* deferToThread(robust_get_sync, ...) *)
  log : list log_event }.

Definition set_files (fs : gmap string node) (w : World) : World :=
  mkWorld fs (fault w) (clock w) (backend w) (requests w) (sleeps w) (yields w)
          (spawned w) (log w).

Definition set_clock (t : Q) (w : World) : World :=
  mkWorld (files w) (fault w) t (backend w) (requests w) (sleeps w) (yields w)
          (spawned w) (log w).

Definition log_msg (e : log_event) (w : World) : World :=
  mkWorld (files w) (fault w) (clock w) (backend w) (requests w) (sleeps w) (yields w)
          (spawned w) (log w ++ [e]).

(** [time.sleep(d)]: blocks the calling thread for [d] seconds. *)
Definition time_sleep (d : Q) (w : World) : World :=
  mkWorld (files w) (fault w) (clock w + d)%Q (backend w) (requests w) (sleeps w ++ [d])
          (yields w) (spawned w) (log w).

(** [threads.deferToThread(robust_get_sync, url, dest, dest_tmp)] *)
Definition defer_to_thread (job : string * string * string) (w : World) : World :=
  mkWorld (files w) (fault w) (clock w) (backend w) (requests w) (sleeps w) (yields w)
          (spawned w ++ [job]) (log w).

(** [requests.get]: the request is recorded and the backend answers. *)
Definition requests_get (rq : request) (w : World) : reply * World :=
  (backend w (length (requests w)) rq,
   mkWorld (files w) (fault w) (clock w) (backend w) (requests w ++ [rq]) (sleeps w)
           (yields w) (spawned w) (log w)).

Module OS.

Definition stat_of (n : node) : stat_result :=
  match n with
  | File f => mkStat false (Z.of_nat (length (f_data f))) (f_atime f) (f_mtime f)
  | Dir => mkStat true 0 0 0
  end.

(** [os.stat(p)] *)
Definition stat (w : World) (p : string) : result errno stat_result :=
  match fault w SysStat p with
  | Some e => Raise e
  | None =>
      match files w !! p with
      | Some n => Ok (stat_of n)
      | None => Raise ENOENT
      end
  end.

(** [os.path.isfile(p)]: a failing [stat] means no. *)
Definition isfile (w : World) (p : string) : bool :=
  match stat w p with
  | Ok st => negb (st_isdir st)
  | Raise _ => false
  end.

(** [os.path.isdir(p)] *)
Definition isdir (w : World) (p : string) : bool :=
  match stat w p with
  | Ok st => st_isdir st
  | Raise _ => false
  end.

Definition is_file_node (o : option node) : bool :=
  match o with
  | Some (File _) => true
  | _ => false
  end.

Definition mkdir_missing (fs : gmap string node) (p : string) : gmap string node :=
  match fs !! p with
  | Some _ => fs
  | None => <[p := Dir]> fs
  end.

(** [os.makedirs(p)] with [exist_ok] left at False: every missing
    ancestor is created, then [p] itself, which must not exist. *)
Definition makedirs (p : string) (w : World) : result errno unit * World :=
  match fault w SysMkdir p with
  | Some e => (Raise e, w)
  | None =>
      if String.eqb p EmptyString then (Raise ENOENT, w)
      else if existsb (fun d => is_file_node (files w !! d)) (Path.parents (String.length p) p)
      then (Raise ENOTDIR, w)
      else
        let fs := foldl mkdir_missing (files w) (rev (Path.parents (String.length p) p)) in
        match fs !! p with
        | Some _ => (Raise EEXIST, set_files fs w)
        | None => (Ok tt, set_files (<[p := Dir]> fs) w)
        end
  end.

(** [open(p, "wb")] and close: the file exists and is empty afterwards. *)
Definition open_wb (p : string) (w : World) : result errno unit * World :=
  match fault w SysOpen p with
  | Some e => (Raise e, w)
  | None =>
      match files w !! p with
      | Some Dir => (Raise EISDIR, w)
      | _ => (Ok tt, set_files (<[p := File (mkFile [] (clock w) (clock w))]> (files w)) w)
      end
  end.

(** [open(p, "ab")]: the file is created when missing, kept otherwise. *)
Definition open_ab (p : string) (w : World) : result errno unit * World :=
  match fault w SysOpen p with
  | Some e => (Raise e, w)
  | None =>
      match files w !! p with
      | Some Dir => (Raise EISDIR, w)
      | Some (File _) => (Ok tt, w)
      | None => (Ok tt, set_files (<[p := File (mkFile [] (clock w) (clock w))]> (files w)) w)
      end
  end.

(** [fp.write(chunk)] on a file opened for appending. *)
Definition append (p : string) (chunk : list byte) (w : World) : World :=
  match files w !! p with
  | Some (File f) =>
      set_files (<[p := File (mkFile (f_data f ++ chunk) (f_atime f) (clock w))]> (files w)) w
  | _ => w
  end.

(** [os.rename(src, dst)]: one step replaces [dst] and removes [src]. *)
Definition rename (src dst : string) (w : World) : result errno unit * World :=
  match fault w SysRename src with
  | Some e => (Raise e, w)
  | None =>
      match files w !! src with
      | None => (Raise ENOENT, w)
      | Some n =>
          match n, files w !! dst with
          | File _, Some Dir => (Raise EISDIR, w)
          | Dir, Some (File _) => (Raise ENOTDIR, w)
          | _, _ => (Ok tt, set_files (<[dst := n]> (delete src (files w))) w)
          end
      end
  end.

(** [os.unlink(p)] *)
Definition unlink (p : string) (w : World) : result errno unit * World :=
  match fault w SysUnlink p with
  | Some e => (Raise e, w)
  | None =>
      match files w !! p with
      | None => (Raise ENOENT, w)
      | Some Dir => (Raise EISDIR, w)
      | Some (File _) => (Ok tt, set_files (delete p (files w)) w)
      end
  end.

End OS.

(** ** Configuration ([CONF]) *)

Record Conf := mkConf {
  LOCAL_ROOT : string;
  HTTP_CONN_RETRIES : Z;
  HTTP_TIMEOUT_SEC : Z;
  CACHE_INDEX_DURATION : Z;
  CACHE_FILE_DURATION : Z }.

(** The defaults of the source, for a given cache root. *)
Definition default_conf (root : string) : Conf :=
  mkConf root 20 15 60 1209600.

(** [GetRes]: what [robust_get] returns. *)
Inductive GetRes :=
| CACHE_HIT    (* file is already in cache *)
| END_WAIT     (* ended waiting for partial download to disappear *)
| END_FETCH    (* ended fetching the file *)
| MUST_WAIT.   (* wait timeout hit: must wait more *)

(** How one pass through a loop body ends. *)
Inductive flow (A : Type) :=
| Return (a : A)
| Continue
| Throw (x : exn).
Arguments Return {A} a.
Arguments Continue {A}.
Arguments Throw {A} x.

(** How a coroutine stands when the schedule it was given is used up. *)
Inductive outcome (A : Type) :=
| Returns (a : A)
| Raises (x : exn)
| Suspended.
Arguments Returns {A} a.
Arguments Raises {A} x.
Arguments Suspended {A}.

(** What the rest of the system does while a coroutine is suspended: time
    passes and the other coroutines, the worker threads and other processes
    change the files. *)
Record env_step := mkEnv {
  elapsed : Q;
  others : gmap string node -> gmap string node }.

(** [deferLater(reactor, d, ...)] is requested ... *)
Definition defer_later (d : Q) (w : World) : World :=
  mkWorld (files w) (fault w) (clock w) (backend w) (requests w) (sleeps w)
          (yields w ++ [d]) (spawned w) (log w).

(** ... and the coroutine resumes after the environment has run. *)
Definition resume (e : env_step) (w : World) : World :=
  mkWorld (others e (files w)) (fault w) (clock w + elapsed e)%Q (backend w) (requests w)
          (sleeps w) (yields w) (spawned w) (log w).

(** Python truthiness of [wait_timeout]: [None] and [0] are false. *)
Definition truthy (wait_timeout : option Q) : bool :=
  match wait_timeout with
  | None => false
  | Some t => negb (Qeq_bool t 0)
  end.

(** [a > b] on times. *)
Definition Qgtb (a b : Q) : bool := negb (Qle_bool a b).

(** [int(x)] on a float: truncation toward zero. *)
Definition py_int (x : Q) : Z := Z.quot (Qnum x) (Z.pos (Qden x)).

(** [resp.raise_for_status()] raises for 4xx and 5xx. *)
Definition is_http_error (status : Z) : bool :=
  (400 <=? status)%Z && (status <? 600)%Z.

(** [pause_sec = 0.4 * (1.4 ** (i - 1))] *)
Definition pause_sec (i : nat) : Q := (0.4 * 1.4 ^ (Z.of_nat i - 1))%Q.

(** The streaming loop: every non-empty chunk is written and counted. *)
Definition write_chunks (dest_tmp : string) (cs : list (list byte)) (w : World) : Z * World :=
  foldl (fun (acc : Z * World) (chunk : list byte) =>
           match chunk with
           | [] => acc
           | _ => ((acc.1 + Z.of_nat (length chunk))%Z, OS.append dest_tmp chunk acc.2)
           end) (0%Z, w) cs.

Section Program.

Variable CONF : Conf.

(** The [try] block of [robust_get_sync]. [size_final] is assigned as
    soon as [int] has read the header, before anything else can raise, so
    its value is part of what the block leaves behind. *)
Definition download_try (i : nat) (url dest dest_tmp : string) (size_final : Z) (w : World)
  : result exn unit * Z * World :=
  match OS.stat w dest_tmp with
  | Raise e => (Raise (OSError e), size_final, w)
  | Ok st =>
      let size_ondisk := st_size st in
      let w := log_msg (LogAttempt url dest (Z.of_nat i + 1) (HTTP_CONN_RETRIES CONF)
                                   size_ondisk) w in
      let range_header :=
        if negb (size_final =? -1)%Z then Some (size_ondisk, size_final) else None in
      let (rep, w) := requests_get (mkRequest url (HTTP_TIMEOUT_SEC CONF) range_header) w in
      match rep with
      | NoResponse => (Raise (RequestException None), size_final, w)
      | BadLength => (Raise ValueError, size_final, w)
      | Responded resp =>
          let size_partial := default (-1)%Z (content_length resp) in
          let size_final := if (size_final =? -1)%Z then size_partial else size_final in
          let w := log_msg (LogHad url dest (status_code resp) size_partial size_ondisk
                                   size_final) w in
          if is_http_error (status_code resp)
          then (Raise (RequestException (Some (status_code resp))), size_final, w)
          else
            match OS.open_ab dest_tmp w with
            | (Raise e, w) => (Raise (OSError e), size_final, w)
            | (Ok _, w) =>
                let (size_downloaded, w) := write_chunks dest_tmp (chunks resp) w in
                if stream_breaks resp
                then (Raise (RequestException None), size_final, w)
                else if negb ((size_partial =? size_downloaded)%Z || (size_partial =? -1)%Z)
                then (Raise (RequestException None), size_final, w)
                else
                  match OS.rename dest_tmp dest w with
                  | (Raise e, w) => (Raise (OSError e), size_final, w)
                  | (Ok _, w) => (Ok tt, size_final, log_msg (LogOK url dest) w)
                  end
            end
      end
  end.

(** The [except RequestException] block. *)
Definition download_except (i : nat) (url dest dest_tmp : string)
    (response_status : option Z) (w : World) : flow bool * World :=
  let status := default (-1)%Z response_status in
  if (status =? 404)%Z || (Z.of_nat i =? HTTP_CONN_RETRIES CONF - 1)%Z then
    let w := log_msg (LogGivingUp url dest status) w in
    match OS.open_wb (dest +:+ ".404") w with
    | (Raise e, w) => (Throw (OSError e), w)
    | (Ok _, w) =>
        match OS.unlink dest_tmp w with
        | (Raise _, w) => (Return false, w)
        | (Ok _, w) => (Return false, w)
        end
    end
  else (Continue, w).

(** The pause that opens every pass but the first. *)
Definition backoff (i : nat) (url dest : string) (w : World) : World :=
  if (0 <? i)%nat
  then time_sleep (pause_sec i) (log_msg (LogRetrying url dest (pause_sec i)) w)
  else w.

(** One pass through the [for] loop of [robust_get_sync]. *)
Definition attempt (i : nat) (url dest dest_tmp : string) (size_final : Z) (w : World)
  : flow bool * Z * World :=
  let w := backoff i url dest w in
  match download_try i url dest dest_tmp size_final w with
  | (Ok _, size_final, w) => (Return true, size_final, w)
  | (Raise (RequestException st), size_final, w) =>
      let (fl, w) := download_except i url dest dest_tmp st w in (fl, size_final, w)
  | (Raise (OSError e), size_final, w) => (Throw (OSError e), size_final, w)
  | (Raise ValueError, size_final, w) => (Throw ValueError, size_final, w)
  end.

Fixpoint retry_loop (attempts : list nat) (url dest dest_tmp : string) (size_final : Z)
    (w : World) : result exn bool * World :=
  match attempts with
  | [] => (Ok false, w)      (* if we are here there is an error *)
  | i :: rest =>
      match attempt i url dest dest_tmp size_final w with
      | (Return b, _, w) => (Ok b, w)
      | (Throw x, _, w) => (Raise x, w)
      | (Continue, size_final, w) => retry_loop rest url dest dest_tmp size_final w
      end
  end.

(** [robust_get_sync(url, dest, dest_tmp)] *)
Definition robust_get_sync (url dest dest_tmp : string) (w : World)
  : result exn bool * World :=
  retry_loop (seq 0 (Z.to_nat (HTTP_CONN_RETRIES CONF))) url dest dest_tmp (-1)%Z w.

(** The [while os.path.isfile(dest_tmp)] loop of [robust_get]; one
    element of [env] is consumed by each suspension. *)
Fixpoint wait_loop (env : list env_step) (time0 : Q) (wait_timeout : option Q)
    (dest_tmp : string) (w : World) : outcome GetRes * World :=
  if OS.isfile w dest_tmp then
    let w := defer_later 1 w in
    match env with
    | [] => (Suspended, w)
    | e :: env =>
        let w := resume e w in
        if truthy wait_timeout && Qgtb (clock w - time0) (default 0%Q wait_timeout)
        then (Returns MUST_WAIT, w)
        else wait_loop env time0 wait_timeout dest_tmp w
    end
  else (Returns END_WAIT, w).

(** The [try: os.makedirs(dest_dir) except OSError] block of [robust_get]:
    the error is swallowed when the directory is there and the errno is
    [EEXIST], and raised again otherwise. *)
Definition make_dest_dir (dest_dir : string) (w : World) : result exn unit * World :=
  match OS.makedirs dest_dir w with
  | (Raise e, w) =>
      if negb (OS.isdir w dest_dir) || negb (errno_eqb e EEXIST)
      then (Raise (OSError e), w)
      else (Ok tt, w)
  | (Ok _, w) => (Ok tt, w)
  end.

(** The end of [robust_get]: the placeholder is created and the download
    is handed to a thread. With a deadline the caller leaves at once.
    Without one it awaits the thread: the coroutine is suspended while the
    thread runs [robust_get_sync] and resumes, after the environment has
    run, with what the thread returned or raised; when the schedule is
    empty it is still suspended and the thread has not finished. *)
Definition start_download (env : list env_step) (url dest dest_tmp : string)
    (wait_timeout : option Q) (w : World) : outcome GetRes * World :=
  match OS.open_wb dest_tmp w with
  | (Raise e, w) => (Raises (OSError e), w)
  | (Ok _, w) =>
      let w := defer_to_thread (url, dest, dest_tmp) w in
      if truthy wait_timeout then (Returns MUST_WAIT, w)
      else
        match env with
        | [] => (Suspended, w)
        | e :: _ =>
            match robust_get_sync url dest dest_tmp w with
            | (Raise x, w) => (Raises x, resume e w)
            | (Ok _, w) => (Returns END_FETCH, resume e w)
            end
        end
  end.

(** [robust_get(url, dest, wait_timeout)] *)
Definition robust_get (env : list env_step) (url dest : string) (wait_timeout : option Q)
    (w : World) : outcome GetRes * World :=
  if OS.isfile w (dest +:+ ".404") then
    (Returns CACHE_HIT, log_msg (LogNotFoundCached url dest) w)
  else if OS.isfile w dest then
    (Returns CACHE_HIT, log_msg (LogCacheHit url dest) w)
  else
    let dest_tmp := dest +:+ ".tmp" in
    if OS.isfile w dest_tmp then
      let w := log_msg (LogWaiting url dest) w in
      let time0 := clock w in
      wait_loop env time0 wait_timeout dest_tmp w
    else
      let dest_dir := Path.dirname dest in
      match make_dest_dir dest_dir w with
      | (Raise x, w) => (Raises x, w)
      | (Ok _, w) => start_download env url dest dest_tmp wait_timeout w
      end.

(** The body of the [for file_name in glob.iglob(...)] loop of
    [clean_cache]. *)
Definition sweep_file (now : Q) (file_name : string) (acc : Z * Z * World)
  : Z * Z * World :=
  let '(size_saved, size_used, w) := acc in
  if OS.isdir w file_name || Path.endswith file_name ".tmp" then acc
  else
    match OS.stat w file_name with
    | Raise _ => acc
    | Ok sta =>
        let a_ago := py_int (now - st_atime sta) in
        let m_ago := py_int (now - st_mtime sta) in
        let (remove, w) :=
          if String.eqb (Path.basename file_name) "index.json"
             || Path.endswith file_name ".404"
          then
            if (CACHE_INDEX_DURATION CONF <? m_ago)%Z
            then (true, log_msg (LogModifiedErased file_name m_ago (st_size sta)) w)
            else (false, w)
          else
            if (CACHE_FILE_DURATION CONF <? a_ago)%Z
            then (true, log_msg (LogAccessedErased file_name a_ago (st_size sta)) w)
            else (false, w) in
        if remove then
          match OS.unlink file_name w with
          | (Raise _, w) => (size_saved, size_used, w)
          | (Ok _, w) => ((size_saved + st_size sta)%Z, size_used, w)
          end
        else (size_saved, (size_used + st_size sta)%Z, w)
    end.

(** [clean_cache()]; [names] is what the recursive glob yields. The
    result is the pair reported in the last log line:
    bytes used, bytes freed. *)
Definition clean_cache (names : list string) (w : World) : (Z * Z) * World :=
  let now := clock w in
  let '(size_saved, size_used, w) := foldl (fun acc f => sweep_file now f acc) (0%Z, 0%Z, w) names in
  ((size_used, size_saved), log_msg (LogCacheReport size_used size_saved) w).

End Program.

(** A caller that asks for the same resource again and again: each call
    has its own schedule, URL and deadline. *)
Fixpoint robust_get_repeat (CONF : Conf) (calls : list (list env_step * string * option Q))
    (dest : string) (w : World) : list (outcome GetRes) * World :=
  match calls with
  | [] => ([], w)
  | (env, url, wait_timeout) :: calls =>
      let (r, w) := robust_get CONF env url dest wait_timeout w in
      let (rs, w) := robust_get_repeat CONF calls dest w in
      (r :: rs, w)
  end.

(** Nothing but the log differs between two worlds: same files, no
    request made, no thread started, no time spent. *)
Definition only_logged (w w' : World) : Prop :=
  files w' = files w /\ fault w' = fault w /\ clock w' = clock w /\
  backend w' = backend w /\ requests w' = requests w /\ sleeps w' = sleeps w /\
  yields w' = yields w /\ spawned w' = spawned w.

(** ** The stages of one download attempt

    Named so that properties can speak of them: the request an attempt
    sends when the placeholder holds [size_ondisk] bytes, and the world as
    it stands after each stage of the [try] block. *)

Section Stages.

Variable CONF : Conf.
Variables (i : nat) (url dest : string) (size_final size_ondisk : Z).

(** The request this attempt sends. *)
Definition request_sent : request :=
  mkRequest url (HTTP_TIMEOUT_SEC CONF)
            (if negb (size_final =? -1)%Z then Some (size_ondisk, size_final) else None).

(** The world once the request is out. *)
Definition world_requested (w : World) : World :=
  (requests_get request_sent
     (log_msg (LogAttempt url dest (Z.of_nat i + 1) (HTTP_CONN_RETRIES CONF) size_ondisk)
              w)).2.

(** The expected total after a response [r]. *)
Definition size_final_after (r : response) : Z :=
  if (size_final =? -1)%Z then default (-1)%Z (content_length r) else size_final.

(** The world once the response headers are in. *)
Definition world_responded (w : World) (r : response) : World :=
  log_msg (LogHad url dest (status_code r) (default (-1)%Z (content_length r)) size_ondisk
                  (size_final_after r)) (world_requested w).

(** Whether the body received passes the length check. *)
Definition body_complete (r : response) : bool :=
  negb (stream_breaks r)
  && ((default (-1)%Z (content_length r) =? Z.of_nat (length (concat (chunks r))))%Z
      || (default (-1)%Z (content_length r) =? -1)%Z).

End Stages.

(** ** Runs of the download loop

    [pass_state CONF url dest dest_tmp w0 i size_final w]: a run of
    [robust_get_sync] started in [w0] reaches the top of pass [i] with the
    expected total [size_final] in the world [w]. *)

Inductive pass_state (CONF : Conf) (url dest dest_tmp : string) (w0 : World)
  : nat -> Z -> World -> Prop :=
| pass_first :
    (0 < HTTP_CONN_RETRIES CONF)%Z ->
    pass_state CONF url dest dest_tmp w0 0 (-1)%Z w0
| pass_next (i : nat) (size_final : Z) (w : World) (size_final' : Z) (w' : World) :
    pass_state CONF url dest dest_tmp w0 i size_final w ->
    attempt CONF i url dest dest_tmp size_final w = (Continue, size_final', w') ->
    (Z.of_nat (S i) < HTTP_CONN_RETRIES CONF)%Z ->
    pass_state CONF url dest dest_tmp w0 (S i) size_final' w'.

(** The expected total is assigned on the first pass only: no later pass
    of any run changes it. *)
Definition captured_on_first_attempt_only (CONF : Conf) (url dest : string) (w0 : World)
  : Prop :=
  forall i size_final w fl size_final' w',
    pass_state CONF url dest (dest +:+ ".tmp") w0 i size_final w ->
    (0 < i)%nat ->
    attempt CONF i url dest (dest +:+ ".tmp") size_final w = (fl, size_final', w') ->
    size_final' = size_final.

(** ** Backends that always fail *)

(** An answer that makes the attempt fail without being a 404: no
    response, an HTTP error other than 404, or a body that breaks off or
    has the wrong length. *)
Definition fails_transiently (rep : reply) : bool :=
  match rep with
  | NoResponse => true
  | Responded r =>
      if is_http_error (status_code r) then negb (status_code r =? 404)%Z
      else negb (body_complete r)
  | BadLength => false
  end.

Definition always_fails (srv : nat -> request -> reply) : Prop :=
  forall k rq, fails_transiently (srv k rq) = true.

(** No operating-system call is refused. *)
Definition healthy_os (w : World) : Prop := forall s p, fault w s p = None.

(** Against a backend that always fails, whatever the retry count, the
    download makes that many requests and leaves a failure marker and no
    placeholder. *)
Definition failing_backend_leaves_marker (CONF : Conf) : Prop :=
  forall url dest w f,
    healthy_os w ->
    files w !! (dest +:+ ".tmp") = Some (File f) ->
    files w !! (dest +:+ ".404") <> Some Dir ->
    always_fails (backend w) ->
    exists w',
      robust_get_sync CONF url dest (dest +:+ ".tmp") w = (Ok false, w')
      /\ length (requests w') = (length (requests w) + Z.to_nat (HTTP_CONN_RETRIES CONF))%nat
      /\ OS.isfile w' (dest +:+ ".404") = true
      /\ OS.isfile w' (dest +:+ ".tmp") = false.

(** The pauses taken by the passes [i, i+1, ..., i+n-1] of the loop. *)
Definition pauses (i n : nat) : list Q :=
  flat_map (fun j => if (0 <? j)%nat then [pause_sec j] else []) (seq i n).

(** ** Directory creation as the specification reads it *)


(** ** The sweep seen from outside *)

(** The files judged by their modification time: directory indices and
    failure markers. *)
Definition by_mtime (file_name : string) : bool :=
  String.eqb (Path.basename file_name) "index.json" || Path.endswith file_name ".404".

(** Whether the sweep wants a file with these times gone. *)
Definition expired (CONF : Conf) (now : Q) (file_name : string) (f : file) : bool :=
  if by_mtime file_name
  then (CACHE_INDEX_DURATION CONF <? py_int (now - f_mtime f))%Z
  else (CACHE_FILE_DURATION CONF <? py_int (now - f_atime f))%Z.


(** ** Concrete worlds, used to run the model *)

Module Examples.

Definition no_fault : syscall -> string -> option errno := fun _ _ => None.

(** Three attempts instead of twenty, everything else as shipped. *)
Definition conf3 : Conf := mkConf "/cache" 3 15 60 1209600.

(** One attempt only. *)
Definition conf1 : Conf := mkConf "/cache" 1 15 60 1209600.

(** No attempt at all. *)
Definition conf0 : Conf := mkConf "/cache" 0 15 60 1209600.

Definition url : string := "http://backend/TARS/a.tar".
Definition dest : string := "/cache/TARS/a.tar".

Definition empty_file : file := mkFile [] 0 0.
Definition body : list byte := [x01; x02; x03].

(** Never answers. *)
Definition down : nat -> request -> reply := fun _ _ => NoResponse.

(** Answers 404 to everything. *)
Definition missing : nat -> request -> reply :=
  fun _ _ => Responded (mkResponse 404 (Some 0%Z) [] false).

(** Serves the three bytes of [body] at once. *)
Definition healthy : nat -> request -> reply :=
  fun _ _ => Responded (mkResponse 200 (Some 3%Z) [body] false).


(** No answer to the first request, one byte of three on the second,
    the remaining two (as a ranged answer) on the third. *)
Definition flaky : nat -> request -> reply :=
  fun k _ =>
    match k with
    | O => NoResponse
    | S O => Responded (mkResponse 200 (Some 3%Z) [[x01]] false)
    | _ => Responded (mkResponse 206 (Some 2%Z) [[x02; x03]] false)
    end.

Definition world (fs : gmap string node) (flt : syscall -> string -> option errno)
    (srv : nat -> request -> reply) : World :=
  mkWorld fs flt 1000 srv [] [] [] [] [].

(** The resource is being downloaded: only its placeholder exists. *)
Definition in_progress : gmap string node :=
  {[ dest +:+ ".tmp" := File empty_file ]}.

(** A failure marker and a leftover placeholder. *)
Definition failed_cached : gmap string node :=
  {[ dest +:+ ".404" := File empty_file; dest +:+ ".tmp" := File empty_file ]}.


(** A second passes and nothing changes. *)
Definition tick : env_step := mkEnv 1 id.

(** A second passes and the owner of the download removes the placeholder. *)
Definition finishes : env_step := mkEnv 1 (delete (dest +:+ ".tmp")).




(** A cache: a directory index modified 60.5 s before the clock reads
    1000, a failure marker modified 100 s before, an archive modified long
    ago and read a second ago, an archive last read 1209601 s ago, a
    directory and a placeholder. *)
Definition cache : gmap string node :=
  {[ "/cache/TARS/index.json" := File (mkFile [x01] 0 939.5);
     "/cache/TARS/b.tar.404" := File (mkFile [] 0 900);
     "/cache/TARS/c.tar" := File (mkFile [x01; x02] 999 0);
     "/cache/TARS/d.tar" := File (mkFile body (-1208601) (-1208601));
     "/cache/TARS" := Dir;
     "/cache/TARS/e.tar.tmp" := File empty_file ]}.

(** What the glob yields on that cache, and a name deleted meanwhile. *)
Definition cache_names : list string :=
  [ "/cache/"; "/cache/TARS"; "/cache/TARS/index.json"; "/cache/TARS/b.tar.404";
    "/cache/TARS/c.tar"; "/cache/TARS/d.tar"; "/cache/TARS/e.tar.tmp";
    "/cache/TARS/gone.tar" ].

End Examples.



(** ** The wait loop seen from outside *)

(** One turn of the wait loop: a one-second [deferLater] is requested and
    the coroutine wakes up after the environment has run. *)
Definition poll (e : env_step) (w : World) : World := resume e (defer_later 1 w).

(** The worlds the coroutine wakes up in, one per element of the schedule. *)
Fixpoint polls (env : list env_step) (w : World) : list World :=
  match env with
  | [] => []
  | e :: env => poll e w :: polls env (poll e w)
  end.

(** [wait_timeout and time.time() - time0 > wait_timeout], evaluated on
    waking up in [w]. *)
Definition timed_out (wait_timeout : option Q) (time0 : Q) (w : World) : bool :=
  truthy wait_timeout && Qgtb (clock w - time0) (default 0%Q wait_timeout).

(** Every deadline is honoured: if on some wake-up the deadline [d] has
    elapsed, the placeholder being still there then and on every earlier
    wake-up (none of which saw the deadline elapsed), the call returns
    [MUST_WAIT]. *)
Definition every_deadline_honoured (CONF : Conf) : Prop :=
  forall env url dest d w k wk,
    OS.isfile w (dest +:+ ".404") = false ->
    OS.isfile w dest = false ->
    OS.isfile w (dest +:+ ".tmp") = true ->
    polls env (log_msg (LogWaiting url dest) w) !! k = Some wk ->
    (d < clock wk - clock w)%Q ->
    OS.isfile wk (dest +:+ ".tmp") = true ->
    (forall j wj, (j < k)%nat -> polls env (log_msg (LogWaiting url dest) w) !! j = Some wj ->
                  OS.isfile wj (dest +:+ ".tmp") = true /\ (clock wj - clock w <= d)%Q) ->
    (robust_get CONF env url dest (Some d) w).1 = Returns MUST_WAIT.

(** ** Measuring the cache *)

(** The bytes a path holds as far as the sweep counts them: the size of a
    regular file that is not a placeholder, nothing otherwise. *)
Definition cached_bytes (w : World) (file_name : string) : Z :=
  match files w !! file_name with
  | Some (File f) =>
      if Path.endswith file_name ".tmp" then 0%Z else Z.of_nat (length (f_data f))
  | _ => 0%Z
  end.

Definition Zsum (l : list Z) : Z := foldr Z.add 0%Z l.

(** ** Resources that somebody has claimed *)

(** The resource has a placeholder, a final file or a failure marker. *)
Definition claimed (dest : string) (fs : gmap string node) : bool :=
  OS.is_file_node (fs !! (dest +:+ ".tmp"))
  || OS.is_file_node (fs !! dest)
  || OS.is_file_node (fs !! (dest +:+ ".404")).

(** An environment step that never returns a claimed resource to the
    absent state: what a running download does, which keeps its
    placeholder until the rename or until the marker is written. *)
Definition keeps_claim (dest : string) (e : env_step) : Prop :=
  forall fs, claimed dest fs = true -> claimed dest (others e fs) = true.

(** ** Startup sanitize and access-time touch *)

(** [sanitize_cache()]; [names] is what the glob [**/*.tmp] yields. The
    first component of the result is what is printed. *)
Definition sanitize_cache (names : list string) (w : World) : list string * World :=
  foldl (fun (acc : list string * World) (file_name : string) =>
           ((acc.1 ++ ["Removing spurious " +:+ file_name])%list,
            match OS.unlink file_name acc.2 with
            | (Raise _, w) => w
            | (Ok _, w) => w
            end)) ([], w) names.

(** [os.utime(p, (atime, mtime))]; [refused] is the errno the call is
    refused with, if it is. On a directory the call succeeds and sets the
    directory's times. The filesystem of the model records no times for
    directories (the program reads them nowhere but in [atouch] itself,
    to write the modification time back), so that effect is not part of
    the state and nothing is stated about it. *)
Definition os_utime (refused : option errno) (p : string) (atime mtime : Q) (w : World)
  : result errno unit * World :=
  match refused with
  | Some e => (Raise e, w)
  | None =>
      match files w !! p with
      | None => (Raise ENOENT, w)
      | Some Dir => (Ok tt, w)
      | Some (File f) =>
          (Ok tt, set_files (<[p := File (mkFile (f_data f) atime mtime)]> (files w)) w)
      end
  end.

(** [atouch(file_name)]: update the access time, keep the modification
    time, swallow every [OSError]. *)
Definition atouch (utime_refused : string -> option errno) (file_name : string) (w : World)
  : World :=
  match OS.stat w file_name with
  | Raise _ => w
  | Ok sta =>
      match os_utime (utime_refused file_name) file_name (clock w) (st_mtime sta) w with
      | (Raise _, w) => w
      | (Ok _, w) => w
      end
  end.

(** ** The front end ([process]) *)

(** The configuration keys only the front end reads, beside [CONF]. *)
Record Site := mkSite {
  SITE_CONF : Conf;
  REDIRECT_INVALID_TO : string;
  REDIRECT_STATIC_PREFIX : string;
  BACKEND_PREFIX : string }.

(** [s.split("/")] *)
Fixpoint split_slash (s : string) : list string :=
  match s with
  | EmptyString => [EmptyString]
  | String c s' =>
      if Ascii.eqb c "/" then EmptyString :: split_slash s'
      else
        match split_slash s' with
        | [] => [String c EmptyString]
        | x :: xs => String c x :: xs
        end
  end.

(** Truthiness of a string: non-empty. *)
Definition nonempty (s : string) : bool := negb (String.eqb s EmptyString).

(** [[x for x in orig_uri.split("/") if x]] *)
Definition uri_components (orig_uri : string) : list string :=
  List.filter nonempty (split_slash orig_uri).

(** ["/".join(l)] *)
Fixpoint join_slash (l : list string) : string :=
  match l with
  | [] => EmptyString
  | [x] => x
  | x :: l' => x +:+ "/" +:+ join_slash l'
  end.

(** ["." in s] *)
Fixpoint has_dot (s : string) : bool :=
  match s with
  | EmptyString => false
  | String c s' => Ascii.eqb c "." || has_dot s'
  end.

(** [os.path.join(a, b)] (posixpath) *)
Definition path_join (a b : string) : string :=
  if String.prefix "/" b then b
  else if String.eqb a EmptyString || Path.endswith a "/" then a +:+ b
  else a +:+ "/" +:+ b.

(** What the handler returns to Klein. Either a string, which Klein
    sends as the body under the code ([200] unless set) and the headers
    the handler left on the request; or the static-file resource rooted at
    a directory, to which Klein hands the request over: status, headers
    and body of that answer are chosen by the resource, not by the
    handler, and are not modelled. *)
Inductive http_response :=
| mkResp (resp_code : Z) (resp_headers : list (string * string)) (resp_body : string)
| StaticFile (root : string).

(** [open(p)] in text mode and [read()]. [decode] is what the text layer
    does to the bytes of the file (decoding in the locale's encoding,
    newline translation); [None] is its [UnicodeDecodeError], a
    [ValueError] and no [OSError]. *)
Definition os_read (decode : list byte -> option string) (p : string) (w : World)
  : result exn string :=
  match fault w SysOpen p with
  | Some e => Raise (OSError e)
  | None =>
      match files w !! p with
      | None => Raise (OSError ENOENT)
      | Some Dir => Raise (OSError EISDIR)
      | Some (File f) =>
          match decode (f_data f) with
          | Some s => Ok s
          | None => Raise ValueError
          end
      end
  end.

(** An invalid request: no component, or a first one other than [TARS]. *)
Definition illegal (uri_comp : list string) : bool :=
  match uri_comp with
  | [] => true
  | c :: _ => negb (String.eqb c "TARS")
  end.

(** The handler, over a fixed site configuration; [utime_refused] tells
    which [os.utime] calls the system refuses, [decode] is the text layer
    of [open]. *)
Section FrontEnd.

Variable SITE : Site.
Variable utime_refused : string -> option errno.
Variable decode : list byte -> option string.

(** The branch of [process] for a path with an extension. *)
Definition process_file (env : list env_step) (uri backend_uri local_path : string)
    (w : World) : outcome http_response * World :=
  match robust_get (SITE_CONF SITE) env backend_uri local_path (Some 12%Q) w with
  | (Suspended, w) => (Suspended, w)
  | (Raises x, w) => (Raises x, w)
  | (Returns MUST_WAIT, w) =>
      (Returns (mkResp 307 [("Location", uri)] EmptyString), w)
  | (Returns _, w) =>
      let w := atouch utime_refused local_path w in
      if nonempty (REDIRECT_STATIC_PREFIX SITE)
      then (Returns (mkResp 302 [("Location", REDIRECT_STATIC_PREFIX SITE +:+ uri)]
                            EmptyString), w)
      else (Returns (StaticFile (LOCAL_ROOT (SITE_CONF SITE))), w)
  end.

(** The branch of [process] for a path without extension: a directory
    index in JSON. Only an [OSError] of the read is answered 404; any
    other exception leaves the handler. *)
Definition process_index (env : list env_step) (backend_uri local_path : string) (w : World)
  : outcome http_response * World :=
  let backend_uri := backend_uri +:+ "/" in
  let local_path := path_join local_path "index.json" in
  match robust_get (SITE_CONF SITE) env backend_uri local_path None w with
  | (Suspended, w) => (Suspended, w)
  | (Raises x, w) => (Raises x, w)
  | (Returns _, w) =>
      match os_read decode local_path w with
      | Ok text =>
          (Returns (mkResp 200 [("Content-Type", "application/json")] text), w)
      | Raise (OSError _) =>
          (Returns (mkResp 404 [("Content-Type", "application/json")] "{}"), w)
      | Raise x => (Raises x, w)
      end
  end.

(** [process(req)]; [orig_uri] is [req.uri] decoded, [env] what happens
    while the handler is suspended. The second component of the result
    is what the handler itself writes to the log. *)
Definition process (env : list env_step) (orig_uri : string) (w : World)
  : outcome http_response * list string * World :=
  let uri_comp := uri_components orig_uri in
  if illegal uri_comp then
    (Returns (mkResp 302 [("Location", REDIRECT_INVALID_TO SITE)] EmptyString), [], w)
  else
    let uri := join_slash uri_comp in
    let local_path := path_join (LOCAL_ROOT (SITE_CONF SITE)) uri in
    let uri := "/" +:+ uri in
    if negb (String.eqb uri orig_uri) then
      (Returns (mkResp 301 [("Location", uri)] EmptyString),
       ["URI was normalized, " +:+ orig_uri +:+ " != " +:+ uri +:+ ": redirecting"], w)
    else
      let backend_uri := BACKEND_PREFIX SITE +:+ uri in
      let (r, w) :=
        if has_dot (List.last uri_comp EmptyString)
        then process_file env uri backend_uri local_path w
        else process_index env backend_uri local_path w in
      (r, [], w).

End FrontEnd.

(** A string without ["/"]: what a component of a split URL is. *)
Fixpoint slash_free (s : string) : bool :=
  match s with
  | EmptyString => true
  | String c s' => negb (Ascii.eqb c "/") && slash_free s'
  end.

(** A component as [process] keeps it: non-empty and without ["/"]. *)
Definition component (s : string) : Prop := slash_free s = true /\ nonempty s = true.

(** The normal form [process] compares a URL with. *)
Definition normalized (orig_uri : string) : string :=
  "/" +:+ join_slash (uri_components orig_uri).

(** The file [process] keeps the resource of a URL in, and the file it
    keeps the listing of a directory URL in. *)
Definition local_path (SITE : Site) (orig_uri : string) : string :=
  path_join (LOCAL_ROOT (SITE_CONF SITE)) (join_slash (uri_components orig_uri)).

Definition index_path (SITE : Site) (orig_uri : string) : string :=
  path_join (local_path SITE orig_uri) "index.json".

(** The two answers [process] gives once a file is in the cache, and the
    one that sends the client back to the same URL. *)
Definition served (SITE : Site) (uri : string) : http_response :=
  if nonempty (REDIRECT_STATIC_PREFIX SITE)
  then mkResp 302 [("Location", REDIRECT_STATIC_PREFIX SITE +:+ uri)] EmptyString
  else StaticFile (LOCAL_ROOT (SITE_CONF SITE)).

Definition try_again (uri : string) : http_response :=
  mkResp 307 [("Location", uri)] EmptyString.

(** What the handler itself decides about an answer: that it is a
    response with one of the given codes, or that the static-file
    resource of [root] answers in its place. *)
Definition answers (codes : list Z) (root : string) (r : http_response) : Prop :=
  match r with
  | mkResp code _ _ => In code codes
  | StaticFile root' => root' = root
  end.

(** A text layer that accepts only ASCII and translates nothing, for
    running the handler on examples. *)
Definition decode_ascii (data : list byte) : option string :=
  if forallb (fun b => (Byte.to_nat b <? 128)%nat) data
  then Some (string_of_list_byte data)
  else None.

(** A site over the example configuration that serves the files itself. *)
Definition example_site : Site :=
  mkSite Examples.conf3 "http://fallback/" "" "http://backend".

(** ** What a piece of the program may leave behind *)

(** [w'] differs from [w] by at most [n] more requests, each one for [url]
    with timeout [timeout], and by what the paths of [paths] hold (and by
    clock, sleeps and log); the fault table, the backend, the suspensions
    and the threads started are the same. *)
Definition touches (paths : list string) (url : string) (timeout : Z) (n : nat)
    (w w' : World) : Prop :=
  fault w' = fault w /\ backend w' = backend w /\ spawned w' = spawned w
  /\ yields w' = yields w
  /\ (exists rs, requests w' = (requests w ++ rs)%list /\ (length rs <= n)%nat
                 /\ Forall (fun rq => rq_url rq = url /\ rq_timeout rq = timeout) rs)
  /\ forall q, ~ In q paths -> files w' !! q = files w !! q.

(** ** Startup ([main]) *)

(** A value of the [CONF] dictionary: [None], a string (a default or what
    the environment gives) or an integer. *)
Inductive value :=
| VNone
| VStr (s : string)
| VInt (z : Z).

(** The keys of [CONF] in the order of the dictionary, and [CONF] as the
    module defines it. *)
Definition CONF_KEYS : list string :=
  [ "REDIRECT_INVALID_TO"; "REDIRECT_STATIC_PREFIX"; "BACKEND_PREFIX"; "LOCAL_ROOT";
    "HTTP_CONN_RETRIES"; "HTTP_TIMEOUT_SEC"; "CACHE_INDEX_DURATION"; "CACHE_FILE_DURATION";
    "HOST"; "PORT" ].

Definition CONF_DEFAULT : gmap string value :=
  {[ "REDIRECT_INVALID_TO" := VNone;
     "REDIRECT_STATIC_PREFIX" := VStr "";
     "BACKEND_PREFIX" := VNone;
     "LOCAL_ROOT" := VNone;
     "HTTP_CONN_RETRIES" := VInt 20;
     "HTTP_TIMEOUT_SEC" := VInt 15;
     "CACHE_INDEX_DURATION" := VInt 60;
     "CACHE_FILE_DURATION" := VInt 1209600;
     "HOST" := VStr "0.0.0.0";
     "PORT" := VInt 8181 ]}.

Definition conf_keys_to_int : list string :=
  [ "HTTP_CONN_RETRIES"; "HTTP_TIMEOUT_SEC"; "CACHE_INDEX_DURATION"; "CACHE_FILE_DURATION" ].

(** [k in conf_keys_to_int] *)
Definition to_int (k : string) : bool := existsb (String.eqb k) conf_keys_to_int.

(** [CONF[k]] for a key of the dictionary. *)
Definition conf_get (conf : gmap string value) (k : string) : value :=
  default VNone (conf !! k).

(** What [main] prints, line by line. *)
Inductive printed :=
| PConfiguration (k : string) (v : value)  (* Configuration: REVPROXY_k = v *)
| PMissing (k : string)                    (* ERROR ...: REVPROXY_k must be set ... *)
| PNotInteger (k : string)                 (* ERROR ...: REVPROXY_k must be an integer *)
| PAborting                                (* ABORTING due to configuration errors ... *)
| PLine (s : string).                      (* a line printed by [sanitize_cache] *)

(** How [main] ends: [sys.exit(code)], the [ValueError] of
    [int(CONF["PORT"])], or [APP.run(host, port)] under the configuration
    [conf], the periodic sweep being scheduled. *)
Inductive startup :=
| Exits (code : Z)
| RaisesValueError
| Runs (conf : gmap string value) (host : value) (port : Z).

Section Main.

(** [int(s)] on a string: [None] stands for [ValueError]. *)
Variable int_of_str : string -> option Z.

(** [int(v)] on a value that is not [None]. *)
Definition int_of (v : value) : option Z :=
  match v with
  | VInt z => Some z
  | VStr s => int_of_str s
  | VNone => None
  end.

(** The body of the [for k in CONF] loop. *)
Definition load_key (environ : gmap string string)
    (acc : gmap string value * bool * list printed) (k : string)
  : gmap string value * bool * list printed :=
  let '(conf, invalid, out) := acc in
  let v := match environ !! ("REVPROXY_" +:+ k) with
           | Some s => VStr s
           | None => conf_get conf k
           end in
  let conf := <[k := v]> conf in
  let out := (out ++ [PConfiguration k v])%list in
  match v with
  | VNone => (conf, true, (out ++ [PMissing k])%list)
  | _ =>
      if to_int k then
        match int_of v with
        | Some z => (<[k := VInt z]> conf, invalid, out)
        | None => (conf, true, (out ++ [PNotInteger k])%list)
        end
      else (conf, invalid, out)
  end.

(** [main()]; [names] is what the glob of [sanitize_cache] yields. *)
Definition main (environ : gmap string string) (names : list string) (w : World)
  : startup * list printed * World :=
  let '(conf, invalid, out) := foldl (load_key environ) (CONF_DEFAULT, false, []) CONF_KEYS in
  if invalid then (Exits 1, (out ++ [PAborting])%list, w)
  else
    let (lines, w) := sanitize_cache names w in
    let out := (out ++ map PLine lines)%list in
    match int_of (conf_get conf "PORT") with
    | None => (RaisesValueError, out, w)
    | Some port => (Runs conf (conf_get conf "HOST") port, out, w)
    end.

(** The value the loop reads for [k], whether it passes the checks, and
    the value the loop leaves in [CONF[k]]. *)
Definition effective (environ : gmap string string) (conf : gmap string value) (k : string)
  : value :=
  match environ !! ("REVPROXY_" +:+ k) with
  | Some s => VStr s
  | None => conf_get conf k
  end.

Definition key_ok (environ : gmap string string) (conf : gmap string value) (k : string)
  : bool :=
  match effective environ conf k with
  | VNone => false
  | v => if to_int k then match int_of v with Some _ => true | None => false end else true
  end.

Definition loaded (environ : gmap string string) (conf : gmap string value) (k : string)
  : value :=
  match effective environ conf k with
  | VNone => VNone
  | v => if to_int k then match int_of v with Some z => VInt z | None => v end else v
  end.

End Main.

(** * Properties *)

(** ** Paths *)

Lemma endswith_app (a suffix : string) : Path.endswith (a +:+ suffix) suffix = true.
Proof.
  induction a as [|c a IH].
  - change (Path.endswith suffix suffix = true).
    destruct suffix; cbn [Path.endswith]; rewrite String.eqb_refl; reflexivity.
  - change (Path.endswith (String c (a +:+ suffix)) suffix = true).
    cbn [Path.endswith]. rewrite IH. apply orb_true_r.
Qed.

Lemma app_length_string (a b : string) :
  String.length (a +:+ b) = (String.length a + String.length b)%nat.
Proof.
  induction a as [|c a IH]; [reflexivity |].
  change (S (String.length (a +:+ b)) = S (String.length a + String.length b)).
  congruence.
Qed.

Lemma app_neq_self (a b : string) : b <> EmptyString -> a +:+ b <> a.
Proof.
  intros Hb Heq. apply (f_equal String.length) in Heq.
  rewrite app_length_string in Heq. destruct b; [congruence | simpl in Heq; lia].
Qed.

Lemma tmp_neq_404 (dest : string) : dest +:+ ".tmp" <> dest +:+ ".404".
Proof. intros H. apply String.app_inj in H. discriminate. Qed.

Lemma tmp_neq_dest (dest : string) : dest +:+ ".tmp" <> dest.
Proof. apply app_neq_self. discriminate. Qed.

Lemma m404_neq_dest (dest : string) : dest +:+ ".404" <> dest.
Proof. apply app_neq_self. discriminate. Qed.

(** ** Worlds that differ by their log only *)

Lemma only_logged_refl (w : World) : only_logged w w.
Proof. repeat split. Qed.

Lemma only_logged_log_msg (e : log_event) (w : World) : only_logged w (log_msg e w).
Proof. repeat split. Qed.

Lemma only_logged_trans (w1 w2 w3 : World) :
  only_logged w1 w2 -> only_logged w2 w3 -> only_logged w1 w3.
Proof. unfold only_logged. intuition congruence. Qed.

Lemma isfile_only_logged (w w' : World) (p : string) :
  only_logged w w' -> OS.isfile w' p = OS.isfile w p.
Proof.
  intros (Hf & Hq & _). unfold OS.isfile, OS.stat. rewrite Hf, Hq. reflexivity.
Qed.

(** ** C1: terminal states win and cost nothing *)

Lemma robust_get_hit (CONF : Conf) (env : list env_step) (url dest : string)
    (wait_timeout : option Q) (w : World) :
  OS.isfile w (dest +:+ ".404") = true \/ OS.isfile w dest = true ->
  exists w', robust_get CONF env url dest wait_timeout w = (Returns CACHE_HIT, w')
             /\ only_logged w w'.
Proof.
  intros H. unfold robust_get.
  destruct (OS.isfile w (dest +:+ ".404")) eqn:E404.
  - eexists; split; [reflexivity | apply only_logged_log_msg].
  - destruct H as [H | H]; [discriminate |]. rewrite H.
    eexists; split; [reflexivity | apply only_logged_log_msg].
Qed.

(** C1. When the failure marker [dest.404] or the final file [dest] is
    there, [robust_get] returns [CACHE_HIT] at once: the files are the
    same afterwards, no request was made, no download thread started, no
    suspension or sleep took place, whatever the state of the placeholder
    [dest.tmp], the schedule and the deadline. Hence any sequence of calls
    for that resource returns [CACHE_HIT] every time and leaves the files
    and the network untouched. *)
Theorem C1_cache_hit_without_network (CONF : Conf) (dest : string) (w : World) :
  OS.isfile w (dest +:+ ".404") = true \/ OS.isfile w dest = true ->
  (forall env url wait_timeout,
      exists w', robust_get CONF env url dest wait_timeout w = (Returns CACHE_HIT, w')
                 /\ only_logged w w')
  /\ (forall calls,
      exists w', robust_get_repeat CONF calls dest w
                 = (repeat (Returns CACHE_HIT) (length calls), w')
                 /\ only_logged w w').
Proof.
  intros H. split.
  - intros env url wt. apply robust_get_hit, H.
  - intros calls. revert w H.
    induction calls as [|[[env url] wt] calls IH]; intros w H; simpl.
    + exists w. split; [reflexivity | apply only_logged_refl].
    + destruct (robust_get_hit CONF env url dest wt w H) as (w1 & -> & Hl).
      assert (H1 : OS.isfile w1 (dest +:+ ".404") = true \/ OS.isfile w1 dest = true).
      { rewrite !(isfile_only_logged w w1) by exact Hl. exact H. }
      destruct (IH w1 H1) as (w2 & -> & Hl2).
      exists w2. split; [reflexivity | eapply only_logged_trans; eassumption].
Qed.

(** ** Writing to the placeholder *)

Lemma set_files_id (w : World) : set_files (files w) w = w.
Proof. destruct w; reflexivity. Qed.

Lemma set_files_twice (fs1 fs2 : gmap string node) (w : World) :
  set_files fs2 (set_files fs1 w) = set_files fs2 w.
Proof. reflexivity. Qed.

Lemma append_file (p : string) (chunk : list byte) (w : World) (f : file) :
  files w !! p = Some (File f) ->
  OS.append p chunk w
  = set_files (<[p := File (mkFile (f_data f ++ chunk)%list (f_atime f) (clock w))]> (files w)) w.
Proof. intros H. unfold OS.append. rewrite H. reflexivity. Qed.

(** Streaming [cs] into a file appends their concatenation and counts its
    length; nothing else in the world moves. *)
Lemma write_chunks_file (p : string) (cs : list (list byte)) (w : World) (f : file) :
  files w !! p = Some (File f) ->
  exists f',
    write_chunks p cs w
    = (Z.of_nat (length (concat cs)), set_files (<[p := File f']> (files w)) w)
    /\ f_data f' = (f_data f ++ concat cs)%list
    /\ f_atime f' = f_atime f.
Proof.
  unfold write_chunks.
  assert (G : forall (n : Z) (w0 : World) (f0 : file),
             files w0 !! p = Some (File f0) ->
             exists f',
               foldl (fun (acc : Z * World) (chunk : list byte) =>
                        match chunk with
                        | [] => acc
                        | _ => ((acc.1 + Z.of_nat (length chunk))%Z,
                                OS.append p chunk acc.2)
                        end) (n, w0) cs
               = ((n + Z.of_nat (length (concat cs)))%Z,
                  set_files (<[p := File f']> (files w0)) w0)
               /\ f_data f' = (f_data f0 ++ concat cs)%list
               /\ f_atime f' = f_atime f0).
  { induction cs as [|c cs IH]; intros n w0 f0 H0; simpl.
    - exists f0. rewrite insert_id by exact H0. rewrite set_files_id, Z.add_0_r.
      rewrite app_nil_r. auto.
    - destruct c as [|b c].
      + apply IH. exact H0.
      + rewrite (append_file p (b :: c) w0 f0 H0).
        set (f1 := mkFile (f_data f0 ++ b :: c)%list (f_atime f0) (clock w0)).
        destruct (IH (n + Z.of_nat (length (b :: c)))%Z
                     (set_files (<[p := File f1]> (files w0)) w0) f1) as (f' & E & Hd & Ha).
        { simpl. apply lookup_insert_eq. }
        exists f'. rewrite E. simpl. rewrite insert_insert_eq.
        split; [| split].
        * f_equal. rewrite length_app. simpl. lia.
        * rewrite Hd. unfold f1; simpl. rewrite <- app_assoc. reflexivity.
        * rewrite Ha. reflexivity. }
  intros H. destruct (G 0%Z w f H) as (f' & E & Hd & Ha).
  exists f'. rewrite E. auto.
Qed.


(** ** The [try] block, evaluated on a placeholder that is a regular file *)

Section TryBlock.

Variable CONF : Conf.
Variables (i : nat) (url dest dest_tmp : string) (size_final : Z).
Variables (w : World) (f : file).

Hypothesis stat_ok : fault w SysStat dest_tmp = None.
Hypothesis placeholder : files w !! dest_tmp = Some (File f).

Let size_ondisk : Z := Z.of_nat (length (f_data f)).
Let rq : request := request_sent CONF url size_final size_ondisk.
Let wr : response -> World := world_responded CONF i url dest size_final size_ondisk w.
Let sf' : response -> Z := size_final_after size_final.

Lemma download_try_file :
  match backend w (length (requests w)) rq with
  | NoResponse =>
      download_try CONF i url dest dest_tmp size_final w
      = (Raise (RequestException None), size_final,
         world_requested CONF i url dest size_final size_ondisk w)
  | Responded r =>
      if is_http_error (status_code r) then
        download_try CONF i url dest dest_tmp size_final w
        = (Raise (RequestException (Some (status_code r))), sf' r, wr r)
      else
        match fault w SysOpen dest_tmp with
        | Some e =>
            download_try CONF i url dest dest_tmp size_final w
            = (Raise (OSError e), sf' r, wr r)
        | None =>
            exists f',
              f_data f' = (f_data f ++ concat (chunks r))%list
              /\ f_atime f' = f_atime f
              /\ let wc := set_files (<[dest_tmp := File f']> (files w)) (wr r) in
                 download_try CONF i url dest dest_tmp size_final w
                 = if body_complete r then
                     match OS.rename dest_tmp dest wc with
                     | (Raise e, w') => (Raise (OSError e), sf' r, w')
                     | (Ok _, w') => (Ok tt, sf' r, log_msg (LogOK url dest) w')
                     end
                   else (Raise (RequestException None), sf' r, wc)
        end
  | BadLength =>
      download_try CONF i url dest dest_tmp size_final w
      = (Raise ValueError, size_final,
         world_requested CONF i url dest size_final size_ondisk w)
  end.
Proof.
  remember (download_try CONF i url dest dest_tmp size_final w) as res eqn:E.
  unfold download_try, OS.stat in E. rewrite stat_ok, placeholder in E.
  cbn [OS.stat_of st_size] in E. fold size_ondisk in E.
  fold (request_sent CONF url size_final size_ondisk) in E. fold rq in E.
  unfold requests_get in E.
  cbn [log_msg requests backend files fault clock sleeps yields spawned log fst snd] in E.
  destruct (backend w (length (requests w)) rq) as [|r|] eqn:Erep.
  - subst res. reflexivity.
  - fold (size_final_after size_final r) in E.
    destruct (is_http_error (status_code r)) eqn:Eerr.
    + subst res. reflexivity.
    + unfold OS.open_ab in E. cbn [fault files log_msg] in E. rewrite placeholder in E.
      destruct (fault w SysOpen dest_tmp) as [e|] eqn:Eopen; [subst res; reflexivity |].
      match type of E with
      | context [write_chunks dest_tmp (chunks r) ?w0] =>
          destruct (write_chunks_file dest_tmp (chunks r) w0 f placeholder)
            as (f' & E' & Hd & Ha); rewrite E' in E
      end.
      exists f'. split; [exact Hd | split; [exact Ha |]].
      cbn zeta. subst res.
      unfold body_complete.
      destruct (stream_breaks r); [reflexivity |].
      cbn [negb andb].
      destruct ((default (-1)%Z (content_length r)
                 =? Z.of_nat (length (concat (chunks r))))%Z
                || (default (-1)%Z (content_length r) =? -1)%Z); reflexivity.
  - subst res. reflexivity.
Qed.

End TryBlock.

(** ** Frames: what each step leaves alone *)

Lemma backoff_files (i : nat) (url dest : string) (w : World) :
  files (backoff i url dest w) = files w.
Proof. unfold backoff. destruct (0 <? i)%nat; reflexivity. Qed.

Lemma backoff_fault (i : nat) (url dest : string) (w : World) :
  fault (backoff i url dest w) = fault w.
Proof. unfold backoff. destruct (0 <? i)%nat; reflexivity. Qed.

Lemma backoff_requests (i : nat) (url dest : string) (w : World) :
  requests (backoff i url dest w) = requests w.
Proof. unfold backoff. destruct (0 <? i)%nat; reflexivity. Qed.

Lemma backoff_backend (i : nat) (url dest : string) (w : World) :
  backend (backoff i url dest w) = backend w.
Proof. unfold backoff. destruct (0 <? i)%nat; reflexivity. Qed.

Lemma backoff_first (url dest : string) (w : World) : backoff 0 url dest w = w.
Proof. reflexivity. Qed.

Lemma backoff_sleeps (i : nat) (url dest : string) (w : World) :
  sleeps (backoff i url dest w)
  = (sleeps w ++ if (0 <? i)%nat then [pause_sec i] else [])%list.
Proof. unfold backoff. destruct (0 <? i)%nat; simpl; [reflexivity | apply eq_sym, app_nil_r]. Qed.

(** [os.unlink] removes a regular file and nothing else. *)
Lemma unlink_files (p : string) (w : World) :
  fault w SysUnlink p = None ->
  OS.is_file_node (files (OS.unlink p w).2 !! p) = false
  /\ forall q, q <> p -> files (OS.unlink p w).2 !! q = files w !! q.
Proof.
  intros Hf. unfold OS.unlink. rewrite Hf.
  destruct (files w !! p) as [[g|]|] eqn:E; simpl.
  - split; [rewrite lookup_delete_eq; reflexivity |].
    intros q Hq. apply lookup_delete_ne. congruence.
  - rewrite E. auto.
  - rewrite E. auto.
Qed.

Lemma unlink_file (p : string) (w : World) (g : file) :
  fault w SysUnlink p = None -> files w !! p = Some (File g) ->
  OS.unlink p w = (Ok tt, set_files (delete p (files w)) w).
Proof. intros Hf Hp. unfold OS.unlink. rewrite Hf, Hp. reflexivity. Qed.


Lemma unlink_frame (p : string) (w : World) :
  let w' := (OS.unlink p w).2 in
  fault w' = fault w /\ clock w' = clock w /\ backend w' = backend w
  /\ requests w' = requests w /\ sleeps w' = sleeps w /\ yields w' = yields w
  /\ spawned w' = spawned w /\ log w' = log w.
Proof.
  unfold OS.unlink.
  destruct (fault w SysUnlink p); [repeat split |].
  destruct (files w !! p) as [[g|]|]; repeat split.
Qed.

(** ** The [except] block *)

Section ExceptBlock.

Variable CONF : Conf.
Variables (i : nat) (url dest dest_tmp : string) (st : option Z) (w : World).

Let marker : string := dest +:+ ".404".

(** The world with the failure marker written. *)
Let marked : World :=
  set_files (<[marker := File (mkFile [] (clock w) (clock w))]> (files w))
            (log_msg (LogGivingUp url dest (default (-1)%Z st)) w).

Lemma download_except_gives_up :
  default (-1)%Z st = 404%Z \/ Z.of_nat i = (HTTP_CONN_RETRIES CONF - 1)%Z ->
  fault w SysOpen marker = None ->
  files w !! marker <> Some Dir ->
  download_except CONF i url dest dest_tmp st w = (Return false, (OS.unlink dest_tmp marked).2).
Proof.
  intros Hperm Hopen Hdir. unfold download_except.
  assert (Hc : (default (-1)%Z st =? 404)%Z
               || (Z.of_nat i =? HTTP_CONN_RETRIES CONF - 1)%Z = true).
  { apply orb_true_iff. destruct Hperm as [H | H]; [left | right]; apply Z.eqb_eq, H. }
  rewrite Hc. unfold OS.open_wb. cbn [log_msg fault files clock].
  fold marker. rewrite Hopen.
  destruct (files w !! marker) as [[g|]|] eqn:E; try congruence;
    fold marked; destruct (OS.unlink dest_tmp marked) as [[u|e] w']; reflexivity.
Qed.


Lemma download_except_retries :
  default (-1)%Z st <> 404%Z -> Z.of_nat i <> (HTTP_CONN_RETRIES CONF - 1)%Z ->
  download_except CONF i url dest dest_tmp st w = (Continue, w).
Proof.
  intros H1 H2. unfold download_except.
  apply Z.eqb_neq in H1, H2. rewrite H1, H2. reflexivity.
Qed.

End ExceptBlock.

(** ** What a failed attempt leaves behind *)


(** ** C2: permanent and transient failures *)


(** [os.rename] of a regular file either moves it in one step or fails
    and leaves the world as it was. *)
Lemma rename_file (src dst : string) (w : World) (g : file) :
  files w !! src = Some (File g) ->
  OS.rename src dst w
  = (Ok tt, set_files (<[dst := File g]> (delete src (files w))) w)
  \/ exists e, OS.rename src dst w = (Raise e, w).
Proof.
  intros Hs. unfold OS.rename. rewrite Hs.
  destruct (fault w SysRename src); [right; eauto |].
  destruct (files w !! dst) as [[h|]|]; [left | right | left]; eauto.
Qed.

Lemma rename_file_ok (src dst : string) (w : World) (g : file) :
  files w !! src = Some (File g) ->
  fault w SysRename src = None ->
  files w !! dst <> Some Dir ->
  OS.rename src dst w
  = (Ok tt, set_files (<[dst := File g]> (delete src (files w))) w).
Proof.
  intros Hs Hf Hd. unfold OS.rename. rewrite Hs, Hf.
  destruct (files w !! dst) as [[h|]|]; congruence.
Qed.

(** ** C3: what each attempt asks for *)

(** C3 (as amended). On a pass whose placeholder is a regular file, the
    [try] block reads the on-disk size of the placeholder and sends exactly
    one request: ranged, [bytes=size_ondisk-size_final], when the expected
    total [size_final] is known (not -1), and without a [Range] header
    otherwise. The expected total is taken from the [Content-Length] of
    the response of the first pass that gets a response carrying one,
    whichever pass that is, and is never changed afterwards: a pass with
    no response leaves it alone, a pass with a response sets it only if
    it was still unknown. When the response is not an HTTP error and the
    placeholder can be opened, the bytes received are appended to what
    the placeholder held (and are the content of the final file when the
    pass ends with the rename). A response whose [Content-Length] [int]
    rejects ends the pass with a [ValueError], the expected total and the
    files being as they were. *)
Theorem C3_request_and_total (CONF : Conf) (i : nat) (url dest : string) (size_final : Z)
    (w : World) (f : file) :
  let dest_tmp := dest +:+ ".tmp" in
  let size_ondisk := Z.of_nat (length (f_data f)) in
  let rq := mkRequest url (HTTP_TIMEOUT_SEC CONF)
                      (if (size_final =? -1)%Z then None
                       else Some (size_ondisk, size_final)) in
  fault w SysStat dest_tmp = None ->
  files w !! dest_tmp = Some (File f) ->
  forall res size_final' w',
    download_try CONF i url dest dest_tmp size_final w = (res, size_final', w') ->
    requests w' = (requests w ++ [rq])%list
    /\ match backend w (length (requests w)) rq with
       | NoResponse =>
           size_final' = size_final /\ res = Raise (RequestException None)
           /\ files w' = files w
       | Responded r =>
           size_final' = (if (size_final =? -1)%Z then default (-1)%Z (content_length r)
                          else size_final)
           /\ (is_http_error (status_code r) = false ->
               fault w SysOpen dest_tmp = None ->
               exists f',
                 f_data f' = (f_data f ++ concat (chunks r))%list
                 /\ (files w' !! dest_tmp = Some (File f')
                     \/ (res = Ok tt /\ files w' !! dest = Some (File f')
                         /\ files w' !! dest_tmp = None)))
       | BadLength =>
           size_final' = size_final /\ res = Raise ValueError /\ files w' = files w
       end.
Proof.
  intros dest_tmp size_ondisk rq Hstat Hfile res sf' w' Htry.
  pose proof (download_try_file CONF i url dest dest_tmp size_final w f Hstat Hfile) as H.
  cbv zeta in H.
  assert (Hrq : request_sent CONF url size_final (Z.of_nat (length (f_data f))) = rq).
  { unfold request_sent, rq, size_ondisk. destruct (size_final =? -1)%Z; reflexivity. }
  rewrite Hrq in H.
  assert (Hreq : requests (world_requested CONF i url dest size_final
                             (Z.of_nat (length (f_data f))) w)
                 = (requests w ++ [rq])%list).
  { unfold world_requested, requests_get. simpl. rewrite Hrq. reflexivity. }
  destruct (backend w (length (requests w)) rq) as [|r|].
  3: { rewrite H in Htry. injection Htry as <- <- <-. auto. }
  - rewrite H in Htry. injection Htry as <- <- <-. auto.
  - destruct (is_http_error (status_code r)) eqn:Eerr.
    + rewrite H in Htry. injection Htry as <- <- <-.
      split; [exact Hreq |]. split; [reflexivity | discriminate].
    + destruct (fault w SysOpen dest_tmp) as [e|] eqn:Eopen.
      * rewrite H in Htry. injection Htry as <- <- <-.
        split; [exact Hreq |]. split; [reflexivity | discriminate].
      * destruct H as (f' & Hd & _ & H). rewrite H in Htry. clear H.
        set (wc := set_files _ _) in Htry.
        assert (Hwc : files wc !! dest_tmp = Some (File f')) by apply lookup_insert_eq.
        destruct (body_complete r).
        -- destruct (rename_file dest_tmp dest wc f' Hwc) as [Hr | (e & Hr)];
             rewrite Hr in Htry; injection Htry as <- <- <-.
           ++ split; [exact Hreq |]. split; [reflexivity |].
              intros _ _. exists f'. split; [exact Hd |]. right.
              split; [reflexivity |]. simpl. split.
              ** apply lookup_insert_eq.
              ** rewrite lookup_insert_ne by (apply not_eq_sym, tmp_neq_dest).
                 apply lookup_delete_eq.
           ++ split; [exact Hreq |]. split; [reflexivity |].
              intros _ _. exists f'. split; [exact Hd |]. left. exact Hwc.
        -- injection Htry as <- <- <-.
           split; [exact Hreq |]. split; [reflexivity |].
           intros _ _. exists f'. split; [exact Hd |]. left. exact Hwc.
Qed.

Lemma triple_eta {A B C : Type} (x : A * B * C) : x = (x.1.1, x.1.2, x.2).
Proof. destruct x as [[a b] c]. reflexivity. Qed.

Lemma pair_eta {A B : Type} (x : A * B) : x = (x.1, x.2).
Proof. destruct x as [a b]. reflexivity. Qed.



(** The C1 theorem at a world holding a failure marker and a leftover
    placeholder. *)
Lemma C1_cache_hit_witness :
  OS.isfile (Examples.world Examples.failed_cached Examples.no_fault Examples.down)
            (Examples.dest +:+ ".tmp") = true
  /\ exists w',
      robust_get Examples.conf3 [] Examples.url Examples.dest (Some 12%Q)
                 (Examples.world Examples.failed_cached Examples.no_fault Examples.down)
      = (Returns CACHE_HIT, w')
      /\ only_logged (Examples.world Examples.failed_cached Examples.no_fault Examples.down) w'.
Proof.
  split; [vm_compute; reflexivity |].
  apply (C1_cache_hit_without_network Examples.conf3 Examples.dest
           (Examples.world Examples.failed_cached Examples.no_fault Examples.down)).
  left. vm_compute. reflexivity.
Defined.

(** A run in which the expected total is captured on the second pass:
    the first request gets no answer, the second a [Content-Length]. *)
Lemma C3_first_attempt_only_counterexample :
  let w0 := Examples.world Examples.in_progress Examples.no_fault Examples.flaky in
  let tmp := Examples.dest +:+ ".tmp" in
  let p0 := attempt Examples.conf3 0 Examples.url Examples.dest tmp (-1) w0 in
  let p1 := attempt Examples.conf3 1 Examples.url Examples.dest tmp (-1) p0.2 in
  p0.1 = (Continue, (-1)%Z)
  /\ p1.1 = (Continue, 3%Z)
  /\ ~ captured_on_first_attempt_only Examples.conf3 Examples.url Examples.dest w0.
Proof.
  intros w0 tmp p0 p1.
  split; [vm_compute; reflexivity |]. split; [vm_compute; reflexivity |].
  intros H. unfold captured_on_first_attempt_only in H. fold tmp in H.
  assert (E0 : p0 = (Continue, (-1)%Z, p0.2)).
  { assert (Ea : p0.1.1 = Continue) by (vm_compute; reflexivity).
    assert (Eb : p0.1.2 = (-1)%Z) by (vm_compute; reflexivity).
    transitivity (p0.1.1, p0.1.2, p0.2); [apply triple_eta | rewrite Ea, Eb; reflexivity]. }
  assert (E1 : p1.1.2 = 3%Z) by (vm_compute; reflexivity).
  specialize (H 1%nat (-1)%Z p0.2 p1.1.1 p1.1.2 p1.2).
  rewrite E1 in H. discriminate H.
  - eapply pass_next; [apply pass_first; reflexivity | exact E0 | reflexivity].
  - lia.
  - rewrite <- E1. apply triple_eta.
Qed.



(** The C3 theorem on the second pass of a run against the flaky
    backend: the first request got no answer, so this pass still sends a
    plain request, and its response sets the expected total. *)
Lemma C3_request_and_total_witness :
  let w1 := (attempt Examples.conf3 0 Examples.url Examples.dest (Examples.dest +:+ ".tmp")
               (-1) (Examples.world Examples.in_progress Examples.no_fault Examples.flaky)).2 in
  let r := download_try Examples.conf3 1 Examples.url Examples.dest
             (Examples.dest +:+ ".tmp") (-1) w1 in
  requests r.2 = (requests w1 ++ [mkRequest Examples.url 15 None])%list
  /\ r.1.2 = 3%Z.
Proof.
  intros w1 r.
  destruct (C3_request_and_total Examples.conf3 1 Examples.url Examples.dest (-1) w1
              Examples.empty_file ltac:(reflexivity) ltac:(vm_compute; reflexivity)
              r.1.1 r.1.2 r.2 (triple_eta r)) as [Hrq Hm].
  split; [exact Hrq |].
  change (backend w1 (length (requests w1))
            (mkRequest Examples.url (HTTP_TIMEOUT_SEC Examples.conf3) None))
    with (Examples.flaky (length (requests w1))
            (mkRequest Examples.url (HTTP_TIMEOUT_SEC Examples.conf3) None)) in Hm.
  replace (length (requests w1)) with 1%nat in Hm by (vm_compute; reflexivity).
  exact (proj1 Hm).
Defined.

(** ** C4: partial reads and completion *)


Section PartialRead.

Variable CONF : Conf.
Variables (i : nat) (url dest : string) (size_final : Z) (w : World) (f : file) (r : response).

Let dest_tmp : string := dest +:+ ".tmp".
Let size_ondisk : Z := Z.of_nat (length (f_data f)).

Hypothesis stat_ok : fault w SysStat dest_tmp = None.
Hypothesis placeholder : files w !! dest_tmp = Some (File f).
Hypothesis open_ok : fault w SysOpen dest_tmp = None.
Hypothesis answered :
  backend w (length (requests w)) (request_sent CONF url size_final size_ondisk) = Responded r.
Hypothesis status_ok : is_http_error (status_code r) = false.




End PartialRead.




(** ** C5: waiting for somebody else's download *)

Lemma timed_out_none (time0 : Q) (w : World) : timed_out None time0 w = false.
Proof. reflexivity. Qed.

Lemma timed_out_some (d time0 : Q) (w : World) :
  timed_out (Some d) time0 w = true <-> ~ (d == 0)%Q /\ (d < clock w - time0)%Q.
Proof.
  unfold timed_out, truthy, Qgtb. simpl.
  rewrite andb_true_iff, !negb_true_iff.
  split; intros [H1 H2]; split.
  - intros Heq. apply Qeq_bool_iff in Heq. congruence.
  - apply Qnot_le_lt. intros Hle. apply Qle_bool_iff in Hle. congruence.
  - destruct (Qeq_bool d 0) eqn:E; [| reflexivity].
    apply Qeq_bool_iff in E. contradiction.
  - destruct (Qle_bool (clock w - time0) d) eqn:E; [| reflexivity].
    apply Qle_bool_iff in E. apply Qlt_not_le in H2. contradiction.
Qed.

Lemma timed_out_zero (d time0 : Q) (w : World) :
  (d == 0)%Q -> timed_out (Some d) time0 w = false.
Proof.
  intros H. unfold timed_out, truthy. apply Qeq_bool_iff in H. rewrite H. reflexivity.
Qed.

Lemma poll_yields (e : env_step) (w : World) : yields (poll e w) = (yields w ++ [1%Q])%list.
Proof. reflexivity. Qed.

Lemma polls_yields (env : list env_step) (w : World) (k : nat) (wk : World) :
  polls env w !! k = Some wk -> yields wk = (yields w ++ repeat 1%Q (S k))%list.
Proof.
  revert w k. induction env as [|e env IH]; intros w k H; [discriminate |].
  destruct k as [|k]; simpl in H.
  - injection H as <-. apply poll_yields.
  - rewrite (IH _ _ H), poll_yields, <- app_assoc. reflexivity.
Qed.

Lemma polls_quiet (env : list env_step) (w : World) (k : nat) (wk : World) :
  polls env w !! k = Some wk ->
  requests wk = requests w /\ spawned wk = spawned w /\ sleeps wk = sleeps w.
Proof.
  revert w k. induction env as [|e env IH]; intros w k H; [discriminate |].
  destruct k as [|k]; simpl in H.
  - injection H as <-. auto.
  - destruct (IH _ _ H) as (H1 & H2 & H3). rewrite H1, H2, H3. auto.
Qed.

Section WaitLoop.

Variables (time0 : Q) (wait_timeout : option Q) (dest_tmp : string).

Lemma wait_loop_step (e : env_step) (env : list env_step) (w : World) :
  OS.isfile w dest_tmp = true ->
  wait_loop (e :: env) time0 wait_timeout dest_tmp w
  = if timed_out wait_timeout time0 (poll e w) then (Returns MUST_WAIT, poll e w)
    else wait_loop env time0 wait_timeout dest_tmp (poll e w).
Proof. intros H. simpl. rewrite H. reflexivity. Qed.

Lemma wait_loop_gone (env : list env_step) (w : World) :
  OS.isfile w dest_tmp = false ->
  wait_loop env time0 wait_timeout dest_tmp w = (Returns END_WAIT, w).
Proof. intros H. destruct env; simpl; rewrite H; reflexivity. Qed.

Lemma wait_loop_must_wait (env : list env_step) (w : World) (k : nat) (wk : World) :
  OS.isfile w dest_tmp = true ->
  polls env w !! k = Some wk ->
  timed_out wait_timeout time0 wk = true ->
  (forall j wj, (j < k)%nat -> polls env w !! j = Some wj ->
                OS.isfile wj dest_tmp = true /\ timed_out wait_timeout time0 wj = false) ->
  wait_loop env time0 wait_timeout dest_tmp w = (Returns MUST_WAIT, wk).
Proof.
  revert w k. induction env as [|e env IH]; intros w k Hw Hk Hto Hbefore; [discriminate |].
  rewrite wait_loop_step by exact Hw.
  destruct k as [|k]; simpl in Hk.
  - injection Hk as <-. rewrite Hto. reflexivity.
  - destruct (Hbefore 0%nat (poll e w)) as [Hf Hn]; [lia | reflexivity |].
    rewrite Hn. apply (IH _ k); auto.
    intros j wj Hj Hwj. apply (Hbefore (S j)); [lia | exact Hwj].
Qed.

Lemma wait_loop_end_wait (env : list env_step) (w : World) (k : nat) (wk : World) :
  OS.isfile w dest_tmp = true ->
  polls env w !! k = Some wk ->
  OS.isfile wk dest_tmp = false ->
  (forall j wj, (j < k)%nat -> polls env w !! j = Some wj -> OS.isfile wj dest_tmp = true) ->
  (forall j wj, (j <= k)%nat -> polls env w !! j = Some wj ->
                timed_out wait_timeout time0 wj = false) ->
  wait_loop env time0 wait_timeout dest_tmp w = (Returns END_WAIT, wk).
Proof.
  revert w k. induction env as [|e env IH]; intros w k Hw Hk Hgone Hbefore Hto;
    [discriminate |].
  rewrite wait_loop_step by exact Hw.
  rewrite (Hto 0%nat (poll e w)) by (try reflexivity; lia).
  destruct k as [|k]; simpl in Hk.
  - injection Hk as <-. apply wait_loop_gone, Hgone.
  - apply (IH _ k); auto.
    + apply (Hbefore 0%nat); [lia | reflexivity].
    + intros j wj Hj Hwj. apply (Hbefore (S j)); [lia | exact Hwj].
    + intros j wj Hj Hwj. apply (Hto (S j)); [lia | exact Hwj].
Qed.

Lemma wait_loop_suspended (env : list env_step) (w : World) :
  OS.isfile w dest_tmp = true ->
  (forall j wj, polls env w !! j = Some wj ->
                OS.isfile wj dest_tmp = true /\ timed_out wait_timeout time0 wj = false) ->
  (wait_loop env time0 wait_timeout dest_tmp w).1 = Suspended.
Proof.
  revert w. induction env as [|e env IH]; intros w Hw Hall.
  - simpl. rewrite Hw. reflexivity.
  - rewrite wait_loop_step by exact Hw.
    destruct (Hall 0%nat (poll e w)) as [Hf Hn]; [reflexivity |].
    rewrite Hn. apply IH; [exact Hf |].
    intros j wj Hwj. apply (Hall (S j)). exact Hwj.
Qed.

End WaitLoop.

Lemma not_timed_out (wait_timeout : option Q) (time0 : Q) (w : World) :
  truthy wait_timeout = false
  \/ (exists d, wait_timeout = Some d /\ (clock w - time0 <= d)%Q) ->
  timed_out wait_timeout time0 w = false.
Proof.
  intros [H | (d & -> & Hle)].
  - unfold timed_out. rewrite H. reflexivity.
  - destruct (timed_out (Some d) time0 w) eqn:E; [| reflexivity].
    apply timed_out_some in E. destruct E as [_ E].
    apply Qlt_not_le in E. contradiction.
Qed.

(** C5 (as amended). When [robust_get] finds neither marker nor final file
    but the placeholder, it polls: each turn requests a one-second
    [deferLater] and looks again on waking up, first at the clock, then at
    the placeholder. With [w_0, w_1, ...] the worlds it wakes up in:
    - for a deadline [d] other than zero: if on wake-up [k] more than [d]
      seconds have passed since the wait began, and on every earlier
      wake-up the placeholder was there and the deadline had not passed,
      the call returns [MUST_WAIT] there;
    - if on wake-up [k] the placeholder is gone, it was there on every
      earlier wake-up, and either there is no deadline (none given, or
      zero, which counts as none) or the deadline had not passed on any
      wake-up up to [k], the call returns [END_WAIT] there, whatever became
      of the download;
    - as long as the schedule shows neither, the call stays suspended.
    Every suspension asked for is one second long; waiting makes no
    request and starts no download. *)
Theorem C5_wait_outcomes (CONF : Conf) (env : list env_step) (url dest : string)
    (wait_timeout : option Q) (w : World) :
  let dest_tmp := dest +:+ ".tmp" in
  let seen := polls env (log_msg (LogWaiting url dest) w) in
  OS.isfile w (dest +:+ ".404") = false ->
  OS.isfile w dest = false ->
  OS.isfile w dest_tmp = true ->
  (forall d k wk,
      wait_timeout = Some d -> ~ (d == 0)%Q ->
      seen !! k = Some wk ->
      (d < clock wk - clock w)%Q ->
      (forall j wj, (j < k)%nat -> seen !! j = Some wj ->
                    OS.isfile wj dest_tmp = true /\ (clock wj - clock w <= d)%Q) ->
      robust_get CONF env url dest wait_timeout w = (Returns MUST_WAIT, wk))
  /\ (forall k wk,
         seen !! k = Some wk ->
         OS.isfile wk dest_tmp = false ->
         (forall j wj, (j < k)%nat -> seen !! j = Some wj -> OS.isfile wj dest_tmp = true) ->
         truthy wait_timeout = false
         \/ (exists d, wait_timeout = Some d
                       /\ forall j wj, (j <= k)%nat -> seen !! j = Some wj ->
                                       (clock wj - clock w <= d)%Q) ->
         robust_get CONF env url dest wait_timeout w = (Returns END_WAIT, wk))
  /\ ((forall j wj, seen !! j = Some wj ->
                    OS.isfile wj dest_tmp = true
                    /\ (truthy wait_timeout = false
                        \/ exists d, wait_timeout = Some d /\ (clock wj - clock w <= d)%Q)) ->
      (robust_get CONF env url dest wait_timeout w).1 = Suspended)
  /\ (forall k wk,
         seen !! k = Some wk ->
         yields wk = (yields w ++ repeat 1%Q (S k))%list
         /\ requests wk = requests w /\ spawned wk = spawned w).
Proof.
  intros dest_tmp seen H404 Hdest Htmp.
  assert (Hget : robust_get CONF env url dest wait_timeout w
                 = wait_loop env (clock w) wait_timeout dest_tmp
                             (log_msg (LogWaiting url dest) w)).
  { unfold robust_get. rewrite H404, Hdest. fold dest_tmp. rewrite Htmp. reflexivity. }
  assert (Htmp0 : OS.isfile (log_msg (LogWaiting url dest) w) dest_tmp = true) by exact Htmp.
  rewrite Hget. split; [| split; [| split]].
  - intros d k wk -> Hd Hk Hlate Hbefore.
    apply (wait_loop_must_wait _ _ _ _ _ k); auto.
    + apply timed_out_some. auto.
    + intros j wj Hj Hwj. destruct (Hbefore j wj Hj Hwj) as [Hf Hle].
      split; [exact Hf |]. apply not_timed_out. right. eauto.
  - intros k wk Hk Hgone Hbefore Hno.
    apply (wait_loop_end_wait _ _ _ _ _ k); auto.
    intros j wj Hj Hwj. apply not_timed_out.
    destruct Hno as [Hno | (d & -> & Hle)]; [left; exact Hno |].
    right. exists d. split; [reflexivity |]. apply (Hle j); auto.
  - intros Hall. apply wait_loop_suspended; [exact Htmp0 |].
    intros j wj Hwj. destruct (Hall j wj Hwj) as [Hf Hno].
    split; [exact Hf | apply not_timed_out, Hno].
  - intros k wk Hk.
    destruct (polls_quiet _ _ _ _ Hk) as (Hr & Hs & _).
    rewrite (polls_yields _ _ _ _ Hk). auto.
Qed.

(** A deadline of zero seconds is never reported as elapsed: the caller
    is kept waiting past it and gets [END_WAIT] when the placeholder goes. *)
Lemma C5_zero_deadline_counterexample :
  let w := Examples.world Examples.in_progress Examples.no_fault Examples.down in
  let env := [Examples.tick; Examples.finishes] in
  let w1 := poll Examples.tick (log_msg (LogWaiting Examples.url Examples.dest) w) in
  (0 < clock w1 - clock w)%Q
  /\ OS.isfile w1 (Examples.dest +:+ ".tmp") = true
  /\ (robust_get Examples.conf3 env Examples.url Examples.dest (Some 0%Q) w).1
     = Returns END_WAIT
  /\ ~ every_deadline_honoured Examples.conf3.
Proof.
  intros w env w1.
  split; [vm_compute; reflexivity |]. split; [vm_compute; reflexivity |].
  split; [vm_compute; reflexivity |].
  intros H.
  specialize (H [Examples.tick; Examples.finishes] Examples.url Examples.dest 0%Q
                (Examples.world Examples.in_progress Examples.no_fault Examples.down)
                0%nat
                (poll Examples.tick
                   (log_msg (LogWaiting Examples.url Examples.dest)
                      (Examples.world Examples.in_progress Examples.no_fault Examples.down)))).
  assert (E : (robust_get Examples.conf3 [Examples.tick; Examples.finishes] Examples.url
                 Examples.dest (Some 0%Q)
                 (Examples.world Examples.in_progress Examples.no_fault Examples.down)).1
              = Returns END_WAIT) by (vm_compute; reflexivity).
  rewrite E in H. discriminate H.
  - vm_compute. reflexivity.
  - vm_compute. reflexivity.
  - vm_compute. reflexivity.
  - reflexivity.
  - vm_compute. reflexivity.
  - vm_compute. reflexivity.
  - intros j wj Hj. lia.
Qed.

(** The C5 theorem on a placeholder that stays for two seconds against a
    deadline of a second and a half, and on one that goes after two seconds
    with no deadline. *)
Lemma C5_wait_outcomes_witness :
  (exists wk,
      robust_get Examples.conf3 [Examples.tick; Examples.tick] Examples.url Examples.dest
        (Some 1.5%Q) (Examples.world Examples.in_progress Examples.no_fault Examples.down)
      = (Returns MUST_WAIT, wk)
      /\ yields wk = [1%Q; 1%Q])
  /\ (exists wk,
         robust_get Examples.conf3 [Examples.tick; Examples.finishes] Examples.url
           Examples.dest None
           (Examples.world Examples.in_progress Examples.no_fault Examples.down)
         = (Returns END_WAIT, wk)
         /\ yields wk = [1%Q; 1%Q]).
Proof.
  split.
  - destruct (C5_wait_outcomes Examples.conf3 [Examples.tick; Examples.tick] Examples.url
                Examples.dest (Some 1.5%Q)
                (Examples.world Examples.in_progress Examples.no_fault Examples.down))
      as (Hmust & _ & _ & Hy).
    + vm_compute. reflexivity.
    + vm_compute. reflexivity.
    + vm_compute. reflexivity.
    + eexists. split.
      * apply (Hmust 1.5%Q 1%nat).
        -- reflexivity.
        -- vm_compute. discriminate.
        -- reflexivity.
        -- vm_compute. reflexivity.
        -- intros j wj Hj Hwj. destruct j as [|j]; [| lia].
           injection Hwj as <-. split; [vm_compute; reflexivity | vm_compute; discriminate].
      * apply (Hy 1%nat). reflexivity.
  - destruct (C5_wait_outcomes Examples.conf3 [Examples.tick; Examples.finishes] Examples.url
                Examples.dest None
                (Examples.world Examples.in_progress Examples.no_fault Examples.down))
      as (_ & Hend & _ & Hy).
    + vm_compute. reflexivity.
    + vm_compute. reflexivity.
    + vm_compute. reflexivity.
    + eexists. split.
      * apply (Hend 1%nat).
        -- reflexivity.
        -- vm_compute. reflexivity.
        -- intros j wj Hj Hwj. destruct j as [|j]; [| lia].
           injection Hwj as <-. vm_compute. reflexivity.
        -- left. reflexivity.
      * apply (Hy 1%nat). reflexivity.
Defined.

(** ** C10: no attempt allowed *)

Lemma no_pass_no_effect (CONF : Conf) (url dest dest_tmp : string) (w : World) :
  HTTP_CONN_RETRIES CONF = 0%Z ->
  robust_get_sync CONF url dest dest_tmp w = (Ok false, w).
Proof. intros H. unfold robust_get_sync. rewrite H. reflexivity. Qed.

(** C10. With [HTTP_CONN_RETRIES] at 0 the loop has no pass:
    [robust_get_sync] returns [False] and leaves the world exactly as it
    found it: no request made, no failure marker written, the placeholder
    not deleted. *)
Theorem C10_zero_retries (CONF : Conf) (url dest dest_tmp : string) (w : World) :
  HTTP_CONN_RETRIES CONF = 0%Z ->
  robust_get_sync CONF url dest dest_tmp w = (Ok false, w).
Proof. apply no_pass_no_effect. Qed.

(** The C10 theorem on a placeholder with a dead backend: afterwards the
    placeholder is still there and there is no marker. *)
Lemma C10_zero_retries_witness :
  let w := Examples.world Examples.in_progress Examples.no_fault Examples.down in
  robust_get_sync Examples.conf0 Examples.url Examples.dest (Examples.dest +:+ ".tmp") w
  = (Ok false, w)
  /\ OS.isfile w (Examples.dest +:+ ".tmp") = true
  /\ OS.isfile w (Examples.dest +:+ ".404") = false.
Proof.
  split; [| split].
  - apply (C10_zero_retries Examples.conf0). reflexivity.
  - vm_compute. reflexivity.
  - vm_compute. reflexivity.
Defined.

(** ** C6: a backend that always fails *)

Lemma attempt_transient (CONF : Conf) (i : nat) (url dest : string) (size_final : Z)
    (w : World) (f : file) :
  let dest_tmp := dest +:+ ".tmp" in
  healthy_os w ->
  files w !! dest_tmp = Some (File f) ->
  fails_transiently
    (backend w (length (requests w))
       (request_sent CONF url size_final (Z.of_nat (length (f_data f))))) = true ->
  exists st sf' w1 f',
    download_try CONF i url dest dest_tmp size_final (backoff i url dest w)
    = (Raise (RequestException st), sf', w1)
    /\ default (-1)%Z st <> 404%Z
    /\ files w1 = <[dest_tmp := File f']> (files w)
    /\ fault w1 = fault w /\ backend w1 = backend w
    /\ length (requests w1) = S (length (requests w))
    /\ sleeps w1 = sleeps (backoff i url dest w).
Proof.
  intros dest_tmp Hos Hfile Hfail.
  pose proof (download_try_file CONF i url dest dest_tmp size_final (backoff i url dest w) f)
    as H.
  rewrite backoff_fault, backoff_files, backoff_backend, backoff_requests in H.
  specialize (H (Hos _ _) Hfile). cbv zeta in H.
  rewrite (Hos SysOpen dest_tmp) in H.
  assert (Hid : <[dest_tmp := File f]> (files w) = files w) by (apply insert_id, Hfile).
  destruct (backend w _ _) as [|r|]; simpl in Hfail.
  3: discriminate Hfail.
  - eexists None, size_final, _, f. split; [exact H |].
    split; [discriminate |]. simpl.
    rewrite backoff_files, backoff_fault, backoff_backend, backoff_requests, Hid, length_app.
    simpl. repeat split; lia.
  - destruct (is_http_error (status_code r)).
    + eexists (Some (status_code r)), _, _, f. split; [exact H |].
      split; [simpl; apply Z.eqb_neq, negb_true_iff, Hfail |]. simpl.
      rewrite backoff_files, backoff_fault, backoff_backend, backoff_requests, Hid, length_app.
      simpl. repeat split; lia.
    + destruct H as (f' & _ & _ & H).
      apply negb_true_iff in Hfail. rewrite Hfail in H.
      eexists None, _, _, f'. split; [exact H |].
      split; [discriminate |]. simpl.
      rewrite backoff_fault, backoff_backend, backoff_requests, length_app.
      simpl. repeat split; lia.
Qed.

Lemma pauses_positive (i n : nat) : pauses (S i) n = map pause_sec (seq (S i) n).
Proof.
  unfold pauses. revert i. induction n as [|n IH]; intros i; [reflexivity |].
  simpl. f_equal. apply IH.
Qed.

Lemma pauses_cons (i n : nat) :
  pauses i (S n) = ((if (0 <? i)%nat then [pause_sec i] else []) ++ pauses (S i) n)%list.
Proof. reflexivity. Qed.

Lemma pauses_from_zero (n : nat) : pauses 0 (S n) = map pause_sec (seq 1 n).
Proof. unfold pauses. simpl. apply pauses_positive. Qed.

(** The loop from pass [i] on, with [n + 1] passes left, against a
    backend that always fails. *)
Lemma retry_loop_always_fails (CONF : Conf) (url dest : string) (n : nat) :
  forall (i : nat) (size_final : Z) (w : World) (f : file),
    Z.of_nat (i + n) = (HTTP_CONN_RETRIES CONF - 1)%Z ->
    healthy_os w ->
    files w !! (dest +:+ ".tmp") = Some (File f) ->
    files w !! (dest +:+ ".404") <> Some Dir ->
    always_fails (backend w) ->
    exists w',
      retry_loop CONF (seq i (S n)) url dest (dest +:+ ".tmp") size_final w = (Ok false, w')
      /\ length (requests w') = (length (requests w) + S n)%nat
      /\ sleeps w' = (sleeps w ++ pauses i (S n))%list
      /\ fault w' = fault w
      /\ is_Some (files w' !! (dest +:+ ".404"))
      /\ files w' !! (dest +:+ ".404") <> Some Dir
      /\ files w' !! (dest +:+ ".tmp") = None.
Proof.
  set (dest_tmp := dest +:+ ".tmp"). set (marker := dest +:+ ".404").
  assert (Hne : marker <> dest_tmp) by (apply not_eq_sym, tmp_neq_404).
  induction n as [|n IH]; intros i size_final w f Hi Hos Hfile Hmark Hsrv.
  - destruct (attempt_transient CONF i url dest size_final w f Hos Hfile (Hsrv _ _))
      as (st & sf' & w1 & f' & Htry & Hst & Hfs & Hfl & Hbk & Hrq & Hsl).
    fold dest_tmp in Htry, Hfs.
    pose proof (download_except_gives_up CONF i url dest dest_tmp st w1) as Hex.
    cbv zeta in Hex. fold marker in Hex.
    assert (Hm1 : files w1 !! marker = files w !! marker)
      by (rewrite Hfs; apply lookup_insert_ne; congruence).
    rewrite Hfl, Hm1, (Hos SysOpen marker) in Hex.
    specialize (Hex ltac:(right; lia) eq_refl Hmark).
    set (marked := set_files _ _) in Hex.
    assert (Hmt : files marked !! dest_tmp = Some (File f')).
    { unfold marked; simpl. rewrite lookup_insert_ne by congruence.
      rewrite Hfs. apply lookup_insert_eq. }
    rewrite (unlink_file dest_tmp marked f') in Hex
      by (try exact Hmt; simpl; rewrite Hfl; apply Hos).
    eexists. split.
    { simpl. unfold attempt. rewrite Htry, Hex. reflexivity. }
    simpl. rewrite Hrq, Hsl, backoff_sleeps, pauses_cons.
    change (pauses (S i) 0) with (@nil Q). rewrite app_nil_r.
    split; [lia |]. split; [reflexivity |]. split; [exact Hfl |].
    rewrite lookup_delete_ne by congruence. rewrite lookup_insert_eq.
    split; [eexists; reflexivity |]. split; [discriminate | apply lookup_delete_eq].
  - destruct (attempt_transient CONF i url dest size_final w f Hos Hfile (Hsrv _ _))
      as (st & sf' & w1 & f' & Htry & Hst & Hfs & Hfl & Hbk & Hrq & Hsl).
    fold dest_tmp in Htry, Hfs.
    assert (Hatt : attempt CONF i url dest dest_tmp size_final w = (Continue, sf', w1)).
    { unfold attempt. rewrite Htry.
      rewrite download_except_retries; [reflexivity | exact Hst | lia]. }
    destruct (IH (S i) sf' w1 f') as (w' & Hloop & Hrq' & Hsl' & Hfl' & Hm' & Hd' & Ht').
    + lia.
    + intros s p. rewrite Hfl. apply Hos.
    + rewrite Hfs. apply lookup_insert_eq.
    + rewrite Hfs, lookup_insert_ne by congruence. exact Hmark.
    + rewrite Hbk. exact Hsrv.
    + exists w'. split.
      { change (seq i (S (S n))) with (i :: seq (S i) (S n)).
        cbn [retry_loop]. rewrite Hatt. exact Hloop. }
      rewrite Hrq', Hrq, Hsl', Hsl, backoff_sleeps, Hfl', Hfl.
      split; [lia |]. split; [| auto].
      rewrite (pauses_cons i (S n)), <- app_assoc. reflexivity.
Qed.

(** C6 (as amended). With at least one attempt allowed
    ([HTTP_CONN_RETRIES >= 1]), a placeholder that is a regular file, no
    operating-system call refused, and a backend whose every answer fails
    without being a 404, [robust_get_sync] returns [False] after exactly
    [HTTP_CONN_RETRIES] requests; it sleeps before every attempt but the
    first, [0.4 * 1.4^(i-1)] seconds before attempt [i] (counted from 0),
    and nothing else; afterwards the failure marker is a file and the
    placeholder is gone. *)
Theorem C6_retry_bound (CONF : Conf) (url dest : string) (w : World) (f : file) :
  (1 <= HTTP_CONN_RETRIES CONF)%Z ->
  healthy_os w ->
  files w !! (dest +:+ ".tmp") = Some (File f) ->
  files w !! (dest +:+ ".404") <> Some Dir ->
  always_fails (backend w) ->
  exists w',
    robust_get_sync CONF url dest (dest +:+ ".tmp") w = (Ok false, w')
    /\ length (requests w') = (length (requests w) + Z.to_nat (HTTP_CONN_RETRIES CONF))%nat
    /\ sleeps w'
       = (sleeps w
          ++ map (fun i => (0.4 * 1.4 ^ (Z.of_nat i - 1))%Q)
                 (seq 1 (Z.to_nat (HTTP_CONN_RETRIES CONF) - 1)))%list
    /\ OS.isfile w' (dest +:+ ".404") = true
    /\ OS.isfile w' (dest +:+ ".tmp") = false.
Proof.
  intros Hn Hos Hfile Hmark Hsrv. unfold robust_get_sync.
  destruct (Z.to_nat (HTTP_CONN_RETRIES CONF)) as [|n] eqn:En; [lia |].
  destruct (retry_loop_always_fails CONF url dest n 0 (-1) w f)
    as (w' & Hloop & Hrq & Hsl & Hfl & Hm & Hd & Ht); auto; [lia |].
  exists w'. split; [exact Hloop |]. split; [exact Hrq |].
  split; [| split].
  - rewrite Hsl, pauses_from_zero. simpl. rewrite Nat.sub_0_r. reflexivity.
  - unfold OS.isfile, OS.stat. rewrite Hfl, (Hos SysStat).
    destruct Hm as [[g|] Hg]; rewrite Hg; [reflexivity | congruence].
  - unfold OS.isfile, OS.stat. rewrite Hfl, (Hos SysStat), Ht. reflexivity.
Qed.

(** With no attempt allowed there is no marker afterwards, and the
    placeholder stays. *)
Lemma C6_zero_retries_counterexample :
  let w := Examples.world Examples.in_progress Examples.no_fault Examples.down in
  robust_get_sync Examples.conf0 Examples.url Examples.dest (Examples.dest +:+ ".tmp") w
  = (Ok false, w)
  /\ OS.isfile w (Examples.dest +:+ ".404") = false
  /\ OS.isfile w (Examples.dest +:+ ".tmp") = true
  /\ ~ failing_backend_leaves_marker Examples.conf0.
Proof.
  intros w.
  split; [apply no_pass_no_effect; reflexivity |]. split; [vm_compute; reflexivity |].
  split; [vm_compute; reflexivity |].
  intros H.
  destruct (H Examples.url Examples.dest
              (Examples.world Examples.in_progress Examples.no_fault Examples.down)
              Examples.empty_file) as (w' & E & _ & Hm & _).
  - intros s p. reflexivity.
  - vm_compute. reflexivity.
  - vm_compute. discriminate.
  - intros k rq. reflexivity.
  - rewrite (no_pass_no_effect Examples.conf0) in E by reflexivity.
    injection E as <-. vm_compute in Hm. discriminate Hm.
Qed.

(** The C6 theorem with three attempts against a dead backend. *)
Lemma C6_retry_bound_witness :
  exists w',
    robust_get_sync Examples.conf3 Examples.url Examples.dest (Examples.dest +:+ ".tmp")
      (Examples.world Examples.in_progress Examples.no_fault Examples.down)
    = (Ok false, w')
    /\ length (requests w') = 3%nat
    /\ sleeps w' = [(0.4 * 1.4 ^ (1 - 1))%Q; (0.4 * 1.4 ^ (2 - 1))%Q]
    /\ OS.isfile w' (Examples.dest +:+ ".404") = true
    /\ OS.isfile w' (Examples.dest +:+ ".tmp") = false.
Proof.
  apply (C6_retry_bound Examples.conf3 Examples.url Examples.dest
           (Examples.world Examples.in_progress Examples.no_fault Examples.down)
           Examples.empty_file).
  - vm_compute. discriminate.
  - intros s p. reflexivity.
  - vm_compute. reflexivity.
  - vm_compute. discriminate.
  - intros k rq. reflexivity.
Defined.

(** ** C9: errors while creating the destination directory *)


Lemma make_dest_dir_ok (dest_dir : string) (w w1 : World) :
  OS.makedirs dest_dir w = (Ok tt, w1) -> make_dest_dir dest_dir w = (Ok tt, w1).
Proof. intros H. unfold make_dest_dir. rewrite H. reflexivity. Qed.








(** ** C7: the periodic sweep *)

Section Sweep.

Variable CONF : Conf.
Variables (now : Q) (file_name : string) (saved used : Z) (w : World).

Lemma sweep_file_skips :
  OS.isdir w file_name = true \/ Path.endswith file_name ".tmp" = true ->
  sweep_file CONF now file_name (saved, used, w) = (saved, used, w).
Proof.
  intros H. unfold sweep_file.
  replace (OS.isdir w file_name || Path.endswith file_name ".tmp") with true; [reflexivity |].
  symmetry. apply orb_true_iff. exact H.
Qed.

Lemma sweep_file_stat_error (e : errno) :
  OS.stat w file_name = Raise e ->
  sweep_file CONF now file_name (saved, used, w) = (saved, used, w).
Proof.
  intros H. unfold sweep_file.
  destruct (OS.isdir w file_name || Path.endswith file_name ".tmp"); [reflexivity |].
  rewrite H. reflexivity.
Qed.

Variable f : file.
Hypothesis not_tmp : Path.endswith file_name ".tmp" = false.
Hypothesis stat_ok : fault w SysStat file_name = None.
Hypothesis regular : files w !! file_name = Some (File f).

Let size : Z := Z.of_nat (length (f_data f)).

Lemma sweep_file_regular :
  sweep_file CONF now file_name (saved, used, w)
  = if expired CONF now file_name f then
      match OS.unlink file_name
              (log_msg (if by_mtime file_name
                        then LogModifiedErased file_name (py_int (now - f_mtime f)) size
                        else LogAccessedErased file_name (py_int (now - f_atime f)) size) w)
      with
      | (Raise _, w') => (saved, used, w')
      | (Ok _, w') => ((saved + size)%Z, used, w')
      end
    else (saved, (used + size)%Z, w).
Proof.
  unfold sweep_file, OS.isdir, OS.stat. rewrite stat_ok, regular, not_tmp.
  cbn [OS.stat_of st_isdir st_size st_atime st_mtime orb]. fold size.
  unfold expired, by_mtime.
  destruct (String.eqb (Path.basename file_name) "index.json"
            || Path.endswith file_name ".404").
  - destruct (CACHE_INDEX_DURATION CONF <? py_int (now - f_mtime f))%Z; reflexivity.
  - destruct (CACHE_FILE_DURATION CONF <? py_int (now - f_atime f))%Z; reflexivity.
Qed.

Lemma sweep_file_retains :
  expired CONF now file_name f = false ->
  sweep_file CONF now file_name (saved, used, w) = (saved, (used + size)%Z, w).
Proof. intros H. rewrite sweep_file_regular, H. reflexivity. Qed.

Lemma sweep_file_deletes :
  expired CONF now file_name f = true ->
  fault w SysUnlink file_name = None ->
  exists w',
    sweep_file CONF now file_name (saved, used, w) = ((saved + size)%Z, used, w')
    /\ files w' = delete file_name (files w) /\ fault w' = fault w.
Proof.
  intros H Hu. rewrite sweep_file_regular, H.
  rewrite (unlink_file file_name _ f) by assumption.
  eexists. split; [reflexivity |]. split; reflexivity.
Qed.


End Sweep.

Lemma unlink_cases (p : string) (w : World) :
  (exists e, OS.unlink p w = (Raise e, w))
  \/ OS.unlink p w = (Ok tt, set_files (delete p (files w)) w).
Proof.
  unfold OS.unlink.
  destruct (fault w SysUnlink p); [left; eauto |].
  destruct (files w !! p) as [[g|]|]; [right | left | left]; eauto.
Qed.

(** One step of the sweep touches no file but the visited one, which it
    can only delete, and leaves the fault table alone. *)
Lemma sweep_file_frame (CONF : Conf) (now : Q) (file_name : string) (acc : Z * Z * World) :
  fault (sweep_file CONF now file_name acc).2 = fault acc.2
  /\ forall q,
       files (sweep_file CONF now file_name acc).2 !! q = files acc.2 !! q
       \/ (q = file_name /\ files (sweep_file CONF now file_name acc).2 !! q = None).
Proof.
  destruct acc as [[s u] w]. unfold sweep_file.
  destruct (OS.isdir w file_name || Path.endswith file_name ".tmp"); [simpl; auto |].
  destruct (OS.stat w file_name) as [sta|e]; [| simpl; auto].
  set (ev := if String.eqb (Path.basename file_name) "index.json"
                || Path.endswith file_name ".404"
             then _ else _).
  assert (Hev : fault ev.2 = fault w /\ files ev.2 = files w).
  { unfold ev.
    destruct (String.eqb (Path.basename file_name) "index.json"
              || Path.endswith file_name ".404");
      [destruct (CACHE_INDEX_DURATION CONF <? _)%Z | destruct (CACHE_FILE_DURATION CONF <? _)%Z];
      simpl; auto. }
  destruct ev as [remove w0]. simpl in Hev. destruct Hev as [Hfl Hfs].
  destruct remove; [| simpl; rewrite Hfl, Hfs; auto].
  destruct (unlink_cases file_name w0) as [(e & ->) | ->]; simpl.
  - rewrite Hfl, Hfs. auto.
  - rewrite Hfl, Hfs. split; [reflexivity |]. intros q.
    destruct (decide (q = file_name)) as [-> | Hq].
    + right. split; [reflexivity | apply lookup_delete_eq].
    + left. apply lookup_delete_ne. congruence.
Qed.

Lemma sweep_fold_frame (CONF : Conf) (now : Q) (names : list string) :
  forall acc : Z * Z * World,
    fault (foldl (fun a n => sweep_file CONF now n a) acc names).2 = fault acc.2
    /\ forall q,
         files (foldl (fun a n => sweep_file CONF now n a) acc names).2 !! q = files acc.2 !! q
         \/ files (foldl (fun a n => sweep_file CONF now n a) acc names).2 !! q = None.
Proof.
  induction names as [|n names IH]; intros acc; [simpl; auto |].
  simpl. destruct (IH (sweep_file CONF now n acc)) as [Hfl Hfs].
  destruct (sweep_file_frame CONF now n acc) as [Hfl1 Hfs1].
  split; [congruence |]. intros q.
  destruct (Hfs q) as [H | H]; [| right; exact H].
  destruct (Hfs1 q) as [H1 | [_ H1]]; [left | right]; congruence.
Qed.

(** A sweep that does not visit a path leaves it as it was. *)
Lemma sweep_fold_unvisited (CONF : Conf) (now : Q) (file_name : string)
    (names : list string) :
  ~ In file_name names ->
  forall acc : Z * Z * World,
    files (foldl (fun a n => sweep_file CONF now n a) acc names).2 !! file_name
    = files acc.2 !! file_name.
Proof.
  induction names as [|n names IH]; intros Hout acc; [reflexivity |].
  simpl. rewrite IH by (intros Hc; apply Hout; right; exact Hc).
  destruct (sweep_file_frame CONF now n acc) as [_ Hn].
  destruct (Hn file_name) as [H | [H _]]; [exact H |].
  exfalso. apply Hout. left. congruence.
Qed.

(** The fate of one regular file over a whole sweep that visits it. *)
Lemma sweep_fold_fate (CONF : Conf) (now : Q) (file_name : string) (f : file)
    (names : list string) :
  Path.endswith file_name ".tmp" = false ->
  forall acc : Z * Z * World,
    fault acc.2 SysStat file_name = None ->
    fault acc.2 SysUnlink file_name = None ->
    files acc.2 !! file_name = Some (File f) ->
    In file_name names ->
    files (foldl (fun a n => sweep_file CONF now n a) acc names).2 !! file_name
    = if expired CONF now file_name f then None else Some (File f).
Proof.
  intros Htmp. induction names as [|n names IH]; intros acc Hs Hu Hf Hin; [destruct Hin |].
  simpl. destruct acc as [[s u] w]. simpl in Hs, Hu, Hf.
  destruct (decide (n = file_name)) as [-> | Hn].
  - destruct (expired CONF now file_name f) eqn:Eexp.
    + destruct (sweep_file_deletes CONF now file_name s u w f Htmp Hs Hf Eexp Hu)
        as (w' & -> & Hfs & _).
      destruct (sweep_fold_frame CONF now names
                  ((s + Z.of_nat (length (f_data f)))%Z, u, w')) as [_ H].
      destruct (H file_name) as [H1 | H1]; [| exact H1].
      rewrite H1. simpl. rewrite Hfs. apply lookup_delete_eq.
    + rewrite (sweep_file_retains CONF now file_name s u w f Htmp Hs Hf Eexp).
      destruct (in_dec string_dec file_name names) as [Hin' | Hout].
      * apply (IH (s, (u + Z.of_nat (length (f_data f)))%Z, w) Hs Hu Hf Hin').
      * rewrite (sweep_fold_unvisited CONF now file_name names Hout). exact Hf.
  - destruct Hin as [Hin | Hin]; [contradiction |].
    destruct (sweep_file_frame CONF now n (s, u, w)) as [Hfl Hfs].
    apply IH; [rewrite Hfl; exact Hs | rewrite Hfl; exact Hu | | exact Hin].
    destruct (Hfs file_name) as [H | [H _]]; [rewrite H; exact Hf | congruence].
Qed.

(** Truncation: a whole number of seconds [D >= 0] is strictly below
    [int(x)] exactly when [x] has reached [D + 1]. *)
Lemma py_int_gt (D : Z) (x : Q) :
  (0 <= D)%Z -> (D <? py_int x)%Z = true <-> (inject_Z (D + 1) <= x)%Q.
Proof.
  intros HD. rewrite Z.ltb_lt. unfold py_int, Qle, inject_Z. simpl.
  destruct x as [n d]. simpl. rewrite Z.mul_1_r.
  destruct (Z_lt_le_dec n 0) as [Hn | Hn].
  - split; intros H.
    + assert (Z.quot n (Z.pos d) <= 0)%Z by (apply Z.quot_le_upper_bound; lia). lia.
    + nia.
  - rewrite Z.quot_div_nonneg by lia. split; intros H.
    + assert (H1 : (D + 1 <= n / Z.pos d)%Z) by lia.
      apply (Z.mul_le_mono_nonneg_r _ _ (Z.pos d)) in H1; [| lia].
      pose proof (Z.mul_div_le n (Z.pos d) ltac:(lia)). lia.
    + assert (H1 : (D + 1 <= n / Z.pos d)%Z) by (apply Z.div_le_lower_bound; lia). lia.
Qed.




(** ** Who starts a download *)

Lemma wait_loop_spawned (env : list env_step) (time0 : Q) (wait_timeout : option Q)
    (dest_tmp : string) (w : World) :
  spawned (wait_loop env time0 wait_timeout dest_tmp w).2 = spawned w
  /\ requests (wait_loop env time0 wait_timeout dest_tmp w).2 = requests w.
Proof.
  revert w. induction env as [|e env IH]; intros w; simpl.
  - destruct (OS.isfile w dest_tmp); auto.
  - destruct (OS.isfile w dest_tmp); [| auto].
    destruct (truthy wait_timeout && _); [auto |].
    destruct (IH (resume e (defer_later 1 w))) as [H1 H2]. rewrite H1, H2. auto.
Qed.

(** A call that finds the placeholder, the failure marker or the final
    file starts no download thread and makes no request, however long it
    waits and however it ends: only a call that finds none of the three
    hands a download to a thread. *)
Lemma placeholder_blocks_download (CONF : Conf) (env : list env_step) (url dest : string)
    (wait_timeout : option Q) (w : World) :
  OS.isfile w (dest +:+ ".404") = true \/ OS.isfile w dest = true
  \/ OS.isfile w (dest +:+ ".tmp") = true ->
  spawned (robust_get CONF env url dest wait_timeout w).2 = spawned w
  /\ requests (robust_get CONF env url dest wait_timeout w).2 = requests w.
Proof.
  intros H. unfold robust_get.
  destruct (OS.isfile w (dest +:+ ".404")); [auto |].
  destruct (OS.isfile w dest); [auto |].
  destruct H as [H | [H | H]]; try discriminate.
  rewrite H.
  apply (wait_loop_spawned env (clock w) wait_timeout (dest +:+ ".tmp")
           (log_msg (LogWaiting url dest) w)).
Qed.

(** The call that finds none of the three creates the placeholder and
    hands exactly one download to a thread; with a deadline it returns at
    once, and from then on [placeholder_blocks_download] applies to every
    call that sees that placeholder. *)
Lemma start_download_spawns_once (CONF : Conf) (env : list env_step)
    (url dest dest_tmp : string)
    (wait_timeout : option Q) (w : World) :
  fault w SysOpen dest_tmp = None ->
  files w !! dest_tmp <> Some Dir ->
  truthy wait_timeout = true ->
  exists w',
    start_download CONF env url dest dest_tmp wait_timeout w = (Returns MUST_WAIT, w')
    /\ spawned w' = (spawned w ++ [(url, dest, dest_tmp)])%list
    /\ requests w' = requests w
    /\ files w' !! dest_tmp = Some (File (mkFile [] (clock w) (clock w))).
Proof.
  intros Hopen Hdir Hwt. unfold start_download, OS.open_wb. rewrite Hopen.
  destruct (files w !! dest_tmp) as [[g|]|] eqn:E; try congruence;
    rewrite Hwt; eexists; (split; [reflexivity |]); simpl;
    (split; [reflexivity |]); (split; [reflexivity |]); apply lookup_insert_eq.
Qed.

(** * Further properties of the code *)

(** ** The download loop against any backend *)

Lemma backoff_spawned (i : nat) (url dest : string) (w : World) :
  spawned (backoff i url dest w) = spawned w.
Proof. unfold backoff. destruct (0 <? i)%nat; reflexivity. Qed.

(** One pass on a filesystem that refuses nothing, the placeholder being a
    regular file and neither the final path nor the marker path a
    directory: it makes one request, it touches nothing but the three
    paths of the resource, and it raises only the [ValueError] of a
    [Content-Length] that [int] rejects, the files being then as they
    were. *)
Lemma attempt_healthy (CONF : Conf) (i : nat) (url dest : string) (size_final : Z)
    (w : World) (f : file) :
  let dest_tmp := dest +:+ ".tmp" in
  let marker := dest +:+ ".404" in
  healthy_os w ->
  files w !! dest_tmp = Some (File f) ->
  files w !! dest <> Some Dir ->
  files w !! marker <> Some Dir ->
  exists fl sf' w1,
    attempt CONF i url dest dest_tmp size_final w = (fl, sf', w1)
    /\ fault w1 = fault w /\ backend w1 = backend w
    /\ length (requests w1) = S (length (requests w))
    /\ spawned w1 = spawned w
    /\ (forall q, q <> dest_tmp -> q <> dest -> q <> marker -> files w1 !! q = files w !! q)
    /\ match fl with
       | Continue =>
           Z.of_nat i <> (HTTP_CONN_RETRIES CONF - 1)%Z
           /\ files w1 !! dest = files w !! dest
           /\ files w1 !! marker = files w !! marker
           /\ exists f' extra,
               files w1 !! dest_tmp = Some (File f')
               /\ f_data f' = (f_data f ++ extra)%list
       | Return true =>
           files w1 !! dest_tmp = None
           /\ files w1 !! marker = files w !! marker
           /\ exists g extra,
               files w1 !! dest = Some (File g) /\ f_data g = (f_data f ++ extra)%list
       | Return false =>
           files w1 !! dest_tmp = None
           /\ files w1 !! dest = files w !! dest
           /\ exists t, files w1 !! marker = Some (File (mkFile [] t t))
       | Throw x =>
           x = ValueError
           /\ (exists rq, backend w (length (requests w)) rq = BadLength)
           /\ files w1 = files w
       end.
Proof.
  intros dest_tmp marker Hos Hfile Hdest Hmark.
  assert (Htd : dest_tmp <> dest) by apply tmp_neq_dest.
  assert (Htm : dest_tmp <> marker) by apply tmp_neq_404.
  assert (Hmd : marker <> dest) by apply m404_neq_dest.
  (* what the except block does with a failed pass *)
  assert (Hexc : forall st sf' w1 f' extra,
    download_try CONF i url dest dest_tmp size_final (backoff i url dest w)
    = (Raise (RequestException st), sf', w1) ->
    files w1 = <[dest_tmp := File f']> (files w) ->
    f_data f' = (f_data f ++ extra)%list ->
    fault w1 = fault w -> backend w1 = backend w ->
    length (requests w1) = S (length (requests w)) ->
    spawned w1 = spawned w ->
    exists fl sf'' w2,
      attempt CONF i url dest dest_tmp size_final w = (fl, sf'', w2)
      /\ fault w2 = fault w /\ backend w2 = backend w
      /\ length (requests w2) = S (length (requests w))
      /\ spawned w2 = spawned w
      /\ (forall q, q <> dest_tmp -> q <> dest -> q <> marker -> files w2 !! q = files w !! q)
      /\ match fl with
         | Continue =>
             Z.of_nat i <> (HTTP_CONN_RETRIES CONF - 1)%Z
             /\ files w2 !! dest = files w !! dest
             /\ files w2 !! marker = files w !! marker
             /\ exists f'' extra',
                 files w2 !! dest_tmp = Some (File f'')
                 /\ f_data f'' = (f_data f ++ extra')%list
         | Return true =>
             files w2 !! dest_tmp = None
             /\ files w2 !! marker = files w !! marker
             /\ exists g extra',
                 files w2 !! dest = Some (File g) /\ f_data g = (f_data f ++ extra')%list
         | Return false =>
             files w2 !! dest_tmp = None
             /\ files w2 !! dest = files w !! dest
             /\ exists t, files w2 !! marker = Some (File (mkFile [] t t))
         | Throw x =>
             x = ValueError
             /\ (exists rq, backend w (length (requests w)) rq = BadLength)
             /\ files w2 = files w
         end).
  { intros st sf' w1 f' extra Htry Hfs Hd Hfl Hbk Hrq Hsp.
    destruct (decide (default (-1)%Z st = 404%Z
                      \/ Z.of_nat i = (HTTP_CONN_RETRIES CONF - 1)%Z)) as [Hperm | Hgo].
    - pose proof (download_except_gives_up CONF i url dest dest_tmp st w1 Hperm) as Hex.
      cbv zeta in Hex. fold marker in Hex.
      assert (Hm1 : files w1 !! marker = files w !! marker)
        by (rewrite Hfs; apply lookup_insert_ne; congruence).
      rewrite Hfl, Hm1, (Hos SysOpen marker) in Hex. specialize (Hex eq_refl Hmark).
      set (marked := set_files _ _) in Hex.
      assert (Hmt : files marked !! dest_tmp = Some (File f')).
      { unfold marked; simpl. rewrite lookup_insert_ne by congruence.
        rewrite Hfs. apply lookup_insert_eq. }
      rewrite (unlink_file dest_tmp marked f') in Hex
        by (try exact Hmt; simpl; rewrite Hfl; apply Hos).
      eexists (Return false), sf', _. split.
      { unfold attempt. rewrite Htry, Hex. reflexivity. }
      simpl. split; [exact Hfl |]. split; [exact Hbk |]. split; [exact Hrq |].
      split; [exact Hsp |].
      split; [| split; [apply lookup_delete_eq | split]].
      + intros q H1 H2 H3.
        rewrite lookup_delete_ne, lookup_insert_ne, Hfs, lookup_insert_ne by congruence.
        reflexivity.
      + rewrite lookup_delete_ne, lookup_insert_ne, Hfs, lookup_insert_ne by congruence.
        reflexivity.
      + exists (clock w1). rewrite lookup_delete_ne by congruence. apply lookup_insert_eq.
    - assert (H1 : default (-1)%Z st <> 404%Z) by tauto.
      assert (H2 : Z.of_nat i <> (HTTP_CONN_RETRIES CONF - 1)%Z) by tauto.
      eexists Continue, sf', w1. split.
      { unfold attempt. rewrite Htry.
        rewrite (download_except_retries CONF i url dest dest_tmp st w1 H1 H2). reflexivity. }
      split; [exact Hfl |]. split; [exact Hbk |]. split; [exact Hrq |].
      split; [exact Hsp |].
      split; [| split; [exact H2 | split; [| split]]].
      + intros q Hq _ _. rewrite Hfs. apply lookup_insert_ne. congruence.
      + rewrite Hfs. apply lookup_insert_ne. congruence.
      + rewrite Hfs. apply lookup_insert_ne. congruence.
      + exists f', extra. split; [rewrite Hfs; apply lookup_insert_eq | exact Hd]. }
  pose proof (download_try_file CONF i url dest dest_tmp size_final (backoff i url dest w) f)
    as H.
  rewrite backoff_fault, backoff_files, backoff_backend, backoff_requests in H.
  specialize (H (Hos _ _) Hfile). cbv zeta in H. rewrite (Hos SysOpen dest_tmp) in H.
  assert (Hid : files w = <[dest_tmp := File f]> (files w))
    by (symmetry; apply insert_id, Hfile).
  destruct (backend w _ _) as [|r|] eqn:Erep.
  3: { eexists (Throw ValueError), size_final, _. split.
       { unfold attempt. rewrite H. reflexivity. }
       simpl. rewrite backoff_fault, backoff_backend, length_app, backoff_requests,
         backoff_spawned, backoff_files.
       split; [reflexivity |]. split; [reflexivity |]. split; [simpl; lia |].
       split; [reflexivity |]. split; [reflexivity |].
       split; [reflexivity |]. split; [eauto | reflexivity]. }
  - apply (Hexc _ _ _ f [] H).
    + simpl. rewrite backoff_files. exact Hid.
    + rewrite app_nil_r. reflexivity.
    + simpl. apply backoff_fault.
    + simpl. apply backoff_backend.
    + simpl. rewrite length_app, backoff_requests. simpl. lia.
    + simpl. apply backoff_spawned.
  - destruct (is_http_error (status_code r)).
    + apply (Hexc _ _ _ f [] H).
      * simpl. rewrite backoff_files. exact Hid.
      * rewrite app_nil_r. reflexivity.
      * simpl. apply backoff_fault.
      * simpl. apply backoff_backend.
      * simpl. rewrite length_app, backoff_requests. simpl. lia.
      * simpl. apply backoff_spawned.
    + destruct H as (f' & Hd & _ & H).
      set (wc := set_files _ _) in H.
      destruct (body_complete r).
      * rewrite (rename_file_ok dest_tmp dest wc f') in H.
        -- eexists (Return true), _, _. split.
           { unfold attempt. rewrite H. reflexivity. }
           simpl. rewrite backoff_fault, backoff_backend, length_app, backoff_requests,
             backoff_spawned.
           split; [reflexivity |]. split; [reflexivity |]. split; [simpl; lia |].
           split; [reflexivity |].
           split; [| split; [| split]].
           ++ intros q H1 H2 H3.
              rewrite lookup_insert_ne, lookup_delete_ne, lookup_insert_ne by congruence.
              reflexivity.
           ++ rewrite lookup_insert_ne by congruence. apply lookup_delete_eq.
           ++ rewrite lookup_insert_ne, lookup_delete_ne, lookup_insert_ne by congruence.
              reflexivity.
           ++ exists f', (concat (chunks r)). split; [apply lookup_insert_eq | exact Hd].
        -- apply lookup_insert_eq.
        -- unfold wc. simpl. rewrite backoff_fault. apply Hos.
        -- unfold wc. simpl. rewrite lookup_insert_ne by congruence. exact Hdest.
      * apply (Hexc _ _ _ f' (concat (chunks r)) H).
        -- reflexivity.
        -- exact Hd.
        -- simpl. apply backoff_fault.
        -- simpl. apply backoff_backend.
        -- simpl. rewrite length_app, backoff_requests. simpl. lia.
        -- simpl. apply backoff_spawned.
Qed.

(** The loop from pass [i] on, with [n + 1] passes left. *)
Lemma retry_loop_terminal (CONF : Conf) (url dest : string) (n : nat) :
  forall (i : nat) (size_final : Z) (w : World) (f : file),
    Z.of_nat (i + n) = (HTTP_CONN_RETRIES CONF - 1)%Z ->
    healthy_os w ->
    files w !! (dest +:+ ".tmp") = Some (File f) ->
    files w !! dest <> Some Dir ->
    files w !! (dest +:+ ".404") <> Some Dir ->
    exists res w',
      retry_loop CONF (seq i (S n)) url dest (dest +:+ ".tmp") size_final w = (res, w')
      /\ fault w' = fault w
      /\ spawned w' = spawned w
      /\ (S (length (requests w)) <= length (requests w') <= length (requests w) + S n)%nat
      /\ (forall q, q <> dest +:+ ".tmp" -> q <> dest -> q <> dest +:+ ".404" ->
                    files w' !! q = files w !! q)
      /\ match res with
         | Ok true =>
             files w' !! (dest +:+ ".tmp") = None
             /\ files w' !! (dest +:+ ".404") = files w !! (dest +:+ ".404")
             /\ exists g extra,
                 files w' !! dest = Some (File g) /\ f_data g = (f_data f ++ extra)%list
         | Ok false =>
             files w' !! (dest +:+ ".tmp") = None
             /\ files w' !! dest = files w !! dest
             /\ exists t, files w' !! (dest +:+ ".404") = Some (File (mkFile [] t t))
         | Raise x =>
             x = ValueError
             /\ (exists k rq, backend w k rq = BadLength)
             /\ files w' !! dest = files w !! dest
             /\ files w' !! (dest +:+ ".404") = files w !! (dest +:+ ".404")
             /\ exists f' extra,
                 files w' !! (dest +:+ ".tmp") = Some (File f')
                 /\ f_data f' = (f_data f ++ extra)%list
         end.
Proof.
  induction n as [|n IH]; intros i size_final w f Hi Hos Hfile Hdest Hmark;
    destruct (attempt_healthy CONF i url dest size_final w f Hos Hfile Hdest Hmark)
      as (fl & sf' & w1 & Hatt & Hfl & Hbk & Hrq & Hsp & Hoth & Hcase).
  - destruct fl as [[|]| |x].
    + exists (Ok true), w1. split; [simpl; rewrite Hatt; reflexivity |].
      rewrite Hrq. repeat split; auto; try lia; apply Hcase.
    + exists (Ok false), w1. split; [simpl; rewrite Hatt; reflexivity |].
      rewrite Hrq. repeat split; auto; try lia; apply Hcase.
    + destruct Hcase as [Hlast _]. lia.
    + exists (Raise x), w1. split; [simpl; rewrite Hatt; reflexivity |].
      destruct Hcase as (-> & (rq & Hbad) & Hsame).
      rewrite Hrq, Hsame. repeat split; auto; try lia; [eauto |].
      exists f, []. rewrite app_nil_r. auto.
  - change (seq i (S (S n))) with (i :: seq (S i) (S n)). cbn [retry_loop]. rewrite Hatt.
    destruct fl as [[|]| |x].
    + exists (Ok true), w1. split; [reflexivity |].
      rewrite Hrq. repeat split; auto; try lia; apply Hcase.
    + exists (Ok false), w1. split; [reflexivity |].
      rewrite Hrq. repeat split; auto; try lia; apply Hcase.
    + destruct Hcase as (_ & Hd1 & Hm1 & f' & extra & Hf' & Hdata).
      destruct (IH (S i) sf' w1 f')
        as (res & w' & Hloop & Hfl' & Hsp' & Hrq' & Hoth' & Hres).
      * lia.
      * intros sc p. rewrite Hfl. apply Hos.
      * exact Hf'.
      * rewrite Hd1. exact Hdest.
      * rewrite Hm1. exact Hmark.
      * exists res, w'. split; [exact Hloop |]. split; [congruence |].
        split; [congruence |].
        split; [lia |]. split.
        -- intros q H1 H2 H3. rewrite Hoth', Hoth by assumption. reflexivity.
        -- destruct res as [[|]|y].
           ++ destruct Hres as (Ht' & Hm' & g & extra' & Hg & Hgd).
              split; [exact Ht' |]. split; [congruence |]. exists g, (extra ++ extra')%list.
              split; [exact Hg |]. rewrite Hgd, Hdata, <- app_assoc. reflexivity.
           ++ destruct Hres as (Ht' & Hd' & Hm'). split; [exact Ht' |].
              split; [congruence | exact Hm'].
           ++ destruct Hres as (-> & (k & rq & Hbad) & Hd' & Hm' & f'' & extra' & Hf'' & Hd'').
              split; [reflexivity |]. split; [exists k, rq; rewrite <- Hbk; exact Hbad |].
              split; [congruence |]. split; [congruence |].
              exists f'', (extra ++ extra')%list.
              split; [exact Hf'' |]. rewrite Hd'', Hdata, <- app_assoc. reflexivity.
    + exists (Raise x), w1. split; [reflexivity |].
      destruct Hcase as (-> & (rq & Hbad) & Hsame).
      rewrite Hrq, Hsame. repeat split; auto; try lia; [eauto |].
      exists f, []. rewrite app_nil_r. auto.
Qed.

(** X1. With at least one attempt allowed, on a filesystem that refuses
    nothing, a placeholder that is a regular file and neither the final
    path nor the marker path taken by a directory, [robust_get_sync]
    always ends, in one of three ways. It returns [True]: the final file
    exists, beginning with the bytes the placeholder held, the marker path
    is as it was and the placeholder is gone. It returns [False]: the
    (empty) failure marker exists, the final path is as it was and the
    placeholder is gone. Or it raises [ValueError], which happens only if
    the backend answered some request with a [Content-Length] that [int]
    rejects: then the final path and the marker path are as they were and
    the placeholder is still there, holding what it held plus what was
    streamed. In every case no other path has changed and between one and
    [HTTP_CONN_RETRIES] requests were made. *)
Theorem X1_download_ends_in_one_terminal_state (CONF : Conf) (url dest : string) (w : World)
    (f : file) :
  (1 <= HTTP_CONN_RETRIES CONF)%Z ->
  healthy_os w ->
  files w !! (dest +:+ ".tmp") = Some (File f) ->
  files w !! dest <> Some Dir ->
  files w !! (dest +:+ ".404") <> Some Dir ->
  exists res w',
    robust_get_sync CONF url dest (dest +:+ ".tmp") w = (res, w')
    /\ (1 <= length (requests w') - length (requests w)
        <= Z.to_nat (HTTP_CONN_RETRIES CONF))%nat
    /\ (forall q, q <> dest +:+ ".tmp" -> q <> dest -> q <> dest +:+ ".404" ->
                  files w' !! q = files w !! q)
    /\ match res with
       | Ok true =>
           files w' !! (dest +:+ ".tmp") = None
           /\ files w' !! (dest +:+ ".404") = files w !! (dest +:+ ".404")
           /\ exists g extra,
               files w' !! dest = Some (File g) /\ f_data g = (f_data f ++ extra)%list
       | Ok false =>
           files w' !! (dest +:+ ".tmp") = None
           /\ files w' !! dest = files w !! dest
           /\ exists t, files w' !! (dest +:+ ".404") = Some (File (mkFile [] t t))
       | Raise x =>
           x = ValueError
           /\ (exists k rq, backend w k rq = BadLength)
           /\ files w' !! dest = files w !! dest
           /\ files w' !! (dest +:+ ".404") = files w !! (dest +:+ ".404")
           /\ exists f' extra,
               files w' !! (dest +:+ ".tmp") = Some (File f')
               /\ f_data f' = (f_data f ++ extra)%list
       end.
Proof.
  intros Hn Hos Hfile Hdest Hmark. unfold robust_get_sync.
  destruct (Z.to_nat (HTTP_CONN_RETRIES CONF)) as [|n] eqn:En; [lia |].
  destruct (retry_loop_terminal CONF url dest n 0 (-1) w f)
    as (res & w' & Hloop & _ & _ & Hrq & Hoth & Hres); auto; [lia |].
  exists res, w'. split; [exact Hloop |]. split; [lia |]. auto.
Qed.

(** The X1 theorem against the flaky backend, which sends no malformed
    length: the download returns and the placeholder is gone. *)
Lemma X1_download_ends_in_one_terminal_state_witness :
  exists b w',
    robust_get_sync Examples.conf3 Examples.url Examples.dest (Examples.dest +:+ ".tmp")
      (Examples.world Examples.in_progress Examples.no_fault Examples.flaky) = (Ok b, w')
    /\ files w' !! (Examples.dest +:+ ".tmp") = None.
Proof.
  destruct (X1_download_ends_in_one_terminal_state Examples.conf3 Examples.url Examples.dest
              (Examples.world Examples.in_progress Examples.no_fault Examples.flaky)
              Examples.empty_file) as (res & w' & E & _ & _ & Hres).
  - vm_compute. discriminate.
  - intros s p. reflexivity.
  - vm_compute. reflexivity.
  - vm_compute. discriminate.
  - vm_compute. discriminate.
  - destruct res as [[|]|x].
    + exists true, w'. split; [exact E | apply Hres].
    + exists false, w'. split; [exact E | apply Hres].
    + exfalso. destruct Hres as (_ & (k & rq & Hbad) & _).
      change (Examples.flaky k rq = BadLength) in Hbad.
      destruct k as [|[|k]]; discriminate Hbad.
Defined.

(** ** What a sweep may remove *)

(** One step of the sweep changes a path only by deleting it, and only
    if it is the visited name, a regular file, not a placeholder, and
    expired. *)
Lemma sweep_file_removes (CONF : Conf) (now : Q) (n : string) (acc : Z * Z * World)
    (q : string) :
  files (sweep_file CONF now n acc).2 !! q = files acc.2 !! q
  \/ (q = n /\ files (sweep_file CONF now n acc).2 !! q = None
      /\ Path.endswith n ".tmp" = false
      /\ exists f, files acc.2 !! q = Some (File f) /\ expired CONF now n f = true).
Proof.
  destruct acc as [[s u] w].
  destruct (Path.endswith n ".tmp") eqn:Etmp.
  { rewrite sweep_file_skips by auto. auto. }
  destruct (fault w SysStat n) as [e|] eqn:Est.
  { rewrite (sweep_file_stat_error CONF now n s u w e); [auto |].
    unfold OS.stat. rewrite Est. reflexivity. }
  destruct (files w !! n) as [[f|]|] eqn:En.
  - rewrite (sweep_file_regular CONF now n s u w f Etmp Est En).
    destruct (expired CONF now n f) eqn:Eexp; [| auto].
    match goal with
    | |- context [OS.unlink n ?w0] => destruct (unlink_cases n w0) as [(e & ->) | ->]
    end; [auto |].
    simpl. destruct (decide (q = n)) as [-> | Hq].
    + right. split; [reflexivity |]. split; [apply lookup_delete_eq |].
      split; [reflexivity |]. eauto.
    + left. apply lookup_delete_ne. congruence.
  - rewrite sweep_file_skips; [auto |]. left.
    unfold OS.isdir, OS.stat. rewrite Est, En. reflexivity.
  - rewrite (sweep_file_stat_error CONF now n s u w ENOENT); [auto |].
    unfold OS.stat. rewrite Est, En. reflexivity.
Qed.

Lemma sweep_file_quiet (CONF : Conf) (now : Q) (n : string) (acc : Z * Z * World) :
  requests (sweep_file CONF now n acc).2 = requests acc.2
  /\ spawned (sweep_file CONF now n acc).2 = spawned acc.2
  /\ clock (sweep_file CONF now n acc).2 = clock acc.2.
Proof.
  destruct acc as [[s u] w]. unfold sweep_file.
  destruct (OS.isdir w n || Path.endswith n ".tmp"); [auto |].
  destruct (OS.stat w n) as [sta|e]; [| auto].
  set (ev := if String.eqb (Path.basename n) "index.json" || Path.endswith n ".404"
             then _ else _).
  assert (Hev : requests ev.2 = requests w /\ spawned ev.2 = spawned w
                /\ clock ev.2 = clock w).
  { unfold ev.
    destruct (String.eqb (Path.basename n) "index.json" || Path.endswith n ".404");
      [destruct (CACHE_INDEX_DURATION CONF <? _)%Z | destruct (CACHE_FILE_DURATION CONF <? _)%Z];
      simpl; auto. }
  destruct ev as [remove w0]. simpl in Hev. destruct Hev as (H1 & H2 & H3).
  destruct remove; [| simpl; auto].
  destruct (unlink_cases n w0) as [(e & ->) | ->]; simpl; auto.
Qed.

Lemma sweep_fold_removes (CONF : Conf) (now : Q) (names : list string) (q : string) :
  forall acc : Z * Z * World,
    files (foldl (fun a n => sweep_file CONF now n a) acc names).2 !! q = files acc.2 !! q
    \/ (files (foldl (fun a n => sweep_file CONF now n a) acc names).2 !! q = None
        /\ In q names /\ Path.endswith q ".tmp" = false
        /\ exists f, files acc.2 !! q = Some (File f) /\ expired CONF now q f = true).
Proof.
  induction names as [|n names IH]; intros acc; [left; reflexivity |].
  simpl. destruct (IH (sweep_file CONF now n acc)) as [H | (H & Hin & Htmp & f & Hf & Hexp)].
  - rewrite H.
    destruct (sweep_file_removes CONF now n acc q) as [H1 | (-> & H1 & Htmp & f & Hf & Hexp)].
    + left. exact H1.
    + right. split; [exact H1 |]. split; [left; reflexivity |]. split; [exact Htmp |]. eauto.
  - destruct (sweep_file_removes CONF now n acc q) as [H1 | (-> & H1 & _)].
    + right. split; [exact H |]. split; [right; exact Hin |]. split; [exact Htmp |].
      exists f. rewrite <- H1. auto.
    + congruence.
Qed.

(** X3. A sweep only ever deletes, and only what the policy condemns:
    after [clean_cache] every path is either exactly as it was or gone, and
    a path that is gone was a regular file the sweep visited, not a
    placeholder ([.tmp]), and expired by the rule that applies to it. In
    particular placeholders, directories, paths the glob did not yield and
    files that have not expired all survive. The sweep makes no request and
    starts no download. *)
Theorem X3_sweep_removes_only_expired (CONF : Conf) (names : list string) (w : World)
    (q : string) :
  let w' := (clean_cache CONF names w).2 in
  (files w' !! q = files w !! q
   \/ (files w' !! q = None
       /\ In q names /\ Path.endswith q ".tmp" = false
       /\ exists f, files w !! q = Some (File f) /\ expired CONF (clock w) q f = true))
  /\ (Path.endswith q ".tmp" = true -> files w' !! q = files w !! q)
  /\ (files w !! q = Some Dir -> files w' !! q = Some Dir)
  /\ (~ In q names -> files w' !! q = files w !! q)
  /\ (forall f, files w !! q = Some (File f) -> expired CONF (clock w) q f = false ->
                files w' !! q = Some (File f))
  /\ requests w' = requests w /\ spawned w' = spawned w.
Proof.
  intros w'.
  assert (Hfs : files w' = files (foldl (fun a n => sweep_file CONF (clock w) n a)
                                        (0%Z, 0%Z, w) names).2).
  { unfold w', clean_cache. destruct (foldl _ _ names) as [[s u] w1]. reflexivity. }
  assert (Hmain : files w' !! q = files w !! q
     \/ (files w' !! q = None
         /\ In q names /\ Path.endswith q ".tmp" = false
         /\ exists f, files w !! q = Some (File f) /\ expired CONF (clock w) q f = true)).
  { rewrite Hfs. apply (sweep_fold_removes CONF (clock w) names q (0%Z, 0%Z, w)). }
  split; [exact Hmain |].
  split; [| split; [| split; [| split]]].
  - intros Htmp. destruct Hmain as [H | (_ & _ & H & _)]; [exact H | congruence].
  - intros Hd. destruct Hmain as [H | (_ & _ & _ & f & H & _)]; congruence.
  - intros Hout. destruct Hmain as [H | (_ & H & _)]; [exact H | contradiction].
  - intros f Hf Hexp. destruct Hmain as [H | (_ & _ & _ & g & Hg & Hexp')]; [congruence |].
    assert (g = f) by congruence. subst g. congruence.
  - assert (Hq : forall (l : list string) (a : Z * Z * World),
               requests (foldl (fun a n => sweep_file CONF (clock w) n a) a l).2 = requests a.2
               /\ spawned (foldl (fun a n => sweep_file CONF (clock w) n a) a l).2
                  = spawned a.2).
    { induction l as [|n l IHl]; intros a; [auto |]. simpl.
      destruct (IHl (sweep_file CONF (clock w) n a)) as [H1 H2].
      destruct (sweep_file_quiet CONF (clock w) n a) as (H3 & H4 & _).
      split; congruence. }
    unfold w', clean_cache. specialize (Hq names (0%Z, 0%Z, w)).
    destruct (foldl _ _ names) as [[s u] w1]. simpl in *. exact Hq.
Qed.

(** The X3 theorem on the example cache: the placeholder and the archive
    read a second ago are still there after the sweep. *)
Lemma X3_sweep_removes_only_expired_witness :
  let w := Examples.world Examples.cache Examples.no_fault Examples.down in
  files (clean_cache Examples.conf3 Examples.cache_names w).2 !! "/cache/TARS/e.tar.tmp"
  = Some (File Examples.empty_file)
  /\ files (clean_cache Examples.conf3 Examples.cache_names w).2 !! "/cache/TARS/c.tar"
     = Some (File (mkFile [x01; x02] 999 0)).
Proof.
  intros w. split.
  - destruct (X3_sweep_removes_only_expired Examples.conf3 Examples.cache_names w
                "/cache/TARS/e.tar.tmp") as (_ & H & _).
    rewrite H; [| vm_compute; reflexivity]. vm_compute. reflexivity.
  - destruct (X3_sweep_removes_only_expired Examples.conf3 Examples.cache_names w
                "/cache/TARS/c.tar") as (_ & _ & _ & _ & H & _).
    apply H; vm_compute; reflexivity.
Defined.

(** ** The report of a sweep *)

Lemma Zsum_ext (g h : string -> Z) (l : list string) :
  (forall x, In x l -> g x = h x) -> Zsum (map g l) = Zsum (map h l).
Proof.
  induction l as [|x l IH]; intros H; [reflexivity |].
  simpl. rewrite (H x) by (left; reflexivity).
  rewrite IH by (intros y Hy; apply H; right; exact Hy). reflexivity.
Qed.

(** One step without refusals: what it adds to the two totals is what
    the visited path held before and holds after. *)
Lemma sweep_file_accounts (CONF : Conf) (now : Q) (n : string) (s u : Z) (w : World) :
  fault w SysStat n = None ->
  fault w SysUnlink n = None ->
  exists s1 u1 w1,
    sweep_file CONF now n (s, u, w) = (s1, u1, w1)
    /\ (u1 - u = cached_bytes w1 n)%Z
    /\ ((s1 - s) + (u1 - u) = cached_bytes w n)%Z.
Proof.
  intros Hst Hun. unfold cached_bytes.
  destruct (Path.endswith n ".tmp") eqn:Etmp.
  { rewrite sweep_file_skips by auto. exists s, u, w. split; [reflexivity |].
    destruct (files w !! n) as [[f|]|]; lia. }
  destruct (files w !! n) as [[f|]|] eqn:En.
  - destruct (expired CONF now n f) eqn:Eexp.
    + destruct (sweep_file_deletes CONF now n s u w f Etmp Hst En Eexp Hun)
        as (w1 & -> & Hfs & _).
      eexists _, _, _. split; [reflexivity |].
      rewrite Hfs, lookup_delete_eq. lia.
    + rewrite (sweep_file_retains CONF now n s u w f Etmp Hst En Eexp).
      eexists _, _, _. split; [reflexivity |]. rewrite En. lia.
  - rewrite sweep_file_skips.
    + exists s, u, w. split; [reflexivity |]. rewrite En. lia.
    + left. unfold OS.isdir, OS.stat. rewrite Hst, En. reflexivity.
  - rewrite (sweep_file_stat_error CONF now n s u w ENOENT).
    + exists s, u, w. split; [reflexivity |]. rewrite En. lia.
    + unfold OS.stat. rewrite Hst, En. reflexivity.
Qed.

Lemma cached_bytes_same (w w' : World) (m : string) :
  files w' !! m = files w !! m -> cached_bytes w' m = cached_bytes w m.
Proof. intros H. unfold cached_bytes. rewrite H. reflexivity. Qed.

Lemma sweep_fold_accounts (CONF : Conf) (now : Q) (names : list string) :
  NoDup names ->
  forall (s u : Z) (w : World),
    healthy_os w ->
    exists s' u' w',
      foldl (fun a n => sweep_file CONF now n a) (s, u, w) names = (s', u', w')
      /\ (u' - u = Zsum (map (cached_bytes w') names))%Z
      /\ ((s' - s) + (u' - u) = Zsum (map (cached_bytes w) names))%Z.
Proof.
  induction names as [|n names IH]; intros Hnd s u w Hos.
  - exists s, u, w. simpl. repeat split; lia.
  - apply NoDup_cons in Hnd. destruct Hnd as [Hn Hnd].
    rewrite list_elem_of_In in Hn.
    destruct (sweep_file_accounts CONF now n s u w (Hos _ _) (Hos _ _))
      as (s1 & u1 & w1 & Hstep & Hu1 & Hs1).
    destruct (sweep_file_frame CONF now n (s, u, w)) as [Hfl Hfs].
    rewrite Hstep in Hfl, Hfs. simpl in Hfl, Hfs.
    destruct (IH Hnd s1 u1 w1) as (s' & u' & w' & Hfold & Hu' & Hs').
    { intros sc p. rewrite Hfl. apply Hos. }
    exists s', u', w'. split; [cbn [foldl]; rewrite Hstep; exact Hfold |].
    assert (Hlast : cached_bytes w' n = cached_bytes w1 n).
    { apply cached_bytes_same.
      pose proof (sweep_fold_unvisited CONF now n names Hn (s1, u1, w1)) as H.
      rewrite Hfold in H. exact H. }
    assert (Hrest : Zsum (map (cached_bytes w1) names) = Zsum (map (cached_bytes w) names)).
    { apply Zsum_ext. intros m Hm. apply cached_bytes_same.
      destruct (Hfs m) as [H | [-> _]]; [exact H | contradiction]. }
    simpl. rewrite Hlast. split; lia.
Qed.

(** X4. The report of a sweep is exact. When the glob yields no name
    twice and no call is refused, the bytes reported as used are the bytes
    the visited names hold after the sweep (regular files, placeholders
    not counted), and used plus freed is what they held before it: every
    byte counted as freed was really deleted and nothing deleted goes
    uncounted. *)
Theorem X4_sweep_report_exact (CONF : Conf) (names : list string) (w : World) :
  NoDup names ->
  healthy_os w ->
  let used := (clean_cache CONF names w).1.1 in
  let freed := (clean_cache CONF names w).1.2 in
  let w' := (clean_cache CONF names w).2 in
  used = Zsum (map (cached_bytes w') names)
  /\ (used + freed)%Z = Zsum (map (cached_bytes w) names).
Proof.
  intros Hnd Hos. unfold clean_cache.
  destruct (sweep_fold_accounts CONF (clock w) names Hnd 0 0 w Hos)
    as (s' & u' & w' & -> & Hu & Hs).
  simpl. unfold cached_bytes in *. simpl. split; lia.
Qed.

(** The X4 theorem on the example cache: 3 bytes used, 3 bytes freed, 6
    bytes held before. *)
Lemma X4_sweep_report_exact_witness :
  let w := Examples.world Examples.cache Examples.no_fault Examples.down in
  (clean_cache Examples.conf3 Examples.cache_names w).1.1
  = Zsum (map (cached_bytes (clean_cache Examples.conf3 Examples.cache_names w).2)
              Examples.cache_names)
  /\ ((clean_cache Examples.conf3 Examples.cache_names w).1.1
      + (clean_cache Examples.conf3 Examples.cache_names w).1.2)%Z = 6%Z.
Proof.
  intros w.
  destruct (X4_sweep_report_exact Examples.conf3 Examples.cache_names w) as [H1 H2].
  - vm_compute. repeat constructor; intros H; inversion H; subst;
      repeat match goal with
             | H : _ ∈ _ |- _ => inversion H; clear H; subst
             end.
  - intros s p. reflexivity.
  - split; [exact H1 |]. rewrite H2. vm_compute. reflexivity.
Defined.

(** ** Paths: directory names are shorter *)

Lemma rstrip_length (s : string) : (String.length (Path.rstrip s) <= String.length s)%nat.
Proof.
  induction s as [|c s IH]; simpl; [lia |].
  destruct (Path.rstrip s) as [|c' r]; [destruct (Ascii.eqb c "/") |]; simpl in *; lia.
Qed.

Lemma rstrip_all_slashes (s : string) :
  Path.all_slashes s = true -> Path.rstrip s = EmptyString.
Proof.
  induction s as [|c s IH]; simpl; [reflexivity |].
  intros H. apply andb_true_iff in H. destruct H as [Hc Hs].
  rewrite (IH Hs), Hc. reflexivity.
Qed.

(** The head [rsplit] returns ends with a slash: stripping it loses at
    least that character. *)
Lemma rsplit_spec (p h t : string) :
  Path.rsplit p = Some (h, t) ->
  String.length p = (String.length h + String.length t)%nat
  /\ (String.length (Path.rstrip h) < String.length h)%nat.
Proof.
  revert h t. induction p as [|c p IH]; intros h t H; simpl in H; [discriminate |].
  destruct (Path.rsplit p) as [[h' t']|] eqn:E.
  - injection H as <- <-. destruct (IH h' t' eq_refl) as [Hl Hr].
    simpl. split; [lia |].
    destruct (Path.rstrip h') as [|c' r]; [destruct (Ascii.eqb c "/") |]; simpl in *; lia.
  - destruct (Ascii.eqb c "/") eqn:Ec; [| discriminate].
    injection H as <- <-. simpl. rewrite Ec. simpl. split; lia.
Qed.

(** [os.path.dirname] returns the path itself (for a path made of slashes
    only, or empty) or something strictly shorter. *)
Lemma dirname_shorter (p : string) :
  Path.dirname p = p \/ (String.length (Path.dirname p) < String.length p)%nat.
Proof.
  unfold Path.dirname. destruct (Path.rsplit p) as [[h t]|] eqn:E.
  - destruct (rsplit_spec p h t E) as [Hl Hr].
    destruct (Path.all_slashes h) eqn:Ea.
    + rewrite (rstrip_all_slashes h Ea) in Hr.
      destruct t as [|c t]; [| right; simpl in Hl; lia].
      left. clear Hr Ea. revert h E Hl.
      induction p as [|c p IH]; intros h E Hl; simpl in E; [discriminate |].
      destruct (Path.rsplit p) as [[h' t']|] eqn:E'.
      * injection E as <- ->. simpl in Hl. f_equal. apply IH; [reflexivity | simpl; lia].
      * destruct (Ascii.eqb c "/"); [| discriminate].
        injection E as <- <-. reflexivity.
    + right. lia.
  - destruct p as [|c p]; [left; reflexivity | right; simpl; lia].
Qed.

Lemma parents_shorter (fuel : nat) (p d : string) :
  In d (Path.parents fuel p) -> (String.length d < String.length p)%nat.
Proof.
  revert p. induction fuel as [|k IH]; intros p H; simpl in H; [destruct H |].
  destruct (String.eqb (Path.dirname p) EmptyString || String.eqb (Path.dirname p) p) eqn:E;
    [destruct H |].
  apply orb_false_iff in E. destruct E as [_ E]. apply String.eqb_neq in E.
  destruct (dirname_shorter p) as [Heq | Hlt]; [contradiction |].
  destruct H as [<- | H]; [exact Hlt |].
  specialize (IH _ H). lia.
Qed.

(** ** Creating the destination directory *)

Lemma mkdir_missing_fold (ds : list string) :
  forall (fs : gmap string node) (q : string),
    foldl OS.mkdir_missing fs ds !! q = fs !! q
    \/ (fs !! q = None /\ foldl OS.mkdir_missing fs ds !! q = Some Dir /\ In q ds).
Proof.
  induction ds as [|d ds IH]; intros fs q; [left; reflexivity |].
  simpl. destruct (IH (OS.mkdir_missing fs d) q) as [H | (H1 & H2 & H3)].
  - rewrite H. unfold OS.mkdir_missing.
    destruct (fs !! d) eqn:Ed; [left; reflexivity |].
    destruct (decide (d = q)) as [-> | Hne].
    + right. rewrite lookup_insert_eq. auto.
    + left. apply lookup_insert_ne, Hne.
  - right. split; [| split; [exact H2 | right; exact H3]].
    unfold OS.mkdir_missing in H1. destruct (fs !! d) eqn:Ed; [exact H1 |].
    destruct (decide (d = q)) as [-> | Hne]; [rewrite lookup_insert_eq in H1; discriminate |].
    rewrite lookup_insert_ne in H1 by exact Hne. exact H1.
Qed.

(** On a filesystem that refuses nothing, [make_dest_dir] goes through
    whenever no file sits on the directory or on one of its ancestors; it
    only adds directories, none with a longer name than the one asked for. *)
Lemma make_dest_dir_healthy (p : string) (w : World) :
  healthy_os w ->
  p <> EmptyString ->
  (forall d, d = p \/ In d (Path.parents (String.length p) p) ->
             OS.is_file_node (files w !! d) = false) ->
  exists fs1,
    make_dest_dir p w = (Ok tt, set_files fs1 w)
    /\ forall q, fs1 !! q = files w !! q
                 \/ (files w !! q = None /\ fs1 !! q = Some Dir
                     /\ (String.length q <= String.length p)%nat).
Proof.
  intros Hos Hne Hfree. unfold make_dest_dir, OS.makedirs.
  rewrite (Hos SysMkdir p).
  destruct (String.eqb p EmptyString) eqn:Ep; [apply String.eqb_eq in Ep; contradiction |].
  assert (Hanc : existsb (fun d => OS.is_file_node (files w !! d))
                         (Path.parents (String.length p) p) = false).
  { apply not_true_iff_false. intros H. apply existsb_exists in H.
    destruct H as (d & Hd & Hf). rewrite (Hfree d) in Hf by auto. discriminate. }
  rewrite Hanc.
  set (fs := foldl OS.mkdir_missing (files w) (rev (Path.parents (String.length p) p))).
  assert (Hfs : forall q, fs !! q = files w !! q
                          \/ (files w !! q = None /\ fs !! q = Some Dir
                              /\ (String.length q <= String.length p)%nat)).
  { intros q. destruct (mkdir_missing_fold (rev (Path.parents (String.length p) p))
                          (files w) q) as [H | (H1 & H2 & H3)]; [left; exact H |].
    right. split; [exact H1 |]. split; [exact H2 |].
    apply in_rev in H3. apply parents_shorter in H3. lia. }
  destruct (fs !! p) as [n|] eqn:En.
  - assert (Hdir : n = Dir).
    { destruct (Hfs p) as [H | (_ & H & _)]; [| congruence].
      rewrite En in H. specialize (Hfree p (or_introl eq_refl)). rewrite <- H in Hfree.
      destruct n; [discriminate | reflexivity]. }
    subst n.
    assert (Hisdir : OS.isdir (set_files fs w) p = true).
    { unfold OS.isdir, OS.stat. simpl. rewrite (Hos SysStat p), En. reflexivity. }
    rewrite Hisdir. simpl. exists fs. split; [reflexivity | exact Hfs].
  - exists (<[p := Dir]> fs). split; [reflexivity |].
    intros q. destruct (decide (p = q)) as [<- | Hq].
    + rewrite lookup_insert_eq.
      destruct (Hfs p) as [H | (H & _)]; right; (split; [congruence | auto]).
    + rewrite lookup_insert_ne by exact Hq. apply Hfs.
Qed.

(** ** Fetching an absent resource *)

Lemma isfile_absent (w : World) (p : string) : files w !! p = None -> OS.isfile w p = false.
Proof.
  intros H. unfold OS.isfile, OS.stat. destruct (fault w SysStat p); [reflexivity |].
  rewrite H. reflexivity.
Qed.

Lemma isfile_healthy (w : World) (p : string) (g : file) :
  fault w SysStat p = None -> files w !! p = Some (File g) -> OS.isfile w p = true.
Proof. intros Hf H. unfold OS.isfile, OS.stat. rewrite Hf, H. reflexivity. Qed.

Section FetchAbsent.

Variable CONF : Conf.
Variables (env : list env_step) (url dest : string) (wait_timeout : option Q) (w : World).

Let dest_tmp : string := dest +:+ ".tmp".
Let marker : string := dest +:+ ".404".
Let dest_dir : string := Path.dirname dest.

Hypothesis os_ok : healthy_os w.
Hypothesis no_final : files w !! dest = None.
Hypothesis no_placeholder : files w !! dest_tmp = None.
Hypothesis no_marker : files w !! marker = None.
Hypothesis has_dir : dest_dir <> EmptyString.
Hypothesis proper_dir : dest_dir <> dest.
Hypothesis dir_free :
  forall d, d = dest_dir \/ In d (Path.parents (String.length dest_dir) dest_dir) ->
            OS.is_file_node (files w !! d) = false.

(** The world in which the download starts: directories made, empty
    placeholder in place, thread recorded. *)
Lemma robust_get_absent_prepares :
  exists fs1,
    robust_get CONF env url dest wait_timeout w
    = start_download CONF env url dest dest_tmp wait_timeout (set_files fs1 w)
    /\ fs1 !! dest = None /\ fs1 !! dest_tmp = None /\ fs1 !! marker = None
    /\ forall q, fs1 !! q = files w !! q \/ (files w !! q = None /\ fs1 !! q = Some Dir).
Proof.
  destruct (make_dest_dir_healthy dest_dir w os_ok has_dir dir_free) as (fs1 & Hmk & Hfs).
  assert (Hshort : (String.length dest_dir < String.length dest)%nat).
  { destruct (dirname_shorter dest) as [H | H]; [contradiction | exact H]. }
  assert (Hlong : forall q, (String.length dest <= String.length q)%nat ->
                            files w !! q = None -> fs1 !! q = None).
  { intros q Hq Hnone. destruct (Hfs q) as [H | (_ & _ & H)]; [congruence | lia]. }
  exists fs1. split; [| split; [| split; [| split]]].
  - unfold robust_get. fold marker dest_tmp dest_dir.
    rewrite (isfile_absent w marker no_marker), (isfile_absent w dest no_final),
      (isfile_absent w dest_tmp no_placeholder), Hmk. reflexivity.
  - apply Hlong; [lia | exact no_final].
  - apply Hlong; [unfold dest_tmp; rewrite app_length_string; lia | exact no_placeholder].
  - apply Hlong; [unfold marker; rewrite app_length_string; lia | exact no_marker].
  - intros q. destruct (Hfs q) as [H | (H1 & H2 & _)]; auto.
Qed.

(** Without a deadline and with nothing scheduled yet, the caller is
    suspended on the thread it has just started. *)
Lemma robust_get_absent_awaits :
  env = [] ->
  truthy wait_timeout = false ->
  exists w0,
    robust_get CONF env url dest wait_timeout w = (Suspended, w0)
    /\ fault w0 = fault w
    /\ spawned w0 = (spawned w ++ [(url, dest, dest_tmp)])%list
    /\ requests w0 = requests w
    /\ files w0 !! dest_tmp = Some (File (mkFile [] (clock w) (clock w))).
Proof.
  intros Henv Hwt.
  destruct robust_get_absent_prepares as (fs1 & Hget & Hd & Ht & Hm & _).
  rewrite Hget, Henv. unfold start_download, OS.open_wb.
  cbn [fault files set_files clock]. rewrite (os_ok SysOpen dest_tmp), Ht, Hwt.
  eexists. split; [reflexivity |]. cbn.
  split; [reflexivity |]. split; [reflexivity |]. split; [reflexivity |].
  apply lookup_insert_eq.
Qed.

(** Without a deadline the caller waits for the download; when it is
    resumed, after the step [e] of the environment, the thread has left
    the resource in one of its two terminal states in [w3], or has raised
    the [ValueError] of a malformed length and left the placeholder. *)
Lemma robust_get_absent_fetches (e : env_step) (env' : list env_step) :
  env = e :: env' ->
  (1 <= HTTP_CONN_RETRIES CONF)%Z ->
  truthy wait_timeout = false ->
  exists (res : result exn bool) w3,
    robust_get CONF env url dest wait_timeout w
    = (match res with Ok _ => Returns END_FETCH | Raise x => Raises x end, resume e w3)
    /\ fault w3 = fault w
    /\ spawned w3 = (spawned w ++ [(url, dest, dest_tmp)])%list
    /\ (1 <= length (requests w3) - length (requests w)
        <= Z.to_nat (HTTP_CONN_RETRIES CONF))%nat
    /\ match res with
       | Ok true =>
           files w3 !! dest_tmp = None
           /\ files w3 !! marker = None /\ exists g, files w3 !! dest = Some (File g)
       | Ok false =>
           files w3 !! dest_tmp = None
           /\ files w3 !! dest = None
           /\ exists t, files w3 !! marker = Some (File (mkFile [] t t))
       | Raise x =>
           x = ValueError
           /\ (exists k rq, backend w k rq = BadLength)
           /\ files w3 !! dest = None /\ files w3 !! marker = None
           /\ exists f', files w3 !! dest_tmp = Some (File f')
       end.
Proof.
  intros Henv Hn Hwt.
  destruct robust_get_absent_prepares as (fs1 & Hget & Hd & Ht & Hm & _).
  rewrite Hget, Henv. unfold start_download, OS.open_wb.
  cbn [fault files set_files clock]. rewrite (os_ok SysOpen dest_tmp), Ht, Hwt.
  set (w3 := defer_to_thread _ _).
  assert (Hf3 : files w3 !! dest_tmp = Some (File (mkFile [] (clock w) (clock w))))
    by apply lookup_insert_eq.
  unfold robust_get_sync.
  destruct (Z.to_nat (HTTP_CONN_RETRIES CONF)) as [|n] eqn:En; [lia |].
  destruct (retry_loop_terminal CONF url dest n 0 (-1) w3 _ ltac:(lia)
              ltac:(exact os_ok) Hf3)
    as (res & w' & Hloop & Hfl & Hsp & Hrq & _ & Hres).
  - unfold w3. simpl. rewrite lookup_insert_ne by apply tmp_neq_dest.
    rewrite Hd. discriminate.
  - unfold w3. simpl. rewrite lookup_insert_ne by apply tmp_neq_404.
    fold marker. rewrite Hm. discriminate.
  - fold dest_tmp in Hloop. rewrite Hloop.
    exists res, w'. split; [destruct res; reflexivity |]. split; [exact Hfl |].
    split; [rewrite Hsp; reflexivity |].
    split; [change (length (requests w3)) with (length (requests w)) in Hrq; lia |].
    assert (Hd3 : files w3 !! dest = None).
    { unfold w3. simpl. rewrite lookup_insert_ne by apply tmp_neq_dest. exact Hd. }
    assert (Hm3 : files w3 !! marker = None).
    { unfold w3. simpl. rewrite lookup_insert_ne by apply tmp_neq_404. exact Hm. }
    destruct res as [[|]|x].
    + destruct Hres as (Ht' & Hm' & g & extra & Hg & _).
      split; [exact Ht' |]. split; [unfold marker; rewrite Hm'; exact Hm3 | eauto].
    + destruct Hres as (Ht' & Hd' & Hm'). split; [exact Ht' |].
      split; [rewrite Hd'; exact Hd3 | exact Hm'].
    + destruct Hres as (Hx & Hbad & Hd' & Hm' & f' & extra & Hf' & _).
      split; [exact Hx |]. split; [exact Hbad |].
      split; [rewrite Hd'; exact Hd3 |]. split; [unfold marker; rewrite Hm'; exact Hm3 |].
      eauto.
Qed.

End FetchAbsent.

(** X5. Fetch, then hit. On a filesystem that refuses nothing, with at
    least one attempt allowed and no deadline, take a call for a resource
    that has neither final file, placeholder nor marker (its directory
    being creatable: a proper, non-empty directory name with no file on it
    or on an ancestor). The call creates the placeholder, hands exactly
    one download to a thread and is suspended on it: with nothing
    scheduled it stays suspended, no request made yet. When the download
    runs to its end while the call is suspended, the backend sending no
    [Content-Length] that [int] rejects, and the step of the environment
    after which the call resumes leaves the three paths of the resource
    alone, the call returns [END_FETCH]; the placeholder is gone by then,
    and every later call for that resource returns [CACHE_HIT] without
    touching the network or the files. *)
Theorem X5_fetch_then_hit (CONF : Conf) (e : env_step) (env : list env_step)
    (url dest : string) (wait_timeout : option Q) (w : World) :
  healthy_os w ->
  files w !! dest = None ->
  files w !! (dest +:+ ".tmp") = None ->
  files w !! (dest +:+ ".404") = None ->
  Path.dirname dest <> EmptyString ->
  Path.dirname dest <> dest ->
  (forall d, d = Path.dirname dest
             \/ In d (Path.parents (String.length (Path.dirname dest)) (Path.dirname dest)) ->
             OS.is_file_node (files w !! d) = false) ->
  (1 <= HTTP_CONN_RETRIES CONF)%Z ->
  truthy wait_timeout = false ->
  (exists w0,
      robust_get CONF [] url dest wait_timeout w = (Suspended, w0)
      /\ spawned w0 = (spawned w ++ [(url, dest, dest +:+ ".tmp")])%list
      /\ requests w0 = requests w
      /\ OS.isfile w0 (dest +:+ ".tmp") = true)
  /\ ((forall k rq, backend w k rq <> BadLength) ->
      (forall fs q, q = dest \/ q = dest +:+ ".404" \/ q = dest +:+ ".tmp" ->
                    others e fs !! q = fs !! q) ->
      exists w',
        robust_get CONF (e :: env) url dest wait_timeout w = (Returns END_FETCH, w')
        /\ spawned w' = (spawned w ++ [(url, dest, dest +:+ ".tmp")])%list
        /\ files w' !! (dest +:+ ".tmp") = None
        /\ forall env' url' wait_timeout',
             exists w'',
               robust_get CONF env' url' dest wait_timeout' w' = (Returns CACHE_HIT, w'')
               /\ only_logged w' w'').
Proof.
  intros Hos Hd Ht Hm Hdir Hproper Hfree Hn Hwt. split.
  - destruct (robust_get_absent_awaits CONF [] url dest wait_timeout w
                Hos Hd Ht Hm Hdir Hproper Hfree eq_refl Hwt)
      as (w0 & Hget & Hfl & Hsp & Hrq & Hf0).
    exists w0. split; [exact Hget |]. split; [exact Hsp |]. split; [exact Hrq |].
    apply (isfile_healthy w0 _ _) with (2 := Hf0). rewrite Hfl. apply Hos.
  - intros Hgood Hquiet.
    destruct (robust_get_absent_fetches CONF (e :: env) url dest wait_timeout w
                Hos Hd Ht Hm Hdir Hproper Hfree e env eq_refl Hn Hwt)
      as (res & w3 & Hget & Hfl & Hsp & _ & Hres).
    destruct res as [b|x].
    2: { exfalso. destruct Hres as (_ & (k & rq & Hbad) & _). apply (Hgood k rq Hbad). }
    exists (resume e w3). split; [exact Hget |]. split; [exact Hsp |].
    assert (Hstat : forall p, fault (resume e w3) SysStat p = None).
    { intros p. cbn [resume fault]. rewrite Hfl. apply Hos. }
    assert (Hsame : forall q, q = dest \/ q = dest +:+ ".404" \/ q = dest +:+ ".tmp" ->
                              files (resume e w3) !! q = files w3 !! q).
    { intros q Hq. cbn [resume files]. apply Hquiet, Hq. }
    split.
    + rewrite Hsame by auto. destruct b; apply Hres.
    + intros env' url' wt'. apply robust_get_hit.
      destruct b.
      * right. destruct Hres as (_ & _ & g & Hg).
        apply (isfile_healthy _ dest g (Hstat _)). rewrite Hsame by auto. exact Hg.
      * left. destruct Hres as (_ & _ & t & Hmk).
        apply (isfile_healthy _ _ (mkFile [] t t) (Hstat _)).
        rewrite Hsame by auto. exact Hmk.
Qed.

(** The X5 theorem on an empty cache root against a healthy backend, the
    call being resumed after one idle second. *)
Lemma X5_fetch_then_hit_witness :
  exists w',
    robust_get Examples.conf3 [Examples.tick] Examples.url Examples.dest None
      (Examples.world {[ "/cache" := Dir ]} Examples.no_fault Examples.healthy)
    = (Returns END_FETCH, w')
    /\ exists w'',
        robust_get Examples.conf3 [] Examples.url Examples.dest (Some 12%Q) w'
        = (Returns CACHE_HIT, w'').
Proof.
  destruct (X5_fetch_then_hit Examples.conf3 Examples.tick [] Examples.url Examples.dest None
              (Examples.world {[ "/cache" := Dir ]} Examples.no_fault Examples.healthy))
    as (_ & H).
  - intros s p. reflexivity.
  - vm_compute. reflexivity.
  - vm_compute. reflexivity.
  - vm_compute. reflexivity.
  - vm_compute. discriminate.
  - vm_compute. discriminate.
  - intros d Hd. vm_compute in Hd.
    destruct Hd as [-> | [<- | [<- | []]]]; vm_compute; reflexivity.
  - vm_compute. discriminate.
  - reflexivity.
  - destruct H as (w' & Hget & _ & _ & Hhit).
    + intros k rq. discriminate.
    + intros fs q _. reflexivity.
    + exists w'. split; [exact Hget |].
      destruct (Hhit [] Examples.url (Some 12%Q)) as (w'' & H & _). exists w''. exact H.
Defined.

(** ** One download per resource *)

Lemma isfile_node (w : World) (p : string) :
  fault w SysStat p = None -> OS.isfile w p = OS.is_file_node (files w !! p).
Proof.
  intros H. unfold OS.isfile, OS.stat. rewrite H.
  destruct (files w !! p) as [[g|]|]; reflexivity.
Qed.

Section Claimed.

Variable CONF : Conf.
Variable dest : string.

(** [stat] is not refused on any of the three paths of the resource. *)
Let visible (w : World) : Prop :=
  fault w SysStat (dest +:+ ".tmp") = None /\ fault w SysStat dest = None
  /\ fault w SysStat (dest +:+ ".404") = None.

Lemma wait_loop_claimed (time0 : Q) (wait_timeout : option Q) (env : list env_step) :
  Forall (keeps_claim dest) env ->
  forall w,
    claimed dest (files w) = true ->
    claimed dest (files (wait_loop env time0 wait_timeout (dest +:+ ".tmp") w).2) = true
    /\ fault (wait_loop env time0 wait_timeout (dest +:+ ".tmp") w).2 = fault w
    /\ ((wait_loop env time0 wait_timeout (dest +:+ ".tmp") w).1 = Returns END_WAIT
        \/ (wait_loop env time0 wait_timeout (dest +:+ ".tmp") w).1 = Returns MUST_WAIT
        \/ (wait_loop env time0 wait_timeout (dest +:+ ".tmp") w).1 = Suspended).
Proof.
  induction 1 as [|e env He Henv IH]; intros w Hc; simpl.
  - destruct (OS.isfile w (dest +:+ ".tmp")); simpl; auto.
  - destruct (OS.isfile w (dest +:+ ".tmp")); [| simpl; auto].
    destruct (truthy wait_timeout && _).
    + simpl. split; [apply He, Hc | auto].
    + destruct (IH (resume e (defer_later 1 w))) as (H1 & H2 & H3); [apply He, Hc |].
      auto.
Qed.

(** A call on a claimed resource leaves it claimed, starts nothing and
    returns one of the answers that mean "not mine to download". *)
Lemma robust_get_claimed (env : list env_step) (url : string) (wait_timeout : option Q)
    (w : World) :
  visible w ->
  claimed dest (files w) = true ->
  Forall (keeps_claim dest) env ->
  let r := robust_get CONF env url dest wait_timeout w in
  claimed dest (files r.2) = true /\ fault r.2 = fault w
  /\ spawned r.2 = spawned w /\ requests r.2 = requests w
  /\ (r.1 = Returns CACHE_HIT \/ r.1 = Returns END_WAIT \/ r.1 = Returns MUST_WAIT
      \/ r.1 = Suspended).
Proof.
  intros (Ht & Hd & Hm) Hc Henv r.
  assert (Hany : OS.isfile w (dest +:+ ".404") = true \/ OS.isfile w dest = true
                 \/ OS.isfile w (dest +:+ ".tmp") = true).
  { rewrite !isfile_node by assumption. unfold claimed in Hc.
    apply orb_true_iff in Hc. destruct Hc as [Hc | Hc]; [| auto].
    apply orb_true_iff in Hc. destruct Hc as [Hc | Hc]; auto. }
  destruct (placeholder_blocks_download CONF env url dest wait_timeout w Hany) as [Hsp Hrq].
  fold r in Hsp, Hrq. split; [| split; [| split; [exact Hsp | split; [exact Hrq |]]]];
    unfold r, robust_get.
  - destruct (OS.isfile w (dest +:+ ".404")); [exact Hc |].
    destruct (OS.isfile w dest); [exact Hc |].
    destruct Hany as [H | [H | H]]; try discriminate. rewrite H.
    apply (wait_loop_claimed _ _ env Henv (log_msg (LogWaiting url dest) w) Hc).
  - destruct (OS.isfile w (dest +:+ ".404")); [reflexivity |].
    destruct (OS.isfile w dest); [reflexivity |].
    destruct Hany as [H | [H | H]]; try discriminate. rewrite H.
    apply (wait_loop_claimed _ _ env Henv (log_msg (LogWaiting url dest) w) Hc).
  - destruct (OS.isfile w (dest +:+ ".404")); [auto |].
    destruct (OS.isfile w dest); [auto |].
    destruct Hany as [H | [H | H]]; try discriminate. rewrite H.
    destruct (wait_loop_claimed (clock (log_msg (LogWaiting url dest) w)) wait_timeout env
                Henv (log_msg (LogWaiting url dest) w) Hc) as (_ & _ & H3).
    tauto.
Qed.

Lemma robust_get_repeat_claimed (calls : list (list env_step * string * option Q)) :
  Forall (fun c => Forall (keeps_claim dest) c.1.1) calls ->
  forall w,
    visible w ->
    claimed dest (files w) = true ->
    spawned (robust_get_repeat CONF calls dest w).2 = spawned w
    /\ requests (robust_get_repeat CONF calls dest w).2 = requests w
    /\ Forall (fun r => r = Returns CACHE_HIT \/ r = Returns END_WAIT
                        \/ r = Returns MUST_WAIT \/ r = Suspended)
              (robust_get_repeat CONF calls dest w).1.
Proof.
  induction 1 as [|[[env url] wt] calls Hcall Hcalls IH]; intros w Hv Hc; simpl.
  - auto.
  - destruct (robust_get_claimed env url wt w Hv Hc Hcall) as (Hc1 & Hf1 & Hs1 & Hr1 & Ho1).
    destruct (robust_get CONF env url dest wt w) as [r w1]. simpl in *.
    destruct (IH w1) as (Hs2 & Hr2 & Ho2).
    + unfold visible. rewrite Hf1. exact Hv.
    + exact Hc1.
    + destruct (robust_get_repeat CONF calls dest w1) as [rs w2]. simpl in *.
      split; [congruence |]. split; [congruence |]. constructor; assumption.
Qed.

End Claimed.

(** X6. One download per resource, call after call. On a filesystem that
    refuses nothing, a call with a deadline for a resource that has neither
    final file, placeholder nor marker (its directory being creatable)
    creates the placeholder, hands one download to a thread and returns
    [MUST_WAIT] at once, without a request of its own. From then on, as
    long as whatever runs between and during the calls never returns the
    resource to the absent state (a download keeps its placeholder until
    the final file or the marker is there), no later call for that resource
    starts a download or makes a request: each one returns [CACHE_HIT],
    [END_WAIT] or [MUST_WAIT], or is still waiting. *)
Theorem X6_single_flight (CONF : Conf) (env : list env_step) (url dest : string)
    (wait_timeout : option Q) (w : World)
    (calls : list (list env_step * string * option Q)) :
  healthy_os w ->
  files w !! dest = None ->
  files w !! (dest +:+ ".tmp") = None ->
  files w !! (dest +:+ ".404") = None ->
  Path.dirname dest <> EmptyString ->
  Path.dirname dest <> dest ->
  (forall d, d = Path.dirname dest
             \/ In d (Path.parents (String.length (Path.dirname dest)) (Path.dirname dest)) ->
             OS.is_file_node (files w !! d) = false) ->
  truthy wait_timeout = true ->
  Forall (fun c => Forall (keeps_claim dest) c.1.1) calls ->
  exists w1,
    robust_get CONF env url dest wait_timeout w = (Returns MUST_WAIT, w1)
    /\ spawned w1 = (spawned w ++ [(url, dest, dest +:+ ".tmp")])%list
    /\ requests w1 = requests w
    /\ OS.isfile w1 (dest +:+ ".tmp") = true
    /\ spawned (robust_get_repeat CONF calls dest w1).2 = spawned w1
    /\ requests (robust_get_repeat CONF calls dest w1).2 = requests w1
    /\ Forall (fun r => r = Returns CACHE_HIT \/ r = Returns END_WAIT
                        \/ r = Returns MUST_WAIT \/ r = Suspended)
              (robust_get_repeat CONF calls dest w1).1.
Proof.
  intros Hos Hd Ht Hm Hdir Hproper Hfree Hwt Hcalls.
  destruct (robust_get_absent_prepares CONF env url dest wait_timeout w
              Hos Hd Ht Hm Hdir Hproper Hfree) as (fs1 & Hget & _ & Ht1 & _ & _).
  rewrite Hget. unfold start_download, OS.open_wb.
  cbn [fault files set_files clock]. rewrite (Hos SysOpen (dest +:+ ".tmp")), Ht1, Hwt.
  eexists. split; [reflexivity |].
  set (w1 := defer_to_thread _ _).
  assert (Hf1 : files w1 !! (dest +:+ ".tmp") = Some (File (mkFile [] (clock w) (clock w))))
    by apply lookup_insert_eq.
  split; [reflexivity |]. split; [reflexivity |].
  split; [apply (isfile_healthy w1 _ _ (Hos _ _) Hf1) |].
  apply robust_get_repeat_claimed.
  - exact Hcalls.
  - repeat split; apply Hos.
  - unfold claimed. rewrite Hf1. reflexivity.
Qed.

(** The X6 theorem on an empty cache root: the first call starts the
    download, the second one waits two seconds and is told to come back. *)
Lemma X6_single_flight_witness :
  exists w1,
    robust_get Examples.conf3 [] Examples.url Examples.dest (Some 12%Q)
      (Examples.world {[ "/cache" := Dir ]} Examples.no_fault Examples.healthy)
    = (Returns MUST_WAIT, w1)
    /\ length (spawned w1) = 1%nat
    /\ length (spawned (robust_get_repeat Examples.conf3
                          [([Examples.tick; Examples.tick], Examples.url, Some 1.5%Q)]
                          Examples.dest w1).2) = 1%nat.
Proof.
  destruct (X6_single_flight Examples.conf3 [] Examples.url Examples.dest (Some 12%Q)
              (Examples.world {[ "/cache" := Dir ]} Examples.no_fault Examples.healthy)
              [([Examples.tick; Examples.tick], Examples.url, Some 1.5%Q)])
    as (w1 & Hget & Hsp & _ & _ & Hsp' & _).
  - intros s p. reflexivity.
  - vm_compute. reflexivity.
  - vm_compute. reflexivity.
  - vm_compute. reflexivity.
  - vm_compute. discriminate.
  - vm_compute. discriminate.
  - intros d Hd. vm_compute in Hd.
    destruct Hd as [-> | [<- | [<- | []]]]; vm_compute; reflexivity.
  - reflexivity.
  - repeat constructor; intros fs H; exact H.
  - exists w1. split; [exact Hget |]. rewrite Hsp', Hsp. split; reflexivity.
Defined.

(** ** The startup sanitize *)

(** Unlinking with errors ignored, as the loop body of [sanitize_cache]
    and nothing else does it. *)
Lemma unlink_ignoring (p : string) (w : World) :
  match OS.unlink p w with
  | (Raise _, w') => w'
  | (Ok _, w') => w'
  end = (OS.unlink p w).2.
Proof. destruct (OS.unlink p w) as [[u|e] w']; reflexivity. Qed.

Lemma sanitize_cons (n : string) (names : list string) (printed : list string) (w : World) :
  (foldl (fun (acc : list string * World) (file_name : string) =>
            ((acc.1 ++ ["Removing spurious " +:+ file_name])%list,
             match OS.unlink file_name acc.2 with
             | (Raise _, w) => w
             | (Ok _, w) => w
             end)) (printed, w) (n :: names)).2
  = (foldl (fun (acc : list string * World) (file_name : string) =>
              ((acc.1 ++ ["Removing spurious " +:+ file_name])%list,
               match OS.unlink file_name acc.2 with
               | (Raise _, w) => w
               | (Ok _, w) => w
               end)) ((printed ++ ["Removing spurious " +:+ n])%list, (OS.unlink n w).2)
           names).2.
Proof. cbn [foldl fst snd]. rewrite unlink_ignoring. reflexivity. Qed.

(** The world after the sanitize does not depend on what was printed. *)
Lemma sanitize_world (names : list string) :
  forall (printed : list string) (w : World),
    (foldl (fun (acc : list string * World) (file_name : string) =>
              ((acc.1 ++ ["Removing spurious " +:+ file_name])%list,
               match OS.unlink file_name acc.2 with
               | (Raise _, w) => w
               | (Ok _, w) => w
               end)) (printed, w) names).2
    = (sanitize_cache names w).2.
Proof.
  unfold sanitize_cache.
  induction names as [|n names IH]; intros printed w; [reflexivity |].
  rewrite !sanitize_cons. rewrite (IH _ (OS.unlink n w).2).
  symmetry. apply IH.
Qed.

Lemma sanitize_step (n : string) (names : list string) (w : World) :
  (sanitize_cache (n :: names) w).2 = (sanitize_cache names (OS.unlink n w).2).2.
Proof. unfold sanitize_cache at 1. rewrite sanitize_cons. apply sanitize_world. Qed.

Lemma sanitize_nil (w : World) : (sanitize_cache [] w).2 = w.
Proof. reflexivity. Qed.

Lemma unlink_removes (p q : string) (w : World) :
  files (OS.unlink p w).2 !! q = files w !! q
  \/ (q = p /\ files (OS.unlink p w).2 !! q = None
      /\ fault w SysUnlink p = None /\ exists f, files w !! q = Some (File f)).
Proof.
  unfold OS.unlink. destruct (fault w SysUnlink p) eqn:Ef; [auto |].
  destruct (files w !! p) as [[f|]|] eqn:Ep; [| auto | auto].
  simpl. destruct (decide (q = p)) as [-> | Hq].
  - right. rewrite lookup_delete_eq. eauto.
  - left. apply lookup_delete_ne. congruence.
Qed.

Lemma sanitize_removes (names : list string) (q : string) :
  forall w,
    files (sanitize_cache names w).2 !! q = files w !! q
    \/ (files (sanitize_cache names w).2 !! q = None /\ In q names
        /\ exists f, files w !! q = Some (File f)).
Proof.
  induction names as [|n names IH]; intros w; [left; reflexivity |].
  rewrite sanitize_step.
  destruct (IH (OS.unlink n w).2) as [H | (H & Hin & f & Hf)].
  - rewrite H. destruct (unlink_removes n q w) as [H1 | (-> & H1 & _ & f & Hf)].
    + left. exact H1.
    + right. split; [exact H1 |]. split; [left; reflexivity | eauto].
  - right. split; [exact H |]. split; [right; exact Hin |].
    destruct (unlink_removes n q w) as [H1 | (_ & H1 & _)]; [| congruence].
    exists f. congruence.
Qed.

Lemma sanitize_frame (names : list string) :
  forall w,
    fault (sanitize_cache names w).2 = fault w
    /\ requests (sanitize_cache names w).2 = requests w
    /\ spawned (sanitize_cache names w).2 = spawned w.
Proof.
  induction names as [|n names IH]; intros w; [auto |].
  rewrite sanitize_step. destruct (IH (OS.unlink n w).2) as (H1 & H2 & H3).
  destruct (unlink_frame n w) as (F1 & _ & _ & F2 & _ & _ & F3 & _).
  rewrite H1, H2, H3. auto.
Qed.

(** Every visited regular file whose unlink is not refused is gone. *)
Lemma sanitize_clears (names : list string) (q : string) :
  forall w,
    In q names ->
    fault w SysUnlink q = None ->
    OS.is_file_node (files (sanitize_cache names w).2 !! q) = false.
Proof.
  induction names as [|n names IH]; intros w Hin Hf; [destruct Hin |].
  rewrite sanitize_step.
  destruct (decide (n = q)) as [-> | Hn].
  - destruct (unlink_files q w Hf) as [Hgone _].
    destruct (sanitize_removes names q (OS.unlink q w).2) as [H | (H & _)];
      rewrite H; [exact Hgone | reflexivity].
  - destruct Hin as [Hin | Hin]; [contradiction |].
    apply IH; [exact Hin |].
    destruct (unlink_frame n w) as (F1 & _). rewrite F1. exact Hf.
Qed.

(** A second pass finds nothing to do. *)
Lemma sanitize_again (names : list string) :
  forall w,
    (forall n, In n names -> exists e, OS.unlink n w = (Raise e, w)) ->
    (sanitize_cache names w).2 = w.
Proof.
  induction names as [|n names IH]; intros w H; [reflexivity |].
  rewrite sanitize_step.
  destruct (H n (or_introl eq_refl)) as (e & He). rewrite He. simpl.
  apply IH. intros m Hm. apply H. right. exact Hm.
Qed.

Lemma unlink_fails_after (p : string) (w : World) :
  OS.is_file_node (files w !! p) = false \/ fault w SysUnlink p <> None ->
  exists e, OS.unlink p w = (Raise e, w).
Proof.
  intros H. unfold OS.unlink.
  destruct (fault w SysUnlink p) as [e|] eqn:Ef; [eauto |].
  destruct H as [H | H]; [| congruence].
  destruct (files w !! p) as [[f|]|]; [discriminate | eauto | eauto].
Qed.

(** X7. The startup sanitize deletes what it is given and nothing else.
    After [sanitize_cache] every path is as it was or gone, and a path
    that is gone was a regular file among the names visited; a visited
    name whose unlink is not refused is no longer a file; refusals and
    missing files are passed over; a second pass over the same names
    changes nothing; no request is made and no download started. *)
Theorem X7_sanitize_removes_visited (names : list string) (w : World) (q : string) :
  let w' := (sanitize_cache names w).2 in
  (files w' !! q = files w !! q
   \/ (files w' !! q = None /\ In q names /\ exists f, files w !! q = Some (File f)))
  /\ (In q names -> fault w SysUnlink q = None -> OS.is_file_node (files w' !! q) = false)
  /\ (sanitize_cache names w').2 = w'
  /\ requests w' = requests w /\ spawned w' = spawned w.
Proof.
  intros w'.
  destruct (sanitize_frame names w) as (Hfl & Hrq & Hsp).
  split; [apply sanitize_removes |]. split; [apply sanitize_clears |].
  split; [| auto].
  apply (sanitize_again names). intros n Hn.
  apply unlink_fails_after.
  destruct (fault w SysUnlink n) as [e|] eqn:Ef.
  - right. unfold w'. rewrite Hfl, Ef. discriminate.
  - left. apply sanitize_clears; assumption.
Qed.

(** The X7 theorem on a cache holding one stale placeholder. *)
Lemma X7_sanitize_removes_visited_witness :
  OS.is_file_node
    (files (sanitize_cache [Examples.dest +:+ ".tmp"]
              (Examples.world Examples.in_progress Examples.no_fault Examples.down)).2
     !! (Examples.dest +:+ ".tmp")) = false.
Proof.
  destruct (X7_sanitize_removes_visited [Examples.dest +:+ ".tmp"]
              (Examples.world Examples.in_progress Examples.no_fault Examples.down)
              (Examples.dest +:+ ".tmp")) as (_ & H & _).
  apply H.
  - left. reflexivity.
  - reflexivity.
Defined.

(** ** A stale placeholder, and what the sanitize does about it *)

Lemma polls_idle (n : nat) (w : World) (j : nat) (wj : World) :
  polls (repeat Examples.tick n) w !! j = Some wj ->
  files wj = files w /\ fault wj = fault w.
Proof.
  revert w j. induction n as [|n IH]; intros w j H; [discriminate |].
  destruct j as [|j]; simpl in H.
  - injection H as <-. auto.
  - destruct (IH _ _ H) as [H1 H2]. rewrite H1, H2. auto.
Qed.

(** A call that finds no placeholder never enters the wait loop: the only
    place where it can be suspended is the [await] of its own download,
    without deadline, until the schedule lets it resume. *)
Lemma absent_suspends_only_awaiting (CONF : Conf) (env : list env_step) (url dest : string)
    (wait_timeout : option Q) (w : World) :
  OS.isfile w (dest +:+ ".tmp") = false ->
  (robust_get CONF env url dest wait_timeout w).1 = Suspended ->
  truthy wait_timeout = false /\ env = []
  /\ OS.isfile w (dest +:+ ".404") = false /\ OS.isfile w dest = false
  /\ spawned (robust_get CONF env url dest wait_timeout w).2
     = (spawned (make_dest_dir (Path.dirname dest) w).2
        ++ [(url, dest, dest +:+ ".tmp")])%list.
Proof.
  intros Ht. unfold robust_get.
  destruct (OS.isfile w (dest +:+ ".404")); [discriminate |].
  destruct (OS.isfile w dest); [discriminate |].
  rewrite Ht.
  destruct (make_dest_dir (Path.dirname dest) w) as [[u|x] w1]; [| discriminate].
  unfold start_download, OS.open_wb.
  destruct (fault w1 SysOpen (dest +:+ ".tmp")); [discriminate |].
  destruct (files w1 !! (dest +:+ ".tmp")) as [[g|]|]; [| discriminate |];
    (destruct (truthy wait_timeout); [discriminate |]);
    (destruct env as [|e env];
     [intros _; auto 10
     | destruct (robust_get_sync CONF url dest (dest +:+ ".tmp") _) as [[b|x] w3];
       discriminate]).
Qed.

(** X8. The startup sanitize un-sticks a crashed download. A placeholder
    left behind with neither final file nor marker keeps every caller
    without deadline polling for as long as nothing removes it (here: any
    number of idle seconds). Once [sanitize_cache] has visited it (its
    unlink not being refused), the placeholder is no longer a file, the
    resource still has neither final file nor marker, and no call for it
    polls that placeholder any more: a call with a deadline, or one that
    the schedule resumes at least once, returns or raises; a call is left
    suspended only without deadline and with nothing scheduled, and then
    it has started a download of its own and awaits it. *)
Theorem X8_sanitize_unsticks (CONF : Conf) (url dest : string) (names : list string)
    (w : World) (f : file) :
  fault w SysStat (dest +:+ ".tmp") = None ->
  fault w SysUnlink (dest +:+ ".tmp") = None ->
  files w !! (dest +:+ ".tmp") = Some (File f) ->
  OS.isfile w dest = false ->
  OS.isfile w (dest +:+ ".404") = false ->
  In (dest +:+ ".tmp") names ->
  let w' := (sanitize_cache names w).2 in
  (forall n, (robust_get CONF (repeat Examples.tick n) url dest None w).1 = Suspended)
  /\ OS.isfile w' (dest +:+ ".tmp") = false
  /\ OS.isfile w' dest = false
  /\ OS.isfile w' (dest +:+ ".404") = false
  /\ (forall env wait_timeout,
         truthy wait_timeout = true \/ env <> [] ->
         (robust_get CONF env url dest wait_timeout w').1 <> Suspended)
  /\ (forall env wait_timeout,
         (robust_get CONF env url dest wait_timeout w').1 = Suspended ->
         truthy wait_timeout = false /\ env = []
         /\ spawned (robust_get CONF env url dest wait_timeout w').2
            = (spawned (make_dest_dir (Path.dirname dest) w').2
               ++ [(url, dest, dest +:+ ".tmp")])%list).
Proof.
  intros Hst Hun Hf Hd Hm Hin w'.
  assert (Htmp : OS.isfile w (dest +:+ ".tmp") = true) by (apply (isfile_healthy w _ f); auto).
  destruct (sanitize_frame names w) as (Hfl & _ & _).
  assert (Hless : forall p, OS.isfile w p = false -> OS.isfile w' p = false).
  { intros p Hp. unfold OS.isfile, OS.stat in *. fold w' in Hfl. rewrite Hfl.
    destruct (fault w SysStat p); [reflexivity |].
    destruct (sanitize_removes names p w) as [H | (H & _)]; fold w' in H; rewrite H;
      [exact Hp | reflexivity]. }
  assert (Hgone : OS.isfile w' (dest +:+ ".tmp") = false).
  { rewrite isfile_node by (unfold w'; rewrite Hfl; exact Hst).
    apply sanitize_clears; assumption. }
  split; [| split; [exact Hgone | split; [auto | split; [auto | split]]]].
  - intros n. unfold robust_get. rewrite Hm, Hd, Htmp.
    apply wait_loop_suspended; [exact Htmp |].
    intros j wj Hj. destruct (polls_idle n _ j wj Hj) as [H1 H2].
    split; [| reflexivity].
    unfold OS.isfile, OS.stat. rewrite H1, H2. exact Htmp.
  - intros env wt Hor Hs.
    destruct (absent_suspends_only_awaiting CONF env url dest wt w' Hgone Hs)
      as (H1 & H2 & _).
    destruct Hor as [Hor | Hor]; [congruence | contradiction].
  - intros env wt Hs.
    destruct (absent_suspends_only_awaiting CONF env url dest wt w' Hgone Hs)
      as (H1 & H2 & _ & _ & H3).
    auto.
Qed.

(** The X8 theorem on a cache holding one stale placeholder. *)
Lemma X8_sanitize_unsticks_witness :
  let w := Examples.world Examples.in_progress Examples.no_fault Examples.down in
  (robust_get Examples.conf3 (repeat Examples.tick 5) Examples.url Examples.dest None w).1
  = Suspended
  /\ OS.isfile (sanitize_cache [Examples.dest +:+ ".tmp"] w).2 (Examples.dest +:+ ".tmp")
     = false.
Proof.
  intros w.
  destruct (X8_sanitize_unsticks Examples.conf3 Examples.url Examples.dest
              [Examples.dest +:+ ".tmp"] w Examples.empty_file) as (H1 & H2 & _).
  - reflexivity.
  - reflexivity.
  - vm_compute. reflexivity.
  - vm_compute. reflexivity.
  - vm_compute. reflexivity.
  - left. reflexivity.
  - split; [apply (H1 5%nat) | exact H2].
Defined.

(** ** Touching a file that was served *)

(** X9. [atouch] on a path that is no directory changes one thing at
    most. On a regular file whose [stat] and [utime] are not refused, the
    access time becomes the current time, the content stays and the
    modification time is written back as [stat] read it (times being
    rationals here, the round trip through a float is exact). On a missing
    path, or when [stat] or [utime] is refused, the world is left exactly
    as it was. No other path is ever affected. (On a directory [os.utime]
    sets the directory's times, which the model does not record: nothing
    is claimed for that case.) *)
Theorem X9_atouch_only_access_time (utime_refused : string -> option errno) (p : string)
    (w : World) :
  let w' := atouch utime_refused p w in
  (forall q, q <> p -> files w' !! q = files w !! q)
  /\ (forall f,
         files w !! p = Some (File f) ->
         fault w SysStat p = None ->
         utime_refused p = None ->
         w' = set_files (<[p := File (mkFile (f_data f) (clock w) (f_mtime f))]> (files w)) w)
  /\ (files w !! p = None \/ fault w SysStat p <> None
      \/ (files w !! p <> Some Dir /\ utime_refused p <> None) ->
      w' = w).
Proof.
  intros w'. unfold w', atouch, OS.stat, os_utime.
  split; [| split].
  - intros q Hq.
    destruct (fault w SysStat p); [reflexivity |].
    destruct (files w !! p) as [[f|]|] eqn:Ep; simpl; try reflexivity;
      destruct (utime_refused p); try reflexivity;
      rewrite ?Ep; try reflexivity.
    simpl. apply lookup_insert_ne. congruence.
  - intros f Hf Hst Hut. rewrite Hst, !Hf, Hut. reflexivity.
  - intros H.
    destruct (fault w SysStat p) as [e|] eqn:Est; [reflexivity |].
    destruct (files w !! p) as [[f|]|] eqn:Ep; simpl.
    + destruct (utime_refused p) as [e|] eqn:Eut; [reflexivity |].
      destruct H as [H | [H | [_ H]]]; congruence.
    + destruct H as [H | [H | [H _]]]; congruence.
    + reflexivity.
Qed.

(** The X9 theorem on the archive of the example cache that was last read
    a second ago: read now, it keeps its modification time of 0. *)
Lemma X9_atouch_only_access_time_witness :
  files (atouch (fun _ => None) "/cache/TARS/c.tar"
           (Examples.world Examples.cache Examples.no_fault Examples.down))
  !! "/cache/TARS/c.tar" = Some (File (mkFile [x01; x02] 1000 0)).
Proof.
  destruct (X9_atouch_only_access_time (fun _ => None) "/cache/TARS/c.tar"
              (Examples.world Examples.cache Examples.no_fault Examples.down))
    as (_ & H & _).
  rewrite (H (mkFile [x01; x02] 999 0)).
  - vm_compute. reflexivity.
  - vm_compute. reflexivity.
  - reflexivity.
  - reflexivity.
Defined.

(** X10. A content file that was just served outlives the sweeps of the
    next [CACHE_FILE_DURATION] seconds. If [atouch] went through on a
    regular file that is neither named [index.json] nor suffixed [.404],
    then in any later world where the file is still as [atouch] left it
    and less than [CACHE_FILE_DURATION + 1] seconds have passed, no sweep
    deletes it, whatever its modification time and whatever else the sweep
    visits. *)
Theorem X10_served_file_survives_sweep (CONF : Conf) (utime_refused : string -> option errno)
    (p : string) (w w2 : World) (f : file) (names : list string) :
  (0 <= CACHE_FILE_DURATION CONF)%Z ->
  files w !! p = Some (File f) ->
  fault w SysStat p = None ->
  utime_refused p = None ->
  by_mtime p = false ->
  files w2 !! p = files (atouch utime_refused p w) !! p ->
  (clock w2 - clock w < inject_Z (CACHE_FILE_DURATION CONF + 1))%Q ->
  files (clean_cache CONF names w2).2 !! p
  = Some (File (mkFile (f_data f) (clock w) (f_mtime f))).
Proof.
  intros HD Hf Hst Hut Hby Hsame Hrecent.
  assert (Htouched : files w2 !! p = Some (File (mkFile (f_data f) (clock w) (f_mtime f)))).
  { rewrite Hsame. unfold atouch, OS.stat, os_utime. rewrite Hst, !Hf, Hut.
    apply lookup_insert_eq. }
  assert (Hfs : files (clean_cache CONF names w2).2
                = files (foldl (fun a n => sweep_file CONF (clock w2) n a)
                               (0%Z, 0%Z, w2) names).2).
  { unfold clean_cache. destruct (foldl _ _ names) as [[s u] w1]. reflexivity. }
  rewrite Hfs.
  destruct (sweep_fold_removes CONF (clock w2) names p (0%Z, 0%Z, w2))
    as [H | (_ & _ & _ & g & Hg & Hexp)].
  - rewrite H. exact Htouched.
  - exfalso. simpl in Hg. rewrite Htouched in Hg. injection Hg as <-.
    unfold expired in Hexp. rewrite Hby in Hexp. simpl in Hexp.
    apply (py_int_gt _ _ HD) in Hexp.
    apply Qle_not_lt in Hexp. contradiction.
Qed.

(** The X10 theorem on the archive of the example cache last read
    1209601 s ago: touched now, it survives a sweep a minute later. *)
Lemma X10_served_file_survives_sweep_witness :
  let w := Examples.world Examples.cache Examples.no_fault Examples.down in
  let w2 := set_clock 1060 (atouch (fun _ => None) "/cache/TARS/d.tar" w) in
  files (clean_cache Examples.conf3 Examples.cache_names w2).2 !! "/cache/TARS/d.tar"
  = Some (File (mkFile Examples.body 1000 (-1208601))).
Proof.
  intros w w2.
  apply (X10_served_file_survives_sweep Examples.conf3 (fun _ => None) "/cache/TARS/d.tar"
           w w2 (mkFile Examples.body (-1208601) (-1208601)) Examples.cache_names).
  - vm_compute. discriminate.
  - vm_compute. reflexivity.
  - reflexivity.
  - reflexivity.
  - vm_compute. reflexivity.
  - reflexivity.
  - vm_compute. reflexivity.
Defined.

(** ** URL normalisation in the front end *)

Lemma append_cons (c : ascii) (a b : string) : String c a +:+ b = String c (a +:+ b).
Proof. reflexivity. Qed.

Lemma append_nil (b : string) : EmptyString +:+ b = b.
Proof. reflexivity. Qed.

Lemma split_slash_cons (s : string) : exists x xs, split_slash s = x :: xs.
Proof.
  induction s as [|c s (x & xs & IH)]; simpl; [eauto |].
  destruct (Ascii.eqb c "/"); [eauto |]. rewrite IH. eauto.
Qed.

Lemma split_slash_free (s : string) :
  Forall (fun x => slash_free x = true) (split_slash s).
Proof.
  induction s as [|c s IH]; simpl; [repeat constructor |].
  destruct (Ascii.eqb c "/") eqn:Ec; [constructor; [reflexivity | exact IH] |].
  destruct (split_slash s) as [|x xs]; [repeat constructor; simpl; rewrite Ec; reflexivity |].
  inversion IH as [|? ? Hx Hxs]; subst.
  constructor; [simpl; rewrite Ec, Hx; reflexivity | exact Hxs].
Qed.

Lemma split_slash_whole (x : string) : slash_free x = true -> split_slash x = [x].
Proof.
  induction x as [|c x IH]; simpl; [reflexivity |].
  destruct (Ascii.eqb c "/"); [discriminate |]. simpl. intros H. rewrite (IH H). reflexivity.
Qed.

Lemma split_slash_app (x r : string) :
  slash_free x = true -> split_slash (x +:+ "/" +:+ r) = x :: split_slash r.
Proof.
  induction x as [|c x IH]; intros H.
  - reflexivity.
  - rewrite append_cons. simpl in H |- *.
    destruct (Ascii.eqb c "/"); [discriminate |]. simpl in H. rewrite (IH H). reflexivity.
Qed.

Lemma split_join (l : list string) :
  Forall (fun x => slash_free x = true) l -> l <> [] -> split_slash (join_slash l) = l.
Proof.
  induction l as [|x l IH]; intros H Hne; [contradiction |].
  inversion H as [|? ? Hx Hl]; subst.
  destruct l as [|y l].
  - simpl. apply split_slash_whole, Hx.
  - change (join_slash (x :: y :: l)) with (x +:+ "/" +:+ join_slash (y :: l)).
    rewrite (split_slash_app _ _ Hx), (IH Hl); [reflexivity | discriminate].
Qed.

Lemma filter_all {A : Type} (p : A -> bool) (l : list A) :
  Forall (fun x => p x = true) l -> List.filter p l = l.
Proof.
  induction 1 as [|x l Hx _ IH]; simpl; [reflexivity |]. rewrite Hx, IH. reflexivity.
Qed.

Lemma uri_components_are_components (s : string) : Forall component (uri_components s).
Proof.
  unfold uri_components.
  induction (split_slash_free s) as [|x l Hx _ IH]; simpl; [constructor |].
  destruct (nonempty x) eqn:En; [| exact IH].
  constructor; [split; assumption | exact IH].
Qed.

Lemma uri_components_join (l : list string) :
  Forall component l -> uri_components ("/" +:+ join_slash l) = l.
Proof.
  intros H. unfold uri_components.
  change ("/" +:+ join_slash l) with (String "/" (join_slash l)).
  destruct l as [|x l]; [reflexivity |].
  change (split_slash (String "/" (join_slash (x :: l))))
    with (EmptyString :: split_slash (join_slash (x :: l))).
  rewrite split_join; [| | discriminate].
  - change (List.filter nonempty (EmptyString :: x :: l))
      with (List.filter nonempty (x :: l)).
    apply filter_all. eapply Forall_impl; [exact H |]. intros a [_ Ha]. exact Ha.
  - eapply Forall_impl; [exact H |]. intros a [Ha _]. exact Ha.
Qed.

Lemma normalized_components (s : string) :
  uri_components (normalized s) = uri_components s.
Proof. apply uri_components_join, uri_components_are_components. Qed.

Lemma normalized_fixed (s : string) : normalized (normalized s) = normalized s.
Proof. unfold normalized at 1. rewrite normalized_components. reflexivity. Qed.

(** What [process] answers once the URL is legal and in normal form: the
    result of one of the two branches, and never a permanent redirect. *)
Lemma process_normal (SITE : Site) (utime_refused : string -> option errno)
    (decode : list byte -> option string) (env : list env_step) (orig_uri : string)
    (w : World) :
  illegal (uri_components orig_uri) = false ->
  normalized orig_uri = orig_uri ->
  process SITE utime_refused decode env orig_uri w
  = (let (r, w') :=
       if has_dot (List.last (uri_components orig_uri) EmptyString)
       then process_file SITE utime_refused env orig_uri (BACKEND_PREFIX SITE +:+ orig_uri)
              (path_join (LOCAL_ROOT (SITE_CONF SITE)) (join_slash (uri_components orig_uri))) w
       else process_index SITE decode env (BACKEND_PREFIX SITE +:+ orig_uri)
              (path_join (LOCAL_ROOT (SITE_CONF SITE)) (join_slash (uri_components orig_uri))) w
     in (r, [], w')).
Proof.
  intros Hleg Hnorm. unfold process. rewrite Hleg.
  fold (normalized orig_uri). rewrite Hnorm, String.eqb_refl. reflexivity.
Qed.

Lemma process_file_codes (SITE : Site) (utime_refused : string -> option errno)
    (env : list env_step) (uri backend_uri local_path : string) (w : World)
    (r : http_response) :
  (process_file SITE utime_refused env uri backend_uri local_path w).1 = Returns r ->
  answers [302; 307]%Z (LOCAL_ROOT (SITE_CONF SITE)) r.
Proof.
  unfold process_file.
  destruct (robust_get _ env backend_uri local_path (Some 12%Q) w) as [[[]| x |] w1];
    try discriminate; simpl;
    try (destruct (nonempty (REDIRECT_STATIC_PREFIX SITE)); simpl);
    intros H; injection H as <-; simpl; auto.
Qed.

Lemma process_index_codes (SITE : Site) (decode : list byte -> option string)
    (env : list env_step) (backend_uri local_path : string) (w : World) (r : http_response) :
  (process_index SITE decode env backend_uri local_path w).1 = Returns r ->
  answers [200; 404]%Z (LOCAL_ROOT (SITE_CONF SITE)) r
  /\ r <> StaticFile (LOCAL_ROOT (SITE_CONF SITE)).
Proof.
  unfold process_index.
  destruct (robust_get _ env _ _ None w) as [[g| x |] w1]; try discriminate.
  destruct (os_read _ _ w1) as [text|[e|st|]]; simpl; try discriminate;
    intros H; injection H as <-; simpl; split; auto; discriminate.
Qed.

(** X11. The permanent redirect is final. For a legal URL (first
    component [TARS]) that is not in normal form, [process] answers 301
    with the normal form as [Location], logs it, and leaves the cache and
    the network alone. The normal form has the same components and is its
    own normal form, so the request a client then makes for it is never
    answered by the handler's 301 again: what the handler returns for it,
    if it returns, is a response with code 200, 302, 307 or 404, or the
    static-file resource of [LOCAL_ROOT], to which the request is handed
    over (the status of that answer is the resource's and is not
    modelled). *)
Theorem X11_permanent_redirect_is_final (SITE : Site)
    (utime_refused : string -> option errno) (decode : list byte -> option string)
    (env env' : list env_step) (orig_uri : string) (w w' : World) :
  illegal (uri_components orig_uri) = false ->
  normalized orig_uri <> orig_uri ->
  process SITE utime_refused decode env orig_uri w
  = (Returns (mkResp 301 [("Location", normalized orig_uri)] EmptyString),
     ["URI was normalized, " +:+ orig_uri +:+ " != " +:+ normalized orig_uri
      +:+ ": redirecting"], w)
  /\ uri_components (normalized orig_uri) = uri_components orig_uri
  /\ normalized (normalized orig_uri) = normalized orig_uri
  /\ forall r,
       (process SITE utime_refused decode env' (normalized orig_uri) w').1.1 = Returns r ->
       match r with
       | mkResp code _ _ => code = 200%Z \/ code = 302%Z \/ code = 307%Z \/ code = 404%Z
       | StaticFile root => root = LOCAL_ROOT (SITE_CONF SITE)
       end.
Proof.
  intros Hleg Hne.
  split; [| split; [apply normalized_components | split; [apply normalized_fixed |]]].
  - unfold process. rewrite Hleg. fold (normalized orig_uri).
    apply String.eqb_neq in Hne. rewrite Hne. reflexivity.
  - intros r. rewrite process_normal;
      [| rewrite normalized_components; exact Hleg | apply normalized_fixed].
    destruct (has_dot _).
    + destruct (process_file _ _ _ _ _ _ _) as [o w1] eqn:E. simpl. intros ->.
      pose proof (process_file_codes _ _ _ _ _ _ _ r (f_equal fst E)) as H.
      destruct r as [code hs b | root]; simpl in H; [| exact H].
      destruct H as [<- | [<- | []]]; auto.
    + destruct (process_index _ _ _ _ _ _) as [o w1] eqn:E. simpl. intros ->.
      destruct (process_index_codes _ _ _ _ _ _ r (f_equal fst E)) as [H _].
      destruct r as [code hs b | root]; simpl in H; [| exact H].
      destruct H as [<- | [<- | []]]; auto.
Qed.

(** The X11 theorem on a URL with doubled and trailing slashes. *)
Lemma X11_permanent_redirect_is_final_witness :
  (process (mkSite Examples.conf3 "http://fallback/" "" "http://backend") (fun _ => None)
     decode_ascii [] "//TARS//a.tar/"
     (Examples.world Examples.cache Examples.no_fault Examples.down)).1.1
  = Returns (mkResp 301 [("Location", "/TARS/a.tar")] EmptyString).
Proof.
  destruct (X11_permanent_redirect_is_final
              (mkSite Examples.conf3 "http://fallback/" "" "http://backend") (fun _ => None)
              decode_ascii [] [] "//TARS//a.tar/"
              (Examples.world Examples.cache Examples.no_fault Examples.down)
              (Examples.world Examples.cache Examples.no_fault Examples.down))
    as (H & _).
  - reflexivity.
  - vm_compute. discriminate.
  - rewrite H. reflexivity.
Defined.

(** ** The footprint of a download *)

Ltac other_path :=
  let q := fresh "q" in
  let Hq := fresh "Hq" in
  intros q Hq; cbn [fst snd files set_files];
  rewrite ?lookup_insert_ne, ?lookup_delete_ne;
  [reflexivity | intros ->; apply Hq; simpl; auto ..].

Section Touches.

Variables (url : string) (timeout : Z).

Lemma touches_quiet (paths : list string) (n : nat) (w w' : World) :
  fault w' = fault w -> backend w' = backend w -> spawned w' = spawned w ->
  yields w' = yields w -> requests w' = requests w ->
  (forall q, ~ In q paths -> files w' !! q = files w !! q) ->
  touches paths url timeout n w w'.
Proof.
  intros H1 H2 H3 H4 H5 H6. unfold touches. do 4 (split; [assumption |]).
  split; [| exact H6].
  exists []. rewrite app_nil_r. split; [exact H5 |]. split; [simpl; lia | constructor].
Qed.

Lemma touches_refl (paths : list string) (n : nat) (w : World) :
  touches paths url timeout n w w.
Proof. apply touches_quiet; reflexivity. Qed.

Lemma touches_trans (paths : list string) (n m : nat) (w1 w2 w3 : World) :
  touches paths url timeout n w1 w2 -> touches paths url timeout m w2 w3 ->
  touches paths url timeout (n + m) w1 w3.
Proof.
  intros (A1 & A2 & A3 & A4 & (rs1 & A5 & A6 & A7) & A8)
         (B1 & B2 & B3 & B4 & (rs2 & B5 & B6 & B7) & B8).
  unfold touches. do 4 (split; [congruence |]). split.
  - exists (rs1 ++ rs2)%list. split; [rewrite B5, A5, app_assoc; reflexivity |].
    split; [rewrite length_app; lia | apply Forall_app; auto].
  - intros q Hq. rewrite (B8 q Hq). apply A8, Hq.
Qed.

Lemma touches_weaken (paths paths' : list string) (n m : nat) (w w' : World) :
  (forall q, In q paths -> In q paths') -> (n <= m)%nat ->
  touches paths url timeout n w w' -> touches paths' url timeout m w w'.
Proof.
  intros Hin Hle (A1 & A2 & A3 & A4 & (rs & A5 & A6 & A7) & A8).
  unfold touches. do 4 (split; [assumption |]). split.
  - exists rs. split; [exact A5 |]. split; [lia | exact A7].
  - intros q Hq. apply A8. intros H. apply Hq, Hin, H.
Qed.

Lemma touches_then (paths : list string) (n : nat) (w1 w2 w3 : World) :
  touches paths url timeout n w1 w2 -> touches paths url timeout 0 w2 w3 ->
  touches paths url timeout n w1 w3.
Proof.
  intros H1 H2. apply (touches_weaken paths paths (n + 0) n); [auto | lia |].
  apply (touches_trans _ _ _ _ _ _ H1 H2).
Qed.

Lemma log_msg_touches (paths : list string) (e : log_event) (w : World) :
  touches paths url timeout 0 w (log_msg e w).
Proof. apply touches_quiet; reflexivity. Qed.

Lemma backoff_touches (paths : list string) (i : nat) (u dest : string) (w : World) :
  touches paths url timeout 0 w (backoff i u dest w).
Proof. unfold backoff. destruct (0 <? i)%nat; apply touches_quiet; reflexivity. Qed.

Lemma open_wb_touches (p : string) (w : World) :
  touches [p] url timeout 0 w (OS.open_wb p w).2.
Proof.
  unfold OS.open_wb. destruct (fault w SysOpen p); [apply touches_refl |].
  destruct (files w !! p) as [[g|]|]; try apply touches_refl;
    apply touches_quiet; try reflexivity; other_path.
Qed.

Lemma open_ab_touches (p : string) (w : World) :
  touches [p] url timeout 0 w (OS.open_ab p w).2.
Proof.
  unfold OS.open_ab. destruct (fault w SysOpen p); [apply touches_refl |].
  destruct (files w !! p) as [[g|]|]; try apply touches_refl;
    apply touches_quiet; try reflexivity; other_path.
Qed.

Lemma unlink_touches (p : string) (w : World) :
  touches [p] url timeout 0 w (OS.unlink p w).2.
Proof.
  unfold OS.unlink. destruct (fault w SysUnlink p); [apply touches_refl |].
  destruct (files w !! p) as [[g|]|]; try apply touches_refl;
    apply touches_quiet; try reflexivity; other_path.
Qed.

Lemma rename_touches (src dst : string) (w : World) :
  touches [src; dst] url timeout 0 w (OS.rename src dst w).2.
Proof.
  unfold OS.rename. destruct (fault w SysRename src); [apply touches_refl |].
  destruct (files w !! src) as [[g|]|]; [| | apply touches_refl];
    destruct (files w !! dst) as [[h|]|]; try apply touches_refl;
    apply touches_quiet; try reflexivity; other_path.
Qed.

Lemma append_touches (p : string) (chunk : list byte) (w : World) :
  touches [p] url timeout 0 w (OS.append p chunk w).
Proof.
  unfold OS.append. destruct (files w !! p) as [[g|]|]; try apply touches_refl.
  apply touches_quiet; try reflexivity; other_path.
Qed.

Lemma write_chunks_fold_touches (p : string) (cs : list (list byte)) :
  forall acc : Z * World,
    touches [p] url timeout 0 acc.2
      (foldl (fun (acc : Z * World) (chunk : list byte) =>
                match chunk with
                | [] => acc
                | _ => ((acc.1 + Z.of_nat (length chunk))%Z, OS.append p chunk acc.2)
                end) acc cs).2.
Proof.
  induction cs as [|c cs IH]; intros acc; [apply touches_refl |].
  cbn [foldl]. eapply touches_then; [| apply IH].
  destruct c; [apply touches_refl | apply append_touches].
Qed.

Lemma write_chunks_touches (p : string) (cs : list (list byte)) (w : World) :
  touches [p] url timeout 0 w (write_chunks p cs w).2.
Proof. apply (write_chunks_fold_touches p cs (0%Z, w)). Qed.

End Touches.

Section DownloadFootprint.

Variable CONF : Conf.
Variables (url dest dest_tmp : string).

Let three : list string := [dest_tmp; dest; dest +:+ ".404"].
Let reaches : nat -> World -> World -> Prop := touches three url (HTTP_TIMEOUT_SEC CONF).

Lemma reaches_of (paths : list string) (w w' : World) :
  (forall q, In q paths -> In q three) ->
  touches paths url (HTTP_TIMEOUT_SEC CONF) 0 w w' -> reaches 0 w w'.
Proof. intros Hin H. apply (touches_weaken _ _ paths three 0 0); auto. Qed.

Lemma download_try_touches (i : nat) (size_final : Z) (w : World) :
  reaches 1 w (download_try CONF i url dest dest_tmp size_final w).2.
Proof.
  unfold download_try.
  destruct (OS.stat w dest_tmp) as [st|e]; [| apply touches_refl].
  unfold requests_get.
  set (rq := mkRequest url (HTTP_TIMEOUT_SEC CONF) _).
  set (w1 := mkWorld _ _ _ _ (_ ++ [rq])%list _ _ _ _).
  assert (H1 : reaches 1 w w1).
  { unfold reaches, touches. do 4 (split; [reflexivity |]). split; [| reflexivity].
    exists [rq]. split; [reflexivity |]. split; [simpl; lia |].
    constructor; [split; reflexivity | constructor]. }
  destruct (backend _ _ rq) as [|resp|]; [exact H1 | | exact H1].
  cbv zeta.
  set (w2 := log_msg _ w1).
  assert (H2 : reaches 1 w w2)
    by (eapply touches_then; [exact H1 | apply log_msg_touches]).
  destruct (is_http_error (status_code resp)); [exact H2 |].
  pose proof (open_ab_touches url (HTTP_TIMEOUT_SEC CONF) dest_tmp w2) as H3.
  destruct (OS.open_ab dest_tmp w2) as [[u|e] w3]; simpl in H3.
  - pose proof (write_chunks_touches url (HTTP_TIMEOUT_SEC CONF) dest_tmp (chunks resp) w3)
      as H4.
    destruct (write_chunks dest_tmp (chunks resp) w3) as [n w4]. simpl in H4.
    assert (H5 : reaches 1 w w4).
    { eapply touches_then; [eapply touches_then; [exact H2 |] |];
        (eapply reaches_of; [| eassumption]); unfold three; simpl; intuition. }
    destruct (stream_breaks resp); [exact H5 |].
    destruct (negb (_ || _)); [exact H5 |].
    pose proof (rename_touches url (HTTP_TIMEOUT_SEC CONF) dest_tmp dest w4) as H6.
    destruct (OS.rename dest_tmp dest w4) as [[u'|e] w5]; simpl in H6.
    + eapply touches_then; [eapply touches_then; [exact H5 |] | apply log_msg_touches].
      eapply reaches_of; [| exact H6]. unfold three; simpl; intuition.
    + eapply touches_then; [exact H5 |].
      eapply reaches_of; [| exact H6]. unfold three; simpl; intuition.
  - eapply touches_then; [exact H2 |].
    eapply reaches_of; [| exact H3]. unfold three; simpl; intuition.
Qed.

Lemma download_except_touches (i : nat) (st : option Z) (w : World) :
  reaches 0 w (download_except CONF i url dest dest_tmp st w).2.
Proof.
  unfold download_except.
  destruct (_ || _); [| apply touches_refl].
  set (w1 := log_msg _ w).
  pose proof (open_wb_touches url (HTTP_TIMEOUT_SEC CONF) (dest +:+ ".404") w1) as H1.
  destruct (OS.open_wb (dest +:+ ".404") w1) as [[u|e] w2]; simpl in H1.
  - pose proof (unlink_touches url (HTTP_TIMEOUT_SEC CONF) dest_tmp w2) as H2.
    assert (H3 : reaches 0 w (OS.unlink dest_tmp w2).2).
    { eapply touches_then; [eapply touches_then; [apply log_msg_touches |] |];
        (eapply reaches_of; [| eassumption]); unfold three; simpl; intuition. }
    destruct (OS.unlink dest_tmp w2) as [[u'|e] w3]; exact H3.
  - eapply touches_then; [apply log_msg_touches |].
    eapply reaches_of; [| exact H1]. unfold three; simpl; intuition.
Qed.

Lemma attempt_touches (i : nat) (size_final : Z) (w : World) :
  reaches 1 w (attempt CONF i url dest dest_tmp size_final w).2.
Proof.
  unfold attempt.
  pose proof (download_try_touches i size_final (backoff i url dest w)) as H1.
  assert (H0 : reaches 0 w (backoff i url dest w)) by apply backoff_touches.
  destruct (download_try CONF i url dest dest_tmp size_final _) as [[[u|[e|st|]] sf1] w1];
    simpl in H1.
  4: apply (touches_trans _ _ _ 0 1 _ _ _ H0 H1).
  - apply (touches_trans _ _ _ 0 1 _ _ _ H0 H1).
  - apply (touches_trans _ _ _ 0 1 _ _ _ H0 H1).
  - pose proof (download_except_touches i st w1) as H2.
    destruct (download_except CONF i url dest dest_tmp st w1) as [fl w2]. simpl in H2.
    eapply touches_then; [apply (touches_trans _ _ _ 0 1 _ _ _ H0 H1) | exact H2].
Qed.

Lemma retry_loop_touches (attempts : list nat) :
  forall (size_final : Z) (w : World),
    reaches (length attempts) w (retry_loop CONF attempts url dest dest_tmp size_final w).2.
Proof.
  induction attempts as [|i rest IH]; intros sf w; [apply touches_refl |].
  cbn [retry_loop].
  pose proof (attempt_touches i sf w) as H1.
  destruct (attempt CONF i url dest dest_tmp sf w) as [[[b| |x] sf1] w1]; simpl in H1.
  - apply (touches_weaken _ _ three three 1 _); [auto | simpl; lia | exact H1].
  - apply (touches_trans _ _ _ 1 (length rest) _ _ _ H1 (IH sf1 w1)).
  - apply (touches_weaken _ _ three three 1 _); [auto | simpl; lia | exact H1].
Qed.

Lemma robust_get_sync_touches (w : World) :
  reaches (Z.to_nat (HTTP_CONN_RETRIES CONF)) w (robust_get_sync CONF url dest dest_tmp w).2.
Proof.
  unfold robust_get_sync.
  pose proof (retry_loop_touches (seq 0 (Z.to_nat (HTTP_CONN_RETRIES CONF))) (-1) w) as H.
  rewrite length_seq in H. exact H.
Qed.

End DownloadFootprint.

(** X12. The footprint of the downloader. Whatever the backend answers
    and whatever the filesystem refuses, [robust_get_sync] makes at most
    [HTTP_CONN_RETRIES] requests, every one of them for [url] with the
    configured timeout; it changes no path other than the placeholder, the
    final file and the failure marker; and it starts no thread and never
    suspends. *)
Theorem X12_download_footprint (CONF : Conf) (url dest dest_tmp : string) (w : World) :
  let w' := (robust_get_sync CONF url dest dest_tmp w).2 in
  (exists rs,
      requests w' = (requests w ++ rs)%list
      /\ (length rs <= Z.to_nat (HTTP_CONN_RETRIES CONF))%nat
      /\ Forall (fun rq => rq_url rq = url /\ rq_timeout rq = HTTP_TIMEOUT_SEC CONF) rs)
  /\ (forall q, q <> dest_tmp -> q <> dest -> q <> dest +:+ ".404" ->
                files w' !! q = files w !! q)
  /\ spawned w' = spawned w /\ yields w' = yields w /\ fault w' = fault w.
Proof.
  intros w'.
  destruct (robust_get_sync_touches CONF url dest dest_tmp w)
    as (H1 & _ & H3 & H4 & H5 & H6).
  split; [exact H5 |]. split; [| auto].
  intros q Ha Hb Hc. apply H6. simpl. intuition.
Qed.

(** The X12 theorem against the flaky backend: the directory of the
    resource is as it was. *)
Lemma X12_download_footprint_witness :
  files (robust_get_sync Examples.conf3 Examples.url Examples.dest (Examples.dest +:+ ".tmp")
           (Examples.world Examples.in_progress Examples.no_fault Examples.flaky)).2
  !! "/cache/TARS"
  = files (Examples.world Examples.in_progress Examples.no_fault Examples.flaky)
    !! "/cache/TARS".
Proof.
  destruct (X12_download_footprint Examples.conf3 Examples.url Examples.dest
              (Examples.dest +:+ ".tmp")
              (Examples.world Examples.in_progress Examples.no_fault Examples.flaky))
    as (_ & H & _).
  apply H; vm_compute; discriminate.
Defined.

(** ** The footprint of a call to [robust_get] *)

Lemma makedirs_adds (p : string) (w : World) :
  let w1 := (OS.makedirs p w).2 in
  fault w1 = fault w /\ backend w1 = backend w /\ spawned w1 = spawned w
  /\ yields w1 = yields w /\ requests w1 = requests w
  /\ forall q, files w1 !! q = files w !! q
               \/ (files w !! q = None /\ files w1 !! q = Some Dir).
Proof.
  unfold OS.makedirs.
  destruct (fault w SysMkdir p); [simpl; auto 10 |].
  destruct (String.eqb p EmptyString); [simpl; auto 10 |].
  destruct (existsb _ _); [simpl; auto 10 |].
  set (fs := foldl OS.mkdir_missing (files w) _).
  assert (Hfs : forall q, fs !! q = files w !! q \/ (files w !! q = None /\ fs !! q = Some Dir)).
  { intros q. destruct (mkdir_missing_fold (rev (Path.parents (String.length p) p))
                          (files w) q) as [H | (H1 & H2 & _)]; auto. }
  destruct (fs !! p) as [n|] eqn:En; simpl; do 5 (split; [reflexivity |]); [exact Hfs |].
  intros q. destruct (decide (p = q)) as [<- | Hq].
  - rewrite lookup_insert_eq. right. split; [| reflexivity].
    destruct (Hfs p) as [H | [H _]]; congruence.
  - rewrite lookup_insert_ne by exact Hq. apply Hfs.
Qed.

Lemma make_dest_dir_world (p : string) (w : World) :
  (make_dest_dir p w).2 = (OS.makedirs p w).2.
Proof.
  unfold make_dest_dir. destruct (OS.makedirs p w) as [[u|e] w1]; [reflexivity |].
  destruct (_ || _); reflexivity.
Qed.

(** X13. The footprint of a fetch. Whatever the backend answers and
    whatever the filesystem refuses, a call to [robust_get] makes at most
    [HTTP_CONN_RETRIES] requests, all for [url] with the configured
    timeout, and none at all when a deadline is given; it starts at most
    one download, and only when it saw neither marker, final file nor
    placeholder. When no placeholder is in the way, the call requests no
    one-second poll; it can be suspended only in the await of its own
    download, that is without deadline, and it is left suspended only
    when nothing is scheduled; and the files it leaves (before the step of
    the environment after which it resumes, when it awaited its download)
    are such that, beside the placeholder, the final file and the marker
    of its own resource, every path is as it was or has been created as a
    directory: no other cached file is modified or removed by the call. *)
Theorem X13_fetch_footprint (CONF : Conf) (env : list env_step) (url dest : string)
    (wait_timeout : option Q) (w : World) :
  let w' := (robust_get CONF env url dest wait_timeout w).2 in
  (exists rs,
      requests w' = (requests w ++ rs)%list
      /\ (length rs <= Z.to_nat (HTTP_CONN_RETRIES CONF))%nat
      /\ Forall (fun rq => rq_url rq = url /\ rq_timeout rq = HTTP_TIMEOUT_SEC CONF) rs
      /\ (truthy wait_timeout = true -> rs = []))
  /\ (spawned w' = spawned w
      \/ (spawned w' = (spawned w ++ [(url, dest, dest +:+ ".tmp")])%list
          /\ OS.isfile w (dest +:+ ".404") = false /\ OS.isfile w dest = false
          /\ OS.isfile w (dest +:+ ".tmp") = false))
  /\ (OS.isfile w (dest +:+ ".tmp") = false ->
      yields w' = yields w
      /\ ((robust_get CONF env url dest wait_timeout w).1 = Suspended ->
          truthy wait_timeout = false /\ env = [])
      /\ exists fs,
          (files w' = fs
           \/ exists e env', env = e :: env' /\ truthy wait_timeout = false
                             /\ files w' = others e fs)
          /\ forall q, q <> dest +:+ ".tmp" -> q <> dest -> q <> dest +:+ ".404" ->
                       fs !! q = files w !! q
                       \/ (files w !! q = None /\ fs !! q = Some Dir)).
Proof.
  intros w'.
  assert (Hquiet : forall v : World,
             requests v = requests w -> spawned v = spawned w ->
             (exists rs,
                 requests v = (requests w ++ rs)%list
                 /\ (length rs <= Z.to_nat (HTTP_CONN_RETRIES CONF))%nat
                 /\ Forall (fun rq => rq_url rq = url
                                      /\ rq_timeout rq = HTTP_TIMEOUT_SEC CONF) rs
                 /\ (truthy wait_timeout = true -> rs = []))
             /\ (spawned v = spawned w
                 \/ (spawned v = (spawned w ++ [(url, dest, dest +:+ ".tmp")])%list
                     /\ OS.isfile w (dest +:+ ".404") = false /\ OS.isfile w dest = false
                     /\ OS.isfile w (dest +:+ ".tmp") = false))).
  { intros v Hr Hs. split; [| left; exact Hs].
    exists []. rewrite app_nil_r. split; [exact Hr |]. split; [simpl; lia |].
    split; [constructor | reflexivity]. }
  assert (Hstay : forall (o : outcome GetRes) (v : World),
             o <> Suspended -> yields v = yields w ->
             (forall q, q <> dest +:+ ".tmp" -> q <> dest -> q <> dest +:+ ".404" ->
                        files v !! q = files w !! q
                        \/ (files w !! q = None /\ files v !! q = Some Dir)) ->
             yields v = yields w
             /\ (o = Suspended -> truthy wait_timeout = false /\ env = [])
             /\ exists fs,
                 (files v = fs
                  \/ exists e env', env = e :: env' /\ truthy wait_timeout = false
                                    /\ files v = others e fs)
                 /\ forall q, q <> dest +:+ ".tmp" -> q <> dest -> q <> dest +:+ ".404" ->
                              fs !! q = files w !! q
                              \/ (files w !! q = None /\ fs !! q = Some Dir)).
  { intros o v Ho Hy Hf. split; [exact Hy |]. split; [intros H; contradiction |].
    exists (files v). split; [left; reflexivity | exact Hf]. }
  unfold w', robust_get.
  destruct (OS.isfile w (dest +:+ ".404")) eqn:E404;
    [split; [apply Hquiet; reflexivity |]; split; [apply Hquiet; reflexivity |];
     intros _; apply Hstay; [discriminate | reflexivity | intros q _ _ _; left; reflexivity] |].
  destruct (OS.isfile w dest) eqn:Ed;
    [split; [apply Hquiet; reflexivity |]; split; [apply Hquiet; reflexivity |];
     intros _; apply Hstay; [discriminate | reflexivity | intros q _ _ _; left; reflexivity] |].
  destruct (OS.isfile w (dest +:+ ".tmp")) eqn:Et.
  - destruct (wait_loop_spawned env (clock (log_msg (LogWaiting url dest) w)) wait_timeout
                (dest +:+ ".tmp") (log_msg (LogWaiting url dest) w)) as [Hs Hr].
    split; [apply Hquiet; assumption |]. split; [apply Hquiet; assumption | discriminate].
  - pose proof (makedirs_adds (Path.dirname dest) w) as Hmk.
    rewrite <- make_dest_dir_world in Hmk.
    destruct (make_dest_dir (Path.dirname dest) w) as [[u|x] w1];
      cbn [snd] in Hmk; destruct Hmk as (M1 & M2 & M3 & M4 & M5 & M6).
    2: { split; [apply Hquiet; assumption |]. split; [apply Hquiet; assumption |].
         intros _. cbn [fst snd]. apply Hstay; [discriminate | exact M4 |].
         intros q _ _ _. apply M6. }
    unfold start_download.
    pose proof (open_wb_touches url (HTTP_TIMEOUT_SEC CONF) (dest +:+ ".tmp") w1) as Hop.
    destruct (OS.open_wb (dest +:+ ".tmp") w1) as [[u'|e] w2]; cbn [snd] in Hop;
      destruct Hop as (O1 & O2 & O3 & O4 & (rs0 & O5 & O6 & _) & O7).
    2: { destruct rs0; [| simpl in O6; lia]. rewrite app_nil_r in O5. cbn [fst snd].
         split; [apply Hquiet; congruence |]. split; [apply Hquiet; congruence |].
         intros _. apply Hstay; [discriminate | congruence |]. intros q Hq _ _.
         rewrite (O7 q) by (simpl; intuition). apply M6. }
    destruct rs0; [| simpl in O6; lia]. rewrite app_nil_r in O5.
    set (w3 := defer_to_thread (url, dest, dest +:+ ".tmp") w2).
    assert (Hsp : spawned w3 = (spawned w ++ [(url, dest, dest +:+ ".tmp")])%list)
      by (unfold w3; simpl; congruence).
    assert (Hy3 : yields w3 = yields w) by (unfold w3; simpl; congruence).
    assert (Hfiles : forall q, q <> dest +:+ ".tmp" ->
               files w3 !! q = files w !! q
               \/ (files w !! q = None /\ files w3 !! q = Some Dir)).
    { intros q Hq. change (files w3) with (files w2).
      rewrite (O7 q) by (simpl; intuition). apply M6. }
    assert (Hnone : exists rs,
               requests w3 = (requests w ++ rs)%list
               /\ (length rs <= Z.to_nat (HTTP_CONN_RETRIES CONF))%nat
               /\ Forall (fun rq => rq_url rq = url
                                    /\ rq_timeout rq = HTTP_TIMEOUT_SEC CONF) rs
               /\ (truthy wait_timeout = true -> rs = [])).
    { exists []. rewrite app_nil_r. split; [unfold w3; simpl; congruence |].
      split; [simpl; lia |]. split; [constructor | reflexivity]. }
    destruct (truthy wait_timeout) eqn:Ewt.
    + cbn [fst snd]. split; [exact Hnone |]. split; [right; auto |].
      intros _. apply Hstay; [discriminate | exact Hy3 |].
      intros q Hq _ _. apply Hfiles, Hq.
    + destruct env as [|e env'].
      * cbn [fst snd]. split; [exact Hnone |]. split; [right; auto |].
        intros _. split; [exact Hy3 |]. split; [auto |].
        exists (files w3). split; [left; reflexivity |].
        intros q Hq _ _. apply Hfiles, Hq.
      * pose proof (robust_get_sync_touches CONF url dest (dest +:+ ".tmp") w3) as Hsy.
        set (r := robust_get_sync CONF url dest (dest +:+ ".tmp") w3) in *.
        assert (Hw : match r with
                     | (Raise x, w) => (Raises x, resume e w)
                     | (Ok _, w) => (Returns END_FETCH, resume e w)
                     end
                     = (match r.1 with Raise x => Raises x | Ok _ => Returns END_FETCH end,
                        resume e r.2))
          by (destruct r as [[b|x] w4]; reflexivity).
        rewrite Hw. clear Hw. cbn [fst snd].
        destruct Hsy as (S1 & S2 & S3 & S4 & (rs & S5 & S6 & S7) & S8).
        split.
        -- exists rs. split; [cbn [resume requests]; rewrite S5; unfold w3; simpl; congruence |].
           split; [exact S6 |]. split; [exact S7 | discriminate].
        -- split; [right; split; [cbn [resume spawned]; congruence | auto] |].
           intros _. split; [cbn [resume yields]; congruence |].
           split; [destruct r.1; discriminate |].
           exists (files r.2). split; [right; exists e, env'; auto |].
           intros q Ha Hb Hc. rewrite (S8 q) by (simpl; intuition). apply Hfiles, Ha.
Qed.

(** The X13 theorem on the example cache, with a download for another
    resource started and nothing scheduled: the archive [c.tar] is as it
    was. *)
Lemma X13_fetch_footprint_witness :
  let w := Examples.world Examples.cache Examples.no_fault Examples.down in
  files (robust_get Examples.conf3 [] Examples.url Examples.dest None w).2
  !! "/cache/TARS/c.tar" = Some (File (mkFile [x01; x02] 999 0)).
Proof.
  intros w.
  destruct (X13_fetch_footprint Examples.conf3 [] Examples.url Examples.dest None w)
    as (_ & _ & H).
  destruct H as (_ & _ & fs & Hfs & H); [vm_compute; reflexivity |].
  destruct Hfs as [-> | (e & env' & Henv & _)]; [| discriminate Henv].
  destruct (H "/cache/TARS/c.tar") as [Hq | [Hq _]].
  - vm_compute; discriminate.
  - vm_compute; discriminate.
  - vm_compute; discriminate.
  - rewrite Hq. vm_compute. reflexivity.
  - vm_compute in Hq. discriminate Hq.
Defined.

(** ** The front end on a file URL *)

Lemma atouch_frame (utime_refused : string -> option errno) (p : string) (w : World) :
  let w' := atouch utime_refused p w in
  fault w' = fault w /\ clock w' = clock w /\ backend w' = backend w
  /\ requests w' = requests w /\ sleeps w' = sleeps w /\ yields w' = yields w
  /\ spawned w' = spawned w /\ log w' = log w.
Proof.
  unfold atouch, os_utime. destruct (OS.stat w p); [| repeat split].
  destruct (utime_refused p); [repeat split |].
  destruct (files w !! p) as [[g|]|]; repeat split.
Qed.

Lemma atouch_other (utime_refused : string -> option errno) (p q : string) (w : World) :
  q <> p -> files (atouch utime_refused p w) !! q = files w !! q.
Proof.
  intros Hq. unfold atouch, os_utime. destruct (OS.stat w p); [| reflexivity].
  destruct (utime_refused p); [reflexivity |].
  destruct (files w !! p) as [[g|]|]; try reflexivity.
  simpl. apply lookup_insert_ne. congruence.
Qed.

Lemma atouch_file (utime_refused : string -> option errno) (p : string) (w : World)
    (f : file) :
  files w !! p = Some (File f) -> fault w SysStat p = None -> utime_refused p = None ->
  files (atouch utime_refused p w) !! p
  = Some (File (mkFile (f_data f) (clock w) (f_mtime f))).
Proof.
  intros Hf Hst Hut. unfold atouch, OS.stat, os_utime. rewrite Hst, !Hf, Hut.
  apply lookup_insert_eq.
Qed.

Lemma process_file_request (SITE : Site) (utime_refused : string -> option errno)
    (decode : list byte -> option string) (env : list env_step) (orig_uri : string)
    (w : World) :
  illegal (uri_components orig_uri) = false ->
  normalized orig_uri = orig_uri ->
  has_dot (List.last (uri_components orig_uri) EmptyString) = true ->
  process SITE utime_refused decode env orig_uri w
  = (let (r, w') := process_file SITE utime_refused env orig_uri
                      (BACKEND_PREFIX SITE +:+ orig_uri) (local_path SITE orig_uri) w
     in (r, [], w')).
Proof.
  intros Hleg Hnorm Hdot. rewrite process_normal by assumption. rewrite Hdot. reflexivity.
Qed.

Lemma process_index_request (SITE : Site) (utime_refused : string -> option errno)
    (decode : list byte -> option string) (env : list env_step) (orig_uri : string)
    (w : World) :
  illegal (uri_components orig_uri) = false ->
  normalized orig_uri = orig_uri ->
  has_dot (List.last (uri_components orig_uri) EmptyString) = false ->
  process SITE utime_refused decode env orig_uri w
  = (let (r, w') := process_index SITE decode env (BACKEND_PREFIX SITE +:+ orig_uri)
                      (local_path SITE orig_uri) w
     in (r, [], w')).
Proof.
  intros Hleg Hnorm Hdot. rewrite process_normal by assumption. rewrite Hdot. reflexivity.
Qed.

(** What [process_file] does with each answer of [robust_get]. *)
Lemma process_file_after (SITE : Site) (utime_refused : string -> option errno)
    (env : list env_step) (uri backend_uri local_path : string) (w w1 : World) (g : GetRes) :
  robust_get (SITE_CONF SITE) env backend_uri local_path (Some 12%Q) w = (Returns g, w1) ->
  process_file SITE utime_refused env uri backend_uri local_path w
  = match g with
    | MUST_WAIT => (Returns (try_again uri), w1)
    | _ => (Returns (served SITE uri), atouch utime_refused local_path w1)
    end.
Proof.
  intros H. unfold process_file, served, try_again. rewrite H.
  destruct g; try reflexivity; destruct (nonempty (REDIRECT_STATIC_PREFIX SITE)); reflexivity.
Qed.

Lemma wait_loop_outcomes (env : list env_step) (time0 : Q) (wait_timeout : option Q)
    (dest_tmp : string) :
  forall w,
    (wait_loop env time0 wait_timeout dest_tmp w).1 = Returns END_WAIT
    \/ (wait_loop env time0 wait_timeout dest_tmp w).1 = Returns MUST_WAIT
    \/ (wait_loop env time0 wait_timeout dest_tmp w).1 = Suspended.
Proof.
  induction env as [|e env IH]; intros w; simpl.
  - destruct (OS.isfile w dest_tmp); auto.
  - destruct (OS.isfile w dest_tmp); [| auto].
    destruct (truthy wait_timeout && _); [auto | apply IH].
Qed.

Lemma robust_get_busy (CONF : Conf) (env : list env_step) (url dest : string)
    (wait_timeout : option Q) (w : World) :
  OS.isfile w (dest +:+ ".404") = true \/ OS.isfile w dest = true
  \/ OS.isfile w (dest +:+ ".tmp") = true ->
  (robust_get CONF env url dest wait_timeout w).1 = Returns CACHE_HIT
  \/ (robust_get CONF env url dest wait_timeout w).1 = Returns END_WAIT
  \/ (robust_get CONF env url dest wait_timeout w).1 = Returns MUST_WAIT
  \/ (robust_get CONF env url dest wait_timeout w).1 = Suspended.
Proof.
  intros H. unfold robust_get.
  destruct (OS.isfile w (dest +:+ ".404")); [auto |].
  destruct (OS.isfile w dest); [auto |].
  destruct H as [H | [H | H]]; try discriminate. rewrite H.
  right. apply wait_loop_outcomes.
Qed.

(** X14. A cached file is served without the backend. For a legal URL in
    normal form whose last component has an extension, when the final file
    or the failure marker of its local path is there, [process] answers at
    once: a 302 to [REDIRECT_STATIC_PREFIX] followed by the URL when that
    prefix is set, the static-file resource of [LOCAL_ROOT] otherwise. It
    makes no request, starts no download and does not suspend; the only
    path that may change is the local path, whose access time becomes the
    current time (content and modification time kept) when it is a regular
    file and neither [stat] nor [utime] is refused. *)
Theorem X14_cached_file_served (SITE : Site) (utime_refused : string -> option errno)
    (decode : list byte -> option string) (env : list env_step) (orig_uri : string)
    (w : World) :
  illegal (uri_components orig_uri) = false ->
  normalized orig_uri = orig_uri ->
  has_dot (List.last (uri_components orig_uri) EmptyString) = true ->
  OS.isfile w (local_path SITE orig_uri +:+ ".404") = true
  \/ OS.isfile w (local_path SITE orig_uri) = true ->
  exists w',
    process SITE utime_refused decode env orig_uri w
    = (Returns (served SITE orig_uri), [], w')
    /\ requests w' = requests w /\ spawned w' = spawned w /\ yields w' = yields w
    /\ (forall q, q <> local_path SITE orig_uri -> files w' !! q = files w !! q)
    /\ (forall f, files w !! local_path SITE orig_uri = Some (File f) ->
                  fault w SysStat (local_path SITE orig_uri) = None ->
                  utime_refused (local_path SITE orig_uri) = None ->
                  files w' !! local_path SITE orig_uri
                  = Some (File (mkFile (f_data f) (clock w) (f_mtime f)))).
Proof.
  intros Hleg Hnorm Hdot Hhit.
  destruct (robust_get_hit (SITE_CONF SITE) env (BACKEND_PREFIX SITE +:+ orig_uri)
              (local_path SITE orig_uri) (Some 12%Q) w Hhit)
    as (w1 & Hget & Hfs & Hfl & Hck & _ & Hrq & _ & Hy & Hsp).
  exists (atouch utime_refused (local_path SITE orig_uri) w1).
  destruct (atouch_frame utime_refused (local_path SITE orig_uri) w1)
    as (_ & _ & _ & A4 & _ & A6 & A7 & _).
  split; [| split; [congruence | split; [congruence | split; [congruence | split]]]].
  - rewrite process_file_request by assumption.
    rewrite (process_file_after _ _ _ _ _ _ _ _ _ Hget). reflexivity.
  - intros q Hq. rewrite atouch_other by exact Hq. rewrite Hfs. reflexivity.
  - intros f Hf Hst Hut. rewrite <- Hck.
    apply atouch_file; [rewrite Hfs; exact Hf | rewrite Hfl; exact Hst | exact Hut].
Qed.

(** The X14 theorem on the example cache: [c.tar] is served from the
    cache root and its access time moves from 999 to 1000. *)
Lemma X14_cached_file_served_witness :
  exists w',
    process example_site (fun _ => None) decode_ascii [] "/TARS/c.tar"
      (Examples.world Examples.cache Examples.no_fault Examples.down)
    = (Returns (StaticFile "/cache"), [], w')
    /\ files w' !! "/cache/TARS/c.tar" = Some (File (mkFile [x01; x02] 1000 0)).
Proof.
  destruct (X14_cached_file_served example_site (fun _ => None) decode_ascii [] "/TARS/c.tar"
              (Examples.world Examples.cache Examples.no_fault Examples.down))
    as (w' & H & _ & _ & _ & _ & Hf).
  - reflexivity.
  - reflexivity.
  - reflexivity.
  - right. vm_compute. reflexivity.
  - exists w'. split; [exact H |].
    apply (Hf (mkFile [x01; x02] 999 0)); vm_compute; reflexivity.
Defined.

(** X15. An absent file sends the client back, once. On a filesystem that
    refuses nothing, for a legal URL in normal form whose last component
    has an extension and whose local path has neither final file,
    placeholder nor marker (its directory being creatable), [process]
    answers 307 with the URL itself as [Location], having started exactly
    one download, from [BACKEND_PREFIX] followed by the URL to the local
    path, and having made no request itself. Whenever the same URL is
    asked again in a world where the placeholder, the final file or the
    marker is visible, no second download is started and no request made:
    the handler answers 307 again, serves the file, or is still waiting. *)
Theorem X15_absent_file_redirects_to_self (SITE : Site)
    (utime_refused : string -> option errno) (decode : list byte -> option string)
    (env : list env_step) (orig_uri : string) (w : World) :
  illegal (uri_components orig_uri) = false ->
  normalized orig_uri = orig_uri ->
  has_dot (List.last (uri_components orig_uri) EmptyString) = true ->
  healthy_os w ->
  files w !! local_path SITE orig_uri = None ->
  files w !! (local_path SITE orig_uri +:+ ".tmp") = None ->
  files w !! (local_path SITE orig_uri +:+ ".404") = None ->
  Path.dirname (local_path SITE orig_uri) <> EmptyString ->
  Path.dirname (local_path SITE orig_uri) <> local_path SITE orig_uri ->
  (forall d, d = Path.dirname (local_path SITE orig_uri)
             \/ In d (Path.parents (String.length (Path.dirname (local_path SITE orig_uri)))
                        (Path.dirname (local_path SITE orig_uri))) ->
             OS.is_file_node (files w !! d) = false) ->
  exists w1,
    process SITE utime_refused decode env orig_uri w
    = (Returns (try_again orig_uri), [], w1)
    /\ spawned w1
       = (spawned w ++ [(BACKEND_PREFIX SITE +:+ orig_uri, local_path SITE orig_uri,
                         local_path SITE orig_uri +:+ ".tmp")])%list
    /\ requests w1 = requests w
    /\ OS.isfile w1 (local_path SITE orig_uri +:+ ".tmp") = true
    /\ forall env' w2,
         OS.isfile w2 (local_path SITE orig_uri +:+ ".404") = true
         \/ OS.isfile w2 (local_path SITE orig_uri) = true
         \/ OS.isfile w2 (local_path SITE orig_uri +:+ ".tmp") = true ->
         spawned (process SITE utime_refused decode env' orig_uri w2).2 = spawned w2
         /\ requests (process SITE utime_refused decode env' orig_uri w2).2 = requests w2
         /\ ((process SITE utime_refused decode env' orig_uri w2).1.1
             = Returns (try_again orig_uri)
             \/ (process SITE utime_refused decode env' orig_uri w2).1.1
                = Returns (served SITE orig_uri)
             \/ (process SITE utime_refused decode env' orig_uri w2).1.1 = Suspended).
Proof.
  intros Hleg Hnorm Hdot Hos Hd Ht Hm Hdir Hproper Hfree.
  set (lp := local_path SITE orig_uri) in *.
  set (url := BACKEND_PREFIX SITE +:+ orig_uri).
  destruct (robust_get_absent_prepares (SITE_CONF SITE) env url lp (Some 12%Q) w
              Hos Hd Ht Hm Hdir Hproper Hfree) as (fs1 & Hget & _ & Ht1 & _ & _).
  destruct (start_download_spawns_once (SITE_CONF SITE) env url lp (lp +:+ ".tmp")
              (Some 12%Q)
              (set_files fs1 w)) as (w1 & Hstart & Hsp & Hrq & Hf1).
  { apply Hos. }
  { simpl. rewrite Ht1. discriminate. }
  { reflexivity. }
  rewrite Hstart in Hget.
  exists w1. split; [| split; [exact Hsp | split; [exact Hrq | split]]].
  - rewrite process_file_request by assumption. fold lp url.
    rewrite (process_file_after _ _ _ _ _ _ _ _ _ Hget). reflexivity.
  - apply (isfile_healthy w1 _ _) with (2 := Hf1).
    unfold start_download, OS.open_wb in Hstart. simpl in Hstart.
    rewrite (Hos SysOpen (lp +:+ ".tmp")), Ht1 in Hstart. simpl in Hstart.
    injection Hstart as <-. apply Hos.
  - intros env' w2 Hany.
    rewrite process_file_request by assumption. fold lp url.
    destruct (placeholder_blocks_download (SITE_CONF SITE) env' url lp (Some 12%Q) w2 Hany)
      as [Hs2 Hr2].
    pose proof (robust_get_busy (SITE_CONF SITE) env' url lp (Some 12%Q) w2 Hany) as Hout.
    destruct (robust_get (SITE_CONF SITE) env' url lp (Some 12%Q) w2) as [o w3] eqn:E.
    simpl in Hs2, Hr2, Hout.
    destruct (atouch_frame utime_refused lp w3) as (_ & _ & _ & A4 & _ & _ & A7 & _).
    destruct Hout as [-> | [-> | [-> | ->]]].
    + rewrite (process_file_after _ _ _ _ _ _ _ _ _ E). simpl.
      split; [congruence |]. split; [congruence | auto].
    + rewrite (process_file_after _ _ _ _ _ _ _ _ _ E). simpl.
      split; [congruence |]. split; [congruence | auto].
    + rewrite (process_file_after _ _ _ _ _ _ _ _ _ E). simpl. auto.
    + unfold process_file. rewrite E. simpl. auto.
Qed.

(** The X15 theorem on an empty cache root: the first request for
    [/TARS/a.tar] starts the download and is answered 307. *)
Lemma X15_absent_file_redirects_to_self_witness :
  exists w1,
    process example_site (fun _ => None) decode_ascii [] "/TARS/a.tar"
      (Examples.world {[ "/cache" := Dir ]} Examples.no_fault Examples.healthy)
    = (Returns (mkResp 307 [("Location", "/TARS/a.tar")] EmptyString), [], w1)
    /\ spawned w1 = [(Examples.url, Examples.dest, Examples.dest +:+ ".tmp")].
Proof.
  destruct (X15_absent_file_redirects_to_self example_site (fun _ => None) decode_ascii []
              "/TARS/a.tar"
              (Examples.world {[ "/cache" := Dir ]} Examples.no_fault Examples.healthy))
    as (w1 & H & Hsp & _).
  - reflexivity.
  - reflexivity.
  - reflexivity.
  - intros s p. reflexivity.
  - vm_compute. reflexivity.
  - vm_compute. reflexivity.
  - vm_compute. reflexivity.
  - vm_compute. discriminate.
  - vm_compute. discriminate.
  - intros d Hd. vm_compute in Hd.
    destruct Hd as [-> | [<- | [<- | []]]]; vm_compute; reflexivity.
  - exists w1. split; [exact H | exact Hsp].
Defined.

(** ** The front end on a directory URL *)

Lemma os_read_only_logged (decode : list byte -> option string) (p : string)
    (w w' : World) :
  only_logged w w' -> os_read decode p w' = os_read decode p w.
Proof. intros (Hf & Hfl & _). unfold os_read. rewrite Hf, Hfl. reflexivity. Qed.

(** What [os_read] gives when a step of the environment has left the path
    alone. *)
Lemma os_read_resume (decode : list byte -> option string) (e : env_step) (p : string)
    (w : World) :
  others e (files w) !! p = files w !! p ->
  os_read decode p (resume e w) = os_read decode p w.
Proof. intros H. unfold os_read. cbn [resume fault files]. rewrite H. reflexivity. Qed.

(** X16. A listing is fetched once and then answered from the cache, the
    negative answer included. On a filesystem that refuses nothing, with
    at least one attempt allowed, take a legal URL in normal form whose
    last component has no extension and whose [index.json] has neither
    final file, placeholder nor marker (its directory being creatable).
    [process] starts one download from [BACKEND_PREFIX] followed by the
    URL and a slash and is suspended on it; let the download run to its
    end meanwhile, the backend sending no [Content-Length] that [int]
    rejects, and let the step of the environment after which the handler
    resumes leave the three paths of the index alone. Then, if the index
    file is now in the cache, the handler reads it as text: it answers 200
    with the decoded text as body when the text layer decodes the bytes,
    and raises [ValueError] (the [UnicodeDecodeError], which is no
    [OSError]) when it does not; if instead the failure marker is now in
    the cache it answers 404 with the body [{}]. The same request made
    again ends the same way with no request to the backend and no change
    to the files. *)
Theorem X16_listing_fetched_once (SITE : Site) (utime_refused : string -> option errno)
    (decode : list byte -> option string) (e : env_step) (env : list env_step)
    (orig_uri : string) (w : World) :
  illegal (uri_components orig_uri) = false ->
  normalized orig_uri = orig_uri ->
  has_dot (List.last (uri_components orig_uri) EmptyString) = false ->
  healthy_os w ->
  (1 <= HTTP_CONN_RETRIES (SITE_CONF SITE))%Z ->
  files w !! index_path SITE orig_uri = None ->
  files w !! (index_path SITE orig_uri +:+ ".tmp") = None ->
  files w !! (index_path SITE orig_uri +:+ ".404") = None ->
  Path.dirname (index_path SITE orig_uri) <> EmptyString ->
  Path.dirname (index_path SITE orig_uri) <> index_path SITE orig_uri ->
  (forall d, d = Path.dirname (index_path SITE orig_uri)
             \/ In d (Path.parents (String.length (Path.dirname (index_path SITE orig_uri)))
                        (Path.dirname (index_path SITE orig_uri))) ->
             OS.is_file_node (files w !! d) = false) ->
  (forall k rq, backend w k rq <> BadLength) ->
  (forall fs q, q = index_path SITE orig_uri \/ q = index_path SITE orig_uri +:+ ".404"
                \/ q = index_path SITE orig_uri +:+ ".tmp" ->
                others e fs !! q = fs !! q) ->
  exists out w',
    process SITE utime_refused decode (e :: env) orig_uri w = (out, [], w')
    /\ spawned w'
       = (spawned w ++ [((BACKEND_PREFIX SITE +:+ orig_uri) +:+ "/", index_path SITE orig_uri,
                         index_path SITE orig_uri +:+ ".tmp")])%list
    /\ (1 <= length (requests w') - length (requests w)
        <= Z.to_nat (HTTP_CONN_RETRIES (SITE_CONF SITE)))%nat
    /\ ((exists g, files w' !! index_path SITE orig_uri = Some (File g)
                   /\ out = match decode (f_data g) with
                            | Some text =>
                                Returns (mkResp 200 [("Content-Type", "application/json")]
                                                text)
                            | None => Raises ValueError
                            end)
        \/ (files w' !! index_path SITE orig_uri = None
            /\ OS.is_file_node (files w' !! (index_path SITE orig_uri +:+ ".404")) = true
            /\ out = Returns (mkResp 404 [("Content-Type", "application/json")] "{}")))
    /\ forall env',
         exists w'',
           process SITE utime_refused decode env' orig_uri w' = (out, [], w'')
           /\ only_logged w' w''.
Proof.
  intros Hleg Hnorm Hdot Hos Hn Hd Ht Hm Hdir Hproper Hfree Hgood Hquiet.
  set (ip := index_path SITE orig_uri) in *.
  set (url := (BACKEND_PREFIX SITE +:+ orig_uri) +:+ "/").
  destruct (robust_get_absent_fetches (SITE_CONF SITE) (e :: env) url ip None w
              Hos Hd Ht Hm Hdir Hproper Hfree e env eq_refl Hn eq_refl)
    as (res & w3 & Hget & Hfl & Hsp & Hrq & Hres).
  destruct res as [b|x].
  2: { exfalso. destruct Hres as (_ & (k & rq & Hbad) & _). apply (Hgood k rq Hbad). }
  set (w' := resume e w3) in *.
  assert (Hopen : fault w' SysOpen ip = None) by (cbn [w' resume fault]; rewrite Hfl; apply Hos).
  assert (Hstat : forall p, fault w' SysStat p = None)
    by (intros p; cbn [w' resume fault]; rewrite Hfl; apply Hos).
  assert (Hsame : forall q, q = ip \/ q = ip +:+ ".404" \/ q = ip +:+ ".tmp" ->
                            files w' !! q = files w3 !! q).
  { intros q Hq. cbn [w' resume files]. apply Hquiet, Hq. }
  assert (Hproc : forall env0 w0,
             process SITE utime_refused decode env0 orig_uri w0
             = (let (r, w1) :=
                  match robust_get (SITE_CONF SITE) env0 url ip None w0 with
                  | (Suspended, w) => (Suspended, w)
                  | (Raises x, w) => (Raises x, w)
                  | (Returns _, w) =>
                      match os_read decode ip w with
                      | Ok text =>
                          (Returns (mkResp 200 [("Content-Type", "application/json")] text),
                           w)
                      | Raise (OSError _) =>
                          (Returns (mkResp 404 [("Content-Type", "application/json")] "{}"),
                           w)
                      | Raise x => (Raises x, w)
                      end
                  end in (r, [], w1))).
  { intros env0 w0. rewrite process_index_request by assumption. reflexivity. }
  destruct b.
  - destruct Hres as (_ & _ & g & Hg).
    assert (Hg' : files w' !! ip = Some (File g)) by (rewrite Hsame by auto; exact Hg).
    assert (Hread : os_read decode ip w'
                    = match decode (f_data g) with
                      | Some text => Ok text
                      | None => Raise ValueError
                      end)
      by (unfold os_read; rewrite Hopen, Hg'; reflexivity).
    exists (match decode (f_data g) with
            | Some text => Returns (mkResp 200 [("Content-Type", "application/json")] text)
            | None => Raises ValueError
            end), w'.
    split; [rewrite Hproc, Hget, Hread; destruct (decode (f_data g)); reflexivity |].
    split; [exact Hsp |]. split; [exact Hrq |]. split; [left; eauto |].
    intros env'.
    destruct (robust_get_hit (SITE_CONF SITE) env' url ip None w'
                (or_intror (isfile_healthy w' ip g (Hstat ip) Hg'))) as (w'' & Hhit & Hlog).
    exists w''. split; [| exact Hlog].
    rewrite Hproc, Hhit, (os_read_only_logged decode ip w' w'' Hlog), Hread.
    destruct (decode (f_data g)); reflexivity.
  - destruct Hres as (_ & Hnone & t & Hmk).
    assert (Hnone' : files w' !! ip = None) by (rewrite Hsame by auto; exact Hnone).
    assert (Hmk' : files w' !! (ip +:+ ".404") = Some (File (mkFile [] t t)))
      by (rewrite Hsame by auto; exact Hmk).
    assert (Hread : os_read decode ip w' = Raise (OSError ENOENT))
      by (unfold os_read; rewrite Hopen, Hnone'; reflexivity).
    exists (Returns (mkResp 404 [("Content-Type", "application/json")] "{}")), w'.
    split; [rewrite Hproc, Hget, Hread; reflexivity |].
    split; [exact Hsp |]. split; [exact Hrq |].
    split; [right; split; [exact Hnone' | split; [rewrite Hmk'; reflexivity | reflexivity]] |].
    intros env'.
    destruct (robust_get_hit (SITE_CONF SITE) env' url ip None w'
                (or_introl (isfile_healthy w' _ _ (Hstat _) Hmk'))) as (w'' & Hhit & Hlog).
    exists w''. split; [| exact Hlog].
    rewrite Hproc, Hhit, (os_read_only_logged decode ip w' w'' Hlog), Hread. reflexivity.
Qed.

(** The X16 theorem on an empty cache root against a backend that
    answers 404 to everything, the handler being resumed after one idle
    second: the listing of [/TARS] is answered 404 with the body [{}], and
    so is the next request for it. *)
Lemma X16_listing_fetched_once_witness :
  exists w' w'',
    process example_site (fun _ => None) decode_ascii [Examples.tick] "/TARS"
      (Examples.world {[ "/cache" := Dir ]} Examples.no_fault Examples.missing)
    = (Returns (mkResp 404 [("Content-Type", "application/json")] "{}"), [], w')
    /\ process example_site (fun _ => None) decode_ascii [] "/TARS" w'
       = (Returns (mkResp 404 [("Content-Type", "application/json")] "{}"), [], w'')
    /\ requests w'' = requests w'.
Proof.
  destruct (X16_listing_fetched_once example_site (fun _ => None) decode_ascii Examples.tick
              [] "/TARS"
              (Examples.world {[ "/cache" := Dir ]} Examples.no_fault Examples.missing))
    as (out & w' & H & _ & _ & Hresp & Hnext).
  - reflexivity.
  - reflexivity.
  - reflexivity.
  - intros s p. reflexivity.
  - vm_compute. discriminate.
  - vm_compute. reflexivity.
  - vm_compute. reflexivity.
  - vm_compute. reflexivity.
  - vm_compute. discriminate.
  - vm_compute. discriminate.
  - intros d Hd. vm_compute in Hd.
    destruct Hd as [-> | [<- | [<- | []]]]; vm_compute; reflexivity.
  - intros k rq. discriminate.
  - intros fs q _. reflexivity.
  - destruct (Hnext []) as (w'' & H2 & Hlog).
    assert (Hr : out = Returns (mkResp 404 [("Content-Type", "application/json")] "{}")).
    { assert (Hv : (process example_site (fun _ => None) decode_ascii [Examples.tick] "/TARS"
                      (Examples.world {[ "/cache" := Dir ]} Examples.no_fault
                         Examples.missing)).1.1
                   = Returns (mkResp 404 [("Content-Type", "application/json")] "{}"))
        by (vm_compute; reflexivity).
      rewrite H in Hv. exact Hv. }
    subst out. exists w', w''. split; [exact H |]. split; [exact H2 |].
    destruct Hlog as (_ & _ & _ & _ & Hrq & _). exact Hrq.
Defined.

(** ** Cached answers expire *)

Lemma append_inj_tail (a : string) :
  forall (b x y : string),
    String.length x = String.length y -> a +:+ x = b +:+ y -> x = y.
Proof.
  induction a as [|c a IH]; intros b x y Hl H.
  - destruct b as [|d b]; [exact H |].
    apply (f_equal String.length) in H. rewrite !app_length_string in H.
    simpl in H. lia.
  - destruct b as [|d b].
    + apply (f_equal String.length) in H. rewrite !app_length_string in H.
      simpl in H. lia.
    + rewrite !append_cons in H. injection H as _ H. apply (IH b x y Hl H).
Qed.

Lemma endswith_inv (s suffix : string) :
  Path.endswith s suffix = true -> exists a, s = a +:+ suffix.
Proof.
  induction s as [|c s IH]; cbn [Path.endswith]; intros H.
  - rewrite orb_false_r in H. apply String.eqb_eq in H. exists EmptyString. exact H.
  - apply orb_true_iff in H. destruct H as [H | H].
    + apply String.eqb_eq in H. exists EmptyString. exact H.
    + destruct (IH H) as (a & ->). exists (String c a). reflexivity.
Qed.

Lemma marker_not_tmp (dest : string) : Path.endswith (dest +:+ ".404") ".tmp" = false.
Proof.
  apply not_true_iff_false. intros H. apply endswith_inv in H. destruct H as (a & H).
  apply append_inj_tail in H; [discriminate | reflexivity].
Qed.

Lemma sweep_fold_quiet (CONF : Conf) (now : Q) (names : list string) :
  forall acc : Z * Z * World,
    requests (foldl (fun a n => sweep_file CONF now n a) acc names).2 = requests acc.2
    /\ spawned (foldl (fun a n => sweep_file CONF now n a) acc names).2 = spawned acc.2.
Proof.
  induction names as [|n names IH]; intros acc; [auto |].
  simpl. destruct (IH (sweep_file CONF now n acc)) as [H1 H2].
  destruct (sweep_file_quiet CONF now n acc) as (H3 & H4 & _).
  split; congruence.
Qed.

Lemma clean_cache_world (CONF : Conf) (names : list string) (w : World) :
  let w1 := (foldl (fun a n => sweep_file CONF (clock w) n a) (0%Z, 0%Z, w) names).2 in
  let w' := (clean_cache CONF names w).2 in
  files w' = files w1 /\ fault w' = fault w1 /\ requests w' = requests w1
  /\ spawned w' = spawned w1.
Proof.
  unfold clean_cache. destruct (foldl _ _ names) as [[s u] w1]. simpl. auto.
Qed.

(** X17. A cached answer is good until the sweep takes it, and fetched
    again afterwards. Take a resource whose final path does not end in
    [.tmp] (the sweep skips every name with that suffix, so a final file
    so named never expires), on a filesystem that refuses nothing; let it
    have exactly one answer in the cache, its final file or its failure
    marker, a regular file, with no placeholder, and let the sweep visit
    that answer; let the directory of the resource be creatable (a
    proper, non-empty directory name with no file on it or on an
    ancestor). If the answer has not expired, it survives the sweep and
    the next call is a [CACHE_HIT] that changes nothing but the log. If it
    has expired (a marker or an [index.json] by its modification time and
    [CACHE_INDEX_DURATION], any other file by its access time and
    [CACHE_FILE_DURATION]), the sweep removes it, and the next call, when
    made with a deadline, starts one download again, makes no request
    itself and returns [MUST_WAIT]. *)
Theorem X17_expired_answer_is_refetched (CONF : Conf) (names : list string)
    (env : list env_step) (url dest : string) (wait_timeout : option Q) (w : World)
    (f : file) (p : string) :
  healthy_os w ->
  p = dest \/ p = dest +:+ ".404" ->
  Path.endswith dest ".tmp" = false ->
  files w !! p = Some (File f) ->
  (forall q, q = dest \/ q = dest +:+ ".404" \/ q = dest +:+ ".tmp" -> q <> p ->
             files w !! q = None) ->
  In p names ->
  Path.dirname dest <> EmptyString ->
  Path.dirname dest <> dest ->
  (forall d, d = Path.dirname dest
             \/ In d (Path.parents (String.length (Path.dirname dest)) (Path.dirname dest)) ->
             OS.is_file_node (files w !! d) = false) ->
  truthy wait_timeout = true ->
  let w' := (clean_cache CONF names w).2 in
  if expired CONF (clock w) p f
  then files w' !! p = None
       /\ exists w1,
           robust_get CONF env url dest wait_timeout w' = (Returns MUST_WAIT, w1)
           /\ spawned w1 = (spawned w ++ [(url, dest, dest +:+ ".tmp")])%list
           /\ requests w1 = requests w
  else files w' !! p = Some (File f)
       /\ exists w1,
           robust_get CONF env url dest wait_timeout w' = (Returns CACHE_HIT, w1)
           /\ only_logged w' w1.
Proof.
  intros Hos Hp Hdtmp Hf Hothers Hin Hdir Hproper Hfree Hwt w'.
  destruct (clean_cache_world CONF names w) as (Hfs & Hfl & Hrq & Hsp).
  fold w' in Hfs, Hfl, Hrq, Hsp.
  destruct (sweep_fold_frame CONF (clock w) names (0%Z, 0%Z, w)) as [Hfl1 Hfs1].
  destruct (sweep_fold_quiet CONF (clock w) names (0%Z, 0%Z, w)) as [Hrq1 Hsp1].
  simpl in Hfl1, Hfs1, Hrq1, Hsp1.
  assert (Hos' : healthy_os w').
  { intros s q. rewrite Hfl, Hfl1. apply Hos. }
  assert (Hptmp : Path.endswith p ".tmp" = false).
  { destruct Hp as [-> | ->]; [exact Hdtmp | apply marker_not_tmp]. }
  assert (Hfate : files w' !! p = if expired CONF (clock w) p f then None else Some (File f)).
  { rewrite Hfs.
    apply (sweep_fold_fate CONF (clock w) p f names Hptmp (0%Z, 0%Z, w));
      [apply Hos | apply Hos | exact Hf | exact Hin]. }
  assert (Hnone : forall q, files w !! q = None -> files w' !! q = None).
  { intros q Hq. rewrite Hfs. destruct (Hfs1 q) as [H | H]; congruence. }
  destruct (expired CONF (clock w) p f).
  - split; [exact Hfate |].
    assert (Hgone : forall q, q = dest \/ q = dest +:+ ".404" \/ q = dest +:+ ".tmp" ->
                              files w' !! q = None).
    { intros q Hq. destruct (decide (q = p)) as [-> | Hne]; [exact Hfate |].
      apply Hnone, Hothers; assumption. }
    destruct (robust_get_absent_prepares CONF env url dest wait_timeout w' Hos')
      as (fs1 & Hget & _ & Ht1 & _ & _); auto.
    { intros d Hd. rewrite Hfs. destruct (Hfs1 d) as [H | H]; rewrite H;
        [apply Hfree, Hd | reflexivity]. }
    destruct (start_download_spawns_once CONF env url dest (dest +:+ ".tmp") wait_timeout
                (set_files fs1 w')) as (w1 & Hstart & Hsp2 & Hrq2 & _).
    { apply Hos'. }
    { simpl. rewrite Ht1. discriminate. }
    { exact Hwt. }
    exists w1. rewrite Hget. split; [exact Hstart |].
    simpl in Hsp2, Hrq2. split; congruence.
  - split; [exact Hfate |]. apply robust_get_hit.
    destruct Hp as [-> | ->]; [right | left];
      apply (isfile_healthy w' _ f (Hos' _ _) Hfate).
Qed.

(** The X17 theorem on the example cache at the clock 1000: the marker of
    [b.tar], modified at 900 with 60 s allowed, is swept, and the next
    request for [b.tar] starts a download. *)
Lemma X17_expired_answer_is_refetched_witness :
  exists w1,
    robust_get Examples.conf3 [] "http://backend/TARS/b.tar" "/cache/TARS/b.tar" (Some 12%Q)
      (clean_cache Examples.conf3 Examples.cache_names
         (Examples.world Examples.cache Examples.no_fault Examples.down)).2
    = (Returns MUST_WAIT, w1)
    /\ spawned w1
       = [("http://backend/TARS/b.tar", "/cache/TARS/b.tar", "/cache/TARS/b.tar.tmp")].
Proof.
  pose proof (X17_expired_answer_is_refetched Examples.conf3 Examples.cache_names []
                "http://backend/TARS/b.tar" "/cache/TARS/b.tar" (Some 12%Q)
                (Examples.world Examples.cache Examples.no_fault Examples.down)
                (mkFile [] 0 900) "/cache/TARS/b.tar.404") as H.
  assert (He : expired Examples.conf3
                 (clock (Examples.world Examples.cache Examples.no_fault Examples.down))
                 "/cache/TARS/b.tar.404" (mkFile [] 0 900) = true)
    by (vm_compute; reflexivity).
  rewrite He in H.
  destruct H as (_ & w1 & Hget & Hsp & _).
  - intros s q. reflexivity.
  - right. reflexivity.
  - vm_compute. reflexivity.
  - vm_compute. reflexivity.
  - intros q [-> | [-> | ->]] Hq; solve [vm_compute; reflexivity | contradiction].
  - vm_compute. auto 10.
  - vm_compute. discriminate.
  - vm_compute. discriminate.
  - intros d Hd. vm_compute in Hd.
    destruct Hd as [-> | [<- | [<- | []]]]; vm_compute; reflexivity.
  - reflexivity.
  - exists w1. split; [exact Hget | exact Hsp].
Defined.

(** ** Startup *)

Lemma existsb_agree {A : Type} (f g : A -> bool) (l : list A) :
  (forall x, In x l -> f x = g x) -> existsb f l = existsb g l.
Proof.
  induction l as [|a l IH]; intros H; [reflexivity |].
  simpl. rewrite (H a (or_introl eq_refl)), IH; [reflexivity |].
  intros x Hx. apply H. right. exact Hx.
Qed.

Section MainProofs.

Variable int_of_str : string -> option Z.
Variable environ : gmap string string.

Lemma load_key_spec (conf : gmap string value) (invalid : bool) (out : list printed)
    (k : string) :
  (load_key int_of_str environ (conf, invalid, out) k).1.1
  = <[k := loaded int_of_str environ conf k]> conf
  /\ (load_key int_of_str environ (conf, invalid, out) k).1.2
     = invalid || negb (key_ok int_of_str environ conf k).
Proof.
  unfold load_key, loaded, key_ok, effective.
  destruct (match environ !! ("REVPROXY_" +:+ k) with
            | Some s => VStr s
            | None => conf_get conf k
            end) as [|s|z]; cbn [fst snd].
  - rewrite orb_true_r. auto.
  - destruct (to_int k); [| rewrite orb_false_r; auto].
    destruct (int_of int_of_str (VStr s)); cbn [fst snd];
      [rewrite insert_insert_eq, orb_false_r | rewrite orb_true_r]; auto.
  - destruct (to_int k); [| rewrite orb_false_r; auto].
    destruct (int_of int_of_str (VInt z)); cbn [fst snd];
      [rewrite insert_insert_eq, orb_false_r | rewrite orb_true_r]; auto.
Qed.

Lemma key_ok_ext (conf conf' : gmap string value) (k : string) :
  conf' !! k = conf !! k ->
  key_ok int_of_str environ conf' k = key_ok int_of_str environ conf k
  /\ loaded int_of_str environ conf' k = loaded int_of_str environ conf k.
Proof.
  intros H. unfold key_ok, loaded, effective, conf_get. rewrite H. auto.
Qed.

Lemma load_keys_spec (ks : list string) :
  NoDup ks ->
  forall (conf : gmap string value) (invalid : bool) (out : list printed),
    (foldl (load_key int_of_str environ) (conf, invalid, out) ks).1.2
    = invalid || existsb (fun k => negb (key_ok int_of_str environ conf k)) ks
    /\ (forall k, In k ks ->
                  (foldl (load_key int_of_str environ) (conf, invalid, out) ks).1.1 !! k
                  = Some (loaded int_of_str environ conf k))
    /\ (forall k, ~ In k ks ->
                  (foldl (load_key int_of_str environ) (conf, invalid, out) ks).1.1 !! k
                  = conf !! k).
Proof.
  induction 1 as [|k0 ks Hk0 Hnd IH]; intros conf invalid out.
  - simpl. rewrite orb_false_r. split; [reflexivity |]. split; [intros k [] | auto].
  - cbn [foldl].
    destruct (load_key_spec conf invalid out k0) as [Hc Hi].
    destruct (load_key int_of_str environ (conf, invalid, out) k0) as [[conf1 inv1] out1].
    cbn [fst snd] in Hc, Hi. subst conf1 inv1.
    destruct (IH (<[k0 := loaded int_of_str environ conf k0]> conf)
                 (invalid || negb (key_ok int_of_str environ conf k0)) out1)
      as (H1 & H2 & H3).
    assert (Hsame : forall k, In k ks ->
               (<[k0 := loaded int_of_str environ conf k0]> conf) !! k = conf !! k).
    { intros k Hk. apply lookup_insert_ne. intros ->. apply Hk0.
      apply list_elem_of_In. exact Hk. }
    split; [| split].
    + rewrite H1. cbn [existsb]. rewrite <- orb_assoc. f_equal. f_equal.
      apply existsb_agree. intros k Hk.
      destruct (key_ok_ext conf _ k (Hsame k Hk)) as [-> _]. reflexivity.
    + intros k [<- | Hk].
      * rewrite H3 by (intros Hc; apply Hk0, list_elem_of_In, Hc).
        apply lookup_insert_eq.
      * rewrite (H2 k Hk). destruct (key_ok_ext conf _ k (Hsame k Hk)) as [_ ->].
        reflexivity.
    + intros k Hk. rewrite H3 by (intros Hc; apply Hk; right; exact Hc).
      apply lookup_insert_ne. intros ->. apply Hk. left. reflexivity.
Qed.

Lemma key_ok_false (conf : gmap string value) (k : string) :
  key_ok int_of_str environ conf k = false <->
  (environ !! ("REVPROXY_" +:+ k) = None
   /\ (conf_get conf k = VNone
       \/ (to_int k = true /\ int_of int_of_str (conf_get conf k) = None)))
  \/ (exists s, environ !! ("REVPROXY_" +:+ k) = Some s /\ to_int k = true
                /\ int_of_str s = None).
Proof.
  unfold key_ok, effective.
  destruct (environ !! ("REVPROXY_" +:+ k)) as [s|].
  - cbn [int_of]. destruct (to_int k) eqn:Et; [destruct (int_of_str s) eqn:Ei |].
    + split; [discriminate |].
      intros [[H _] | (s' & Hs & _ & Hi)]; [discriminate H |].
      injection Hs as <-. congruence.
    + split; [intros _; right; eauto | reflexivity].
    + split; [discriminate |].
      intros [[H _] | (s' & _ & Ht & _)]; discriminate.
  - destruct (conf_get conf k) as [|s|z].
    + split; [intros _; left; auto | reflexivity].
    + cbn [int_of]. destruct (to_int k) eqn:Et; [destruct (int_of_str s) eqn:Ei |].
      * split; [discriminate |].
        intros [[_ [H | [_ H]]] | (s' & Hs & _)]; discriminate.
      * split; [intros _; left; split; [reflexivity | right; split; reflexivity]
               | reflexivity].
      * split; [discriminate |].
        intros [[_ [H | [H _]]] | (s' & Hs & _)]; discriminate.
    + cbn [int_of]. destruct (to_int k) eqn:Et.
      * split; [discriminate |].
        intros [[_ [H | [_ H]]] | (s' & Hs & _)]; discriminate.
      * split; [discriminate |].
        intros [[_ [H | [H _]]] | (s' & Hs & _)]; discriminate.
Qed.

Lemma loaded_int (conf : gmap string value) (k : string) (d : Z) :
  to_int k = true ->
  conf !! k = Some (VInt d) ->
  key_ok int_of_str environ conf k = true ->
  exists z,
    loaded int_of_str environ conf k = VInt z
    /\ match environ !! ("REVPROXY_" +:+ k) with
       | Some s => int_of_str s = Some z
       | None => z = d
       end.
Proof.
  intros Ht Hd. unfold key_ok, loaded, effective, conf_get. rewrite Ht, Hd.
  destruct (environ !! ("REVPROXY_" +:+ k)) as [s|]; cbn [int_of default].
  - destruct (int_of_str s) as [z|]; [eauto | discriminate].
  - eauto.
Qed.

Lemma conf_keys_nodup : NoDup CONF_KEYS.
Proof.
  unfold CONF_KEYS.
  repeat (apply NoDup_cons; split;
          [intros H; apply list_elem_of_In in H; simpl in H;
           repeat (destruct H as [H | H]; [discriminate H |]); exact H |]).
  apply NoDup_nil. exact I.
Qed.

End MainProofs.

(** X18. Startup checks the configuration before it touches the cache.
    [main] exits with status 1 exactly when [REVPROXY_REDIRECT_INVALID_TO],
    [REVPROXY_BACKEND_PREFIX] or [REVPROXY_LOCAL_ROOT] is unset, or one of
    the four numeric variables is set to something [int] rejects; the
    cache is then left as it was. In every other case the cache has been
    sanitized by the time [main] ends: it serves under a configuration
    whose numeric keys are integers, read from the environment where set
    and the shipped defaults otherwise, or, [REVPROXY_PORT] not being
    among the checked keys, it dies of the [ValueError] of a port that is
    no integer. *)
Theorem X18_startup_checks_configuration (int_of_str : string -> option Z)
    (environ : gmap string string) (names : list string) (w : World) :
  let r := main int_of_str environ names w in
  let unset (k : string) := environ !! ("REVPROXY_" +:+ k) = None in
  let not_int (k : string) :=
    exists s, environ !! ("REVPROXY_" +:+ k) = Some s /\ int_of_str s = None in
  (r.1.1 = Exits 1 <->
   unset "REDIRECT_INVALID_TO" \/ unset "BACKEND_PREFIX" \/ unset "LOCAL_ROOT"
   \/ not_int "HTTP_CONN_RETRIES" \/ not_int "HTTP_TIMEOUT_SEC"
   \/ not_int "CACHE_INDEX_DURATION" \/ not_int "CACHE_FILE_DURATION")
  /\ (r.1.1 = Exits 1 -> r.2 = w)
  /\ (r.1.1 <> Exits 1 -> r.2 = (sanitize_cache names w).2)
  /\ (r.1.1 = RaisesValueError -> not_int "PORT")
  /\ (forall conf host port,
         r.1.1 = Runs conf host port ->
         forall k, In k conf_keys_to_int ->
                   exists z,
                     conf !! k = Some (VInt z)
                     /\ match environ !! ("REVPROXY_" +:+ k) with
                        | Some s => int_of_str s = Some z
                        | None => CONF_DEFAULT !! k = Some (VInt z)
                        end).
Proof.
  intros r unset not_int.
  destruct (load_keys_spec int_of_str environ CONF_KEYS conf_keys_nodup CONF_DEFAULT false [])
    as (Hinv & Hin & _).
  unfold r, main.
  destruct (foldl (load_key int_of_str environ) (CONF_DEFAULT, false, []) CONF_KEYS)
    as [[conf' inv'] out'].
  cbn [fst snd] in Hinv, Hin. rewrite orb_false_l in Hinv.
  assert (Hbad : inv' = true <->
            unset "REDIRECT_INVALID_TO" \/ unset "BACKEND_PREFIX" \/ unset "LOCAL_ROOT"
            \/ not_int "HTTP_CONN_RETRIES" \/ not_int "HTTP_TIMEOUT_SEC"
            \/ not_int "CACHE_INDEX_DURATION" \/ not_int "CACHE_FILE_DURATION").
  { rewrite Hinv. split.
    - intros H. apply existsb_exists in H. destruct H as (k & Hk & Hok).
      apply negb_true_iff in Hok. apply key_ok_false in Hok.
      unfold unset, not_int. simpl in Hk.
      repeat (destruct Hk as [<- | Hk];
              [destruct Hok as [[Hn [Hd | [Ht Hi]]] | (s & Hs & Ht & Hi)];
               try (vm_compute in Hd; discriminate Hd);
               try (vm_compute in Ht; discriminate Ht);
               try (vm_compute in Hi; discriminate Hi);
               eauto 12 |]).
      destruct Hk.
    - intros H. apply existsb_exists.
      assert (Hreq : forall k, In k CONF_KEYS -> conf_get CONF_DEFAULT k = VNone ->
                               unset k ->
                               exists x, In x CONF_KEYS
                                 /\ negb (key_ok int_of_str environ CONF_DEFAULT x) = true).
      { intros k Hk Hd Hu. exists k. split; [exact Hk |].
        apply negb_true_iff, key_ok_false. left. auto. }
      assert (Hint : forall k, In k CONF_KEYS -> to_int k = true -> not_int k ->
                               exists x, In x CONF_KEYS
                                 /\ negb (key_ok int_of_str environ CONF_DEFAULT x) = true).
      { intros k Hk Ht (s & Hs & Hi). exists k. split; [exact Hk |].
        apply negb_true_iff, key_ok_false. right. eauto. }
      destruct H as [H | [H | [H | [H | [H | [H | H]]]]]];
        [apply (Hreq _) in H | apply (Hreq _) in H | apply (Hreq _) in H
         | apply (Hint _) in H | apply (Hint _) in H | apply (Hint _) in H
         | apply (Hint _) in H];
        try exact H; try (vm_compute; reflexivity); simpl; auto 12. }
  destruct inv'.
  - split; [split; [intros _; apply Hbad; reflexivity | reflexivity] |].
    split; [reflexivity |]. split; [intros H; contradiction H; reflexivity |].
    split; [discriminate | discriminate].
  - assert (Hgood : forall k, In k CONF_KEYS ->
                              key_ok int_of_str environ CONF_DEFAULT k = true).
    { intros k Hk. symmetry in Hinv.
      destruct (key_ok int_of_str environ CONF_DEFAULT k) eqn:E; [reflexivity |].
      assert (Hex : existsb (fun k => negb (key_ok int_of_str environ CONF_DEFAULT k))
                      CONF_KEYS = true)
        by (apply existsb_exists; exists k; rewrite E; auto).
      congruence. }
    assert (Hport : conf_get conf' "PORT"
                    = match environ !! ("REVPROXY_" +:+ "PORT") with
                      | Some s => VStr s
                      | None => VInt 8181
                      end).
    { unfold conf_get. rewrite (Hin "PORT") by (simpl; auto 12).
      unfold loaded, effective.
      destruct (environ !! ("REVPROXY_" +:+ "PORT")); reflexivity. }
    destruct (sanitize_cache names w) as [lines w1] eqn:Es.
    destruct (int_of int_of_str (conf_get conf' "PORT")) as [port|] eqn:Ep; cbn [fst snd].
    + split; [split; [discriminate | intros H; apply Hbad in H; discriminate H] |].
      split; [discriminate |]. split; [reflexivity |]. split; [discriminate |].
      intros conf host port' H k Hk. injection H as <- _ _.
      assert (Hkeys : In k CONF_KEYS)
        by (simpl in Hk; simpl; intuition).
      assert (Hd : exists d, CONF_DEFAULT !! k = Some (VInt d)).
      { simpl in Hk. destruct Hk as [<- | [<- | [<- | [<- | []]]]];
          [exists 20%Z | exists 15%Z | exists 60%Z | exists 1209600%Z];
          vm_compute; reflexivity. }
      destruct Hd as (d & Hd).
      destruct (loaded_int int_of_str environ CONF_DEFAULT k d) as (z & Hz & Hsrc).
      * simpl in Hk. destruct Hk as [<- | [<- | [<- | [<- | []]]]]; reflexivity.
      * exact Hd.
      * apply Hgood, Hkeys.
      * exists z. rewrite (Hin k Hkeys), Hz. split; [reflexivity |].
        destruct (environ !! ("REVPROXY_" +:+ k)); [exact Hsrc | congruence].
    + split; [split; [discriminate | intros H; apply Hbad in H; discriminate H] |].
      split; [discriminate |]. split; [reflexivity |].
      split; [| discriminate].
      intros _. unfold not_int. rewrite Hport in Ep.
      destruct (environ !! ("REVPROXY_" +:+ "PORT")) as [s|]; [eauto | discriminate Ep].
Qed.

(** The X18 theorem on an environment that sets the backend and nothing
    else: [main] exits before the stale placeholder is removed. *)
Lemma X18_startup_checks_configuration_witness :
  main (fun _ => None) {[ "REVPROXY_BACKEND_PREFIX" := "http://backend" ]}
    [Examples.dest +:+ ".tmp"]
    (Examples.world Examples.in_progress Examples.no_fault Examples.down)
  = (Exits 1,
     (main (fun _ => None) {[ "REVPROXY_BACKEND_PREFIX" := "http://backend" ]}
        [Examples.dest +:+ ".tmp"]
        (Examples.world Examples.in_progress Examples.no_fault Examples.down)).1.2,
     Examples.world Examples.in_progress Examples.no_fault Examples.down).
Proof.
  destruct (X18_startup_checks_configuration (fun _ => None)
              {[ "REVPROXY_BACKEND_PREFIX" := "http://backend" ]}
              [Examples.dest +:+ ".tmp"]
              (Examples.world Examples.in_progress Examples.no_fault Examples.down))
    as ([_ Hexit] & Hw & _).
  assert (He : (main (fun _ => None) {[ "REVPROXY_BACKEND_PREFIX" := "http://backend" ]}
                  [Examples.dest +:+ ".tmp"]
                  (Examples.world Examples.in_progress Examples.no_fault Examples.down)).1.1
               = Exits 1)
    by (apply Hexit; left; vm_compute; reflexivity).
  rewrite (triple_eta (main _ _ _ _)). rewrite He, (Hw He). reflexivity.
Defined.

(** ** Transport errors never leave the downloader *)









